(** * Note / notebook / tag controllers of the Evernote clone

    A shallow embedding of the client-side controllers
    ([contexts/NoteContext.tsx], [contexts/AuthContext.tsx],
    [lib/onboarding.ts]) together with the declared schema
    ([instant.schema.ts]) and a model of the hosted store they write to.

    The controllers are asynchronous functions whose only effects are
    remote calls through the client handle [db], reads of the clock and
    of the identifier generator, console output, and React state updates.
    They are embedded as computations in a state-and-exception monad over
    a [World] that records every remote call in issue order. *)

From stdpp Require Import gmap strings list fin_maps pretty.
From Stdlib Require QArith Qround.

Local Open Scope string_scope.
Local Open Scope list_scope.

(** ** JavaScript values used by the controllers *)

(** A string is falsy exactly when it is empty. *)
Definition truthy (s : string) : bool :=
  match s with
  | EmptyString => false
  | String _ _ => true
  end.

(** An optional string parameter ([notebookId?: string]) passes an [if]
    test when it is supplied and not empty. *)
Definition truthy_opt (o : option string) : bool :=
  match o with
  | Some s => truthy s
  | None => false
  end.

(** The double quote character, for string constants that contain it. *)
Definition dq : string :=
  String (Ascii.Ascii false true false false false true false false) EmptyString.

(** ** Entities ([types/index.ts], [instant.schema.ts]) *)

Record User := mkUser {
  user_id : string;
  user_email : string
}.

Record NoteEntity := mkNote {
  note_id : string;
  title : string;
  content : string;
  createdAt : string;
  updatedAt : string;
  isFavorite : bool
}.

Record NotebookEntity := mkNotebook {
  notebook_id : string;
  name : string;
  description : string;
  notebook_createdAt : string
}.

Record TagEntity := mkTag {
  tag_id : string;
  tag_name : string;
  tag_createdAt : string
}.

(** A note as the live query returns it, with its [tags] and its
    [notebook] (absent when the note is in no notebook). *)
Record NoteWithRelations := mkNoteRel {
  note : NoteEntity;
  tags : list TagEntity;
  notebook : option NotebookEntity
}.

#[global] Instance User_eq_dec : EqDecision User.
Proof. solve_decision. Defined.
#[global] Instance NoteEntity_eq_dec : EqDecision NoteEntity.
Proof. solve_decision. Defined.
#[global] Instance NotebookEntity_eq_dec : EqDecision NotebookEntity.
Proof. solve_decision. Defined.
#[global] Instance TagEntity_eq_dec : EqDecision TagEntity.
Proof. solve_decision. Defined.

(** ** Schema ([instant.schema.ts]) *)

Inductive Namespace := NsUsers | NsProfiles | NsNotes | NsNotebooks | NsTags.

Inductive LinkName :=
  profileUser | noteCreator | notebookCreator | notebookNotes | noteTags
| tagCreator.

Inductive Cardinality := HasOne | HasMany.

#[global] Instance Namespace_eq_dec : EqDecision Namespace.
Proof. solve_decision. Defined.
#[global] Instance LinkName_eq_dec : EqDecision LinkName.
Proof. solve_decision. Defined.
#[global] Instance Cardinality_eq_dec : EqDecision Cardinality.
Proof. solve_decision. Defined.

Definition Namespace_to_nat (n : Namespace) : nat :=
  match n with
  | NsUsers => 0 | NsProfiles => 1 | NsNotes => 2 | NsNotebooks => 3
  | NsTags => 4
  end.

Definition Namespace_of_nat (k : nat) : option Namespace :=
  match k with
  | 0 => Some NsUsers | 1 => Some NsProfiles | 2 => Some NsNotes
  | 3 => Some NsNotebooks | 4 => Some NsTags | _ => None
  end.

#[global] Program Instance Namespace_countable : Countable Namespace :=
  inj_countable Namespace_to_nat Namespace_of_nat _.
Next Obligation. by intros []. Qed.

Definition LinkName_to_nat (l : LinkName) : nat :=
  match l with
  | profileUser => 0 | noteCreator => 1 | notebookCreator => 2
  | notebookNotes => 3 | noteTags => 4 | tagCreator => 5
  end.

Definition LinkName_of_nat (k : nat) : option LinkName :=
  match k with
  | 0 => Some profileUser | 1 => Some noteCreator | 2 => Some notebookCreator
  | 3 => Some notebookNotes | 4 => Some noteTags | 5 => Some tagCreator
  | _ => None
  end.

#[global] Program Instance LinkName_countable : Countable LinkName :=
  inj_countable LinkName_to_nat LinkName_of_nat _.
Next Obligation. by intros []. Qed.

(** One entry of the schema's [links] table. *)
Record LinkDef := mkLink {
  link_name : LinkName;
  forward_on : Namespace;
  forward_has : Cardinality;
  forward_label : string;
  reverse_on : Namespace;
  reverse_has : Cardinality;
  reverse_label : string
}.

Definition schema_links : list LinkDef :=
  [ mkLink profileUser NsProfiles HasOne "$user" NsUsers HasOne "profile";
    mkLink noteCreator NsNotes HasOne "creator" NsUsers HasMany "notes";
    mkLink notebookCreator NsNotebooks HasOne "creator" NsUsers HasMany "notebooks";
    mkLink notebookNotes NsNotebooks HasMany "notes" NsNotes HasOne "notebook";
    mkLink noteTags NsNotes HasMany "tags" NsTags HasMany "notes";
    mkLink tagCreator NsTags HasOne "creator" NsUsers HasMany "tags" ].

(** Direction in which a label on a namespace traverses a link. *)
Inductive Direction := Forward | Reverse.

Definition label_matches (ns : Namespace) (label : string) (d : LinkDef)
  : option Direction :=
  if bool_decide (forward_on d = ns ∧ forward_label d = label) then Some Forward
  else if bool_decide (reverse_on d = ns ∧ reverse_label d = label) then Some Reverse
  else None.

Fixpoint resolve_in (ls : list LinkDef) (ns : Namespace) (label : string)
  : option (LinkDef * Direction) :=
  match ls with
  | [] => None
  | d :: rest =>
      match label_matches ns label d with
      | Some dir => Some (d, dir)
      | None => resolve_in rest ns label
      end
  end.

Definition resolve_label : Namespace → string → option (LinkDef * Direction) :=
  resolve_in schema_links.

(** ** Transaction chunks ([db.tx.NAMESPACE[ENTITY_ID].ACTION(DATA)]) *)

Inductive Value := VStr (s : string) | VBool (b : bool).

#[global] Instance Value_eq_dec : EqDecision Value.
Proof. solve_decision. Defined.

(** The actions the controllers chain on an entity.  [link] and [unlink]
    take an object from labels to one identifier or an array of them. *)
Inductive Action :=
| update (attrs : list (string * Value))
| link (refs : list (string * list string))
| unlink (refs : list (string * list string))
| delete.

#[global] Instance Action_eq_dec : EqDecision Action.
Proof. solve_decision. Defined.

Record TxChunk := mkChunk {
  chunk_ns : Namespace;
  chunk_id : string;
  chunk_actions : list Action
}.

#[global] Instance TxChunk_eq_dec : EqDecision TxChunk.
Proof. solve_decision. Defined.

(** [db.tx.ns[eid]] followed by a chain of actions. *)
Definition tx (ns : Namespace) (eid : string) (acts : list Action) : TxChunk :=
  mkChunk ns eid acts.

(** ** The hosted store

    The service is not part of the repository.  It is modelled after the
    SDK guide shipped with it ([rules.md], transaction API): a
    transaction is a group of operations that execute atomically, [update]
    changes only the given fields (and creates the entity when it has
    none), [delete] removes the entity completely, [link] and [unlink]
    create and remove relationship edges, addressed by a label of the
    schema from either side.  The guide does not say what a second link
    does to a side declared [has: 'one']; here it replaces the edge that
    side held, so that the declared cardinalities always hold.  Nothing
    proved below about unlinking, deleting or updating depends on that
    choice. *)

Record Store := mkStore {
  entities : gmap (Namespace * string) (gmap string Value);
  edges : gset (LinkName * string * string)
}.

Definition empty_store : Store := mkStore ∅ ∅.

(** The edge a label denotes: the forward entity comes first. *)
Definition edge_of (d : LinkDef) (dir : Direction) (eid target : string)
  : LinkName * string * string :=
  match dir with
  | Forward => (link_name d, eid, target)
  | Reverse => (link_name d, target, eid)
  end.

(** [e'] is an edge that adding [e] to link [d] displaces. *)
Definition displaced_by (d : LinkDef) (e e' : LinkName * string * string) : bool :=
  bool_decide (e'.1.1 = e.1.1) &&
  (bool_decide (forward_has d = HasOne ∧ e'.1.2 = e.1.2)
   || bool_decide (reverse_has d = HasOne ∧ e'.2 = e.2)).

Definition add_edge (d : LinkDef) (e : LinkName * string * string)
  (es : gset (LinkName * string * string)) : gset (LinkName * string * string) :=
  {[ e ]} ∪ filter (λ e', ¬ displaced_by d e e') es.

Definition link_def (l : LinkName) : option LinkDef :=
  List.find (λ d, bool_decide (link_name d = l)) schema_links.

(** [e] is an edge that has entity [eid] of namespace [ns] at one end. *)
Definition touches (ns : Namespace) (eid : string)
  (e : LinkName * string * string) : bool :=
  match link_def e.1.1 with
  | Some d =>
      bool_decide (forward_on d = ns ∧ e.1.2 = eid)
      || bool_decide (reverse_on d = ns ∧ e.2 = eid)
  | None => false
  end.

Definition set_attrs (attrs : list (string * Value)) (old : gmap string Value)
  : gmap string Value :=
  foldl (λ m kv, <[ kv.1 := kv.2 ]> m) old attrs.

Definition link_one (ns : Namespace) (eid : string) (s : Store)
  (ref : string * list string) : option Store :=
  match resolve_label ns ref.1 with
  | Some (d, dir) =>
      Some (mkStore (entities s)
              (foldl (λ es t, add_edge d (edge_of d dir eid t) es) (edges s) ref.2))
  | None => None
  end.

Definition unlink_one (ns : Namespace) (eid : string) (s : Store)
  (ref : string * list string) : option Store :=
  match resolve_label ns ref.1 with
  | Some (d, dir) =>
      Some (mkStore (entities s)
              (foldl (λ es t, es ∖ {[ edge_of d dir eid t ]}) (edges s) ref.2))
  | None => None
  end.

(** Folding a step that may be refused: the first refusal refuses all. *)
Fixpoint fold_steps {A S : Type} (step : S → A → option S) (s : S) (l : list A)
  : option S :=
  match l with
  | [] => Some s
  | a :: rest =>
      match step s a with
      | Some s' => fold_steps step s' rest
      | None => None
      end
  end.

Definition apply_action (ns : Namespace) (eid : string) (s : Store) (a : Action)
  : option Store :=
  match a with
  | update attrs =>
      Some (mkStore
              (<[ (ns, eid) := set_attrs attrs (default ∅ (entities s !! (ns, eid))) ]>
                 (entities s))
              (edges s))
  | link refs => fold_steps (link_one ns eid) s refs
  | unlink refs => fold_steps (unlink_one ns eid) s refs
  | delete =>
      Some (mkStore (base.delete (ns, eid) (entities s))
              (filter (λ e, ¬ touches ns eid e) (edges s)))
  end.

Definition apply_chunk (s : Store) (c : TxChunk) : option Store :=
  fold_steps (apply_action (chunk_ns c) (chunk_id c)) s (chunk_actions c).

(** A transaction: every chunk in order, or nothing at all. *)
Definition apply_tx (s : Store) (chunks : list TxChunk) : option Store :=
  fold_steps apply_chunk s chunks.

(** The identifiers of the entities a namespace holds. *)
Definition entity_ids (s : Store) (ns : Namespace) : list string :=
  omap (λ k, if bool_decide (k.1 = ns) then Some k.2 else None)
    (map fst (map_to_list (entities s))).

(** The notes linked to a creator, as a one-shot or live query with
    [where: { 'creator.id': uid }] selects them. *)
Definition notes_of_creator (s : Store) (uid : string) : list string :=
  List.filter (λ nid, bool_decide ((noteCreator, nid, uid) ∈ edges s))
    (entity_ids s NsNotes).

(** ** The world the controllers run in *)

(** One-shot query of the shape the auth controller issues:
    [{ notes: { $: { where: { 'creator.id': uid }, limit: n } } }]. *)
Record Query := mkQuery {
  where_creator_id : string;
  query_limit : nat
}.

(** Calls through the client handle [db], as they go over the wire. *)
Inductive RemoteCall :=
| Transact (chunks : list TxChunk)
| QueryOnce (q : Query)
| SendMagicCode (email : string)
| SignInWithMagicCode (email code : string)
| SignOut.

#[global] Instance Query_eq_dec : EqDecision Query.
Proof. solve_decision. Defined.
#[global] Instance RemoteCall_eq_dec : EqDecision RemoteCall.
Proof. solve_decision. Defined.

Inductive LogLevel := LogInfo | LogError.

(** What the controllers cannot decide: the identifiers [id()] returns,
    the readings of [new Date().toISOString()], which remote calls the
    service rejects (network, permission) and with what error, and the
    account the auth service keeps for an email address.  Remote calls
    are numbered in issue order. *)
Record Env := mkEnv {
  gen_id : nat → string;
  clock : nat → string;
  rejection : nat → option string;
  account : string → User
}.

Record World := mkWorld {
  store : Store;
  (** [db.useAuth()]: the ambient identity and the loading flag *)
  session : option User;
  auth_loading : bool;
  (** every remote call issued so far, oldest first *)
  calls : list RemoteCall;
  console : list (LogLevel * string);
  ids_drawn : nat;
  clock_reads : nat;
  (** [AuthProvider]: React state, ref and router *)
  sentEmail : option string;
  previousUserRef : option string;
  pathname : string;
  pushes : list string
}.

Definition with_store (s : Store) (w : World) : World :=
  mkWorld s (session w) (auth_loading w) (calls w) (console w) (ids_drawn w)
    (clock_reads w) (sentEmail w) (previousUserRef w) (pathname w) (pushes w).

Definition with_session (u : option User) (w : World) : World :=
  mkWorld (store w) u (auth_loading w) (calls w) (console w) (ids_drawn w)
    (clock_reads w) (sentEmail w) (previousUserRef w) (pathname w) (pushes w).

Definition with_calls (cs : list RemoteCall) (w : World) : World :=
  mkWorld (store w) (session w) (auth_loading w) cs (console w) (ids_drawn w)
    (clock_reads w) (sentEmail w) (previousUserRef w) (pathname w) (pushes w).

Definition with_console (c : list (LogLevel * string)) (w : World) : World :=
  mkWorld (store w) (session w) (auth_loading w) (calls w) c (ids_drawn w)
    (clock_reads w) (sentEmail w) (previousUserRef w) (pathname w) (pushes w).

Definition with_ids_drawn (n : nat) (w : World) : World :=
  mkWorld (store w) (session w) (auth_loading w) (calls w) (console w) n
    (clock_reads w) (sentEmail w) (previousUserRef w) (pathname w) (pushes w).

Definition with_clock_reads (n : nat) (w : World) : World :=
  mkWorld (store w) (session w) (auth_loading w) (calls w) (console w)
    (ids_drawn w) n (sentEmail w) (previousUserRef w) (pathname w) (pushes w).

Definition with_sentEmail (e : option string) (w : World) : World :=
  mkWorld (store w) (session w) (auth_loading w) (calls w) (console w)
    (ids_drawn w) (clock_reads w) e (previousUserRef w) (pathname w) (pushes w).

Definition with_previousUserRef (p : option string) (w : World) : World :=
  mkWorld (store w) (session w) (auth_loading w) (calls w) (console w)
    (ids_drawn w) (clock_reads w) (sentEmail w) p (pathname w) (pushes w).

Definition with_route (p : string) (w : World) : World :=
  mkWorld (store w) (session w) (auth_loading w) (calls w) (console w)
    (ids_drawn w) (clock_reads w) (sentEmail w) (previousUserRef w) p
    (pushes w ++ [p]).

(** ** Asynchronous computations

    An [async] function either resolves with a value or rejects with an
    error; either way the effects it had before remain. *)

Inductive Outcome (A : Type) :=
| Resolved (a : A)
| Rejected (err : string).
Arguments Resolved {A} a.
Arguments Rejected {A} err.

Definition Async (A : Type) : Type := World → Outcome A * World.

#[global] Instance Async_ret : MRet Async := λ A a w, (Resolved a, w).

#[global] Instance Async_bind : MBind Async := λ A B k m w,
  match m w with
  | (Resolved a, w') => k a w'
  | (Rejected err, w') => (Rejected err, w')
  end.

(** [throw err] *)
Definition throw {A : Type} (err : string) : Async A :=
  λ w, (Rejected err, w).

(** [try { body } catch (error) { handler }] *)
Definition try_catch {A : Type} (body : Async A) (handler : string → Async A)
  : Async A :=
  λ w,
    match body w with
    | (Resolved a, w') => (Resolved a, w')
    | (Rejected err, w') => handler err w'
    end.

Definition modify (f : World → World) : Async unit :=
  λ w, (Resolved (), f w).

Definition console_log (msg : string) : Async unit :=
  modify (λ w, with_console (console w ++ [(LogInfo, msg)]) w).

Definition console_error (msg : string) : Async unit :=
  modify (λ w, with_console (console w ++ [(LogError, msg)]) w).

Section Remote.
Variable E : Env.

(** [id()] *)
Definition new_id : Async string :=
  λ w, (Resolved (gen_id E (ids_drawn w)), with_ids_drawn (S (ids_drawn w)) w).

(** [new Date().toISOString()] *)
Definition now_iso : Async string :=
  λ w, (Resolved (clock E (clock_reads w)),
        with_clock_reads (S (clock_reads w)) w).

(** A remote call is recorded when issued; the service then rejects it
    or carries out [effect], which itself may refuse the request. *)
Definition remote {A : Type} (c : RemoteCall)
  (effect : World → Outcome A * World) : Async A :=
  λ w,
    let w1 := with_calls (calls w ++ [c]) w in
    match rejection E (length (calls w)) with
    | Some err => (Rejected err, w1)
    | None => effect w1
    end.

(** [db.transact(chunks)] *)
Definition transact (chunks : list TxChunk) : Async unit :=
  remote (Transact chunks) (λ w,
    match apply_tx (store w) chunks with
    | Some s => (Resolved (), with_store s w)
    | None => (Rejected "invalid transaction", w)
    end).

(** [db.queryOnce({ notes: { $: { where: { 'creator.id': uid }, limit } } })];
    resolves with [data.notes]. *)
Definition queryOnce (q : Query) : Async (list string) :=
  remote (QueryOnce q) (λ w,
    (Resolved (take (query_limit q)
                 (notes_of_creator (store w) (where_creator_id q))), w)).

(** [db.auth.sendMagicCode({ email })] *)
Definition sendMagicCode (email : string) : Async unit :=
  remote (SendMagicCode email) (λ w, (Resolved (), w)).

(** [db.auth.signInWithMagicCode({ email, code })]: when the service
    accepts the code the session holds the account of that address. *)
Definition signInWithMagicCode (email code : string) : Async unit :=
  remote (SignInWithMagicCode email code) (λ w,
    (Resolved (), with_session (Some (account E email)) w)).

(** [db.auth.signOut()] *)
Definition auth_signOut : Async unit :=
  remote SignOut (λ w, (Resolved (), with_session None w)).

End Remote.

(** ** [contexts/NoteContext.tsx] *)

(** [Partial<{ title: string; content: string; isFavorite: boolean }>] *)
Record NoteUpdates := mkUpdates {
  upd_title : option string;
  upd_content : option string;
  upd_isFavorite : option bool
}.

(** The own keys of an [updates] object, in the order of a spread. *)
Definition spread (u : NoteUpdates) : list (string * Value) :=
  match upd_title u with Some t => [("title", VStr t)] | None => [] end ++
  match upd_content u with Some c => [("content", VStr c)] | None => [] end ++
  match upd_isFavorite u with Some b => [("isFavorite", VBool b)] | None => [] end.

Section NoteProvider.
Variable E : Env.
(** What a render of the provider closes over: the identity from
    [useAuth()] and the [notes] of the live query. *)
Variable user : option User.
Variable notes : list NoteWithRelations.

Definition createNote (title content : string) (notebookId : option string)
  (tagIds : option (list string)) : Async NoteEntity :=
  match user with
  | None => throw "User not authenticated"
  | Some u =>
      noteId ← new_id E;
      now ← now_iso E;
      let tx0 :=
        [ tx NsNotes noteId
            [ update [ ("title", VStr title); ("content", VStr content);
                       ("createdAt", VStr now); ("updatedAt", VStr now);
                       ("isFavorite", VBool false) ];
              link [ ("creator", [user_id u]) ] ] ] in
      let tx1 :=
        match notebookId with
        | Some nb =>
            if truthy nb
            then tx0 ++ [ tx NsNotebooks nb [ link [ ("notes", [noteId]) ] ] ]
            else tx0
        | None => tx0
        end in
      let tx2 :=
        match tagIds with
        | Some (t :: ts) =>
            tx1 ++ [ tx NsNotes noteId [ link [ ("tags", t :: ts) ] ] ]
        | _ => tx1
        end in
      transact E tx2;;
      mret (mkNote noteId title content now now false)
  end.

Definition updateNote (id : string) (updates : NoteUpdates) : Async unit :=
  now ← now_iso E;
  let updatedData := spread updates ++ [ ("updatedAt", VStr now) ] in
  transact E [ tx NsNotes id [ update updatedData ] ].

Definition createNotebook (name description : string) : Async NotebookEntity :=
  match user with
  | None => throw "User not authenticated"
  | Some u =>
      notebookId ← new_id E;
      now ← now_iso E;
      transact E
        [ tx NsNotebooks notebookId
            [ update [ ("name", VStr name); ("description", VStr description);
                       ("createdAt", VStr now) ];
              link [ ("creator", [user_id u]) ] ] ];;
      mret (mkNotebook notebookId name description now)
  end.

(** [note.notebook?.id === id] *)
Definition in_notebook (id : string) (n : NoteWithRelations) : bool :=
  match notebook n with
  | Some nb => bool_decide (notebook_id nb = id)
  | None => false
  end.

Definition deleteNotebook (id : string) : Async unit :=
  let notesInNotebook := List.filter (in_notebook id) notes in
  let tx0 :=
    map (λ n, tx NsNotebooks id [ unlink [ ("notes", [note_id (note n)]) ] ])
      notesInNotebook in
  let tx1 := tx0 ++ [ tx NsNotebooks id [ delete ] ] in
  transact E tx1.

Definition createTag (name : string) : Async TagEntity :=
  match user with
  | None => throw "User not authenticated"
  | Some u =>
      tagId ← new_id E;
      now ← now_iso E;
      transact E
        [ tx NsTags tagId
            [ update [ ("name", VStr name); ("createdAt", VStr now) ];
              link [ ("creator", [user_id u]) ] ] ];;
      mret (mkTag tagId name now)
  end.

(** [note.tags && note.tags.some(tag => tag.id === id)] *)
Definition has_tag (id : string) (n : NoteWithRelations) : bool :=
  existsb (λ t, bool_decide (tag_id t = id)) (tags n).

Definition deleteTag (id : string) : Async unit :=
  let notesWithTag := List.filter (has_tag id) notes in
  let tx0 :=
    map (λ n, tx NsNotes (note_id (note n)) [ unlink [ ("tags", [id]) ] ])
      notesWithTag in
  let tx1 := tx0 ++ [ tx NsTags id [ delete ] ] in
  transact E tx1.

Definition addTagToNote (noteId tagId : string) : Async unit :=
  transact E [ tx NsNotes noteId [ link [ ("tags", [tagId]) ] ] ].

Definition removeTagFromNote (noteId tagId : string) : Async unit :=
  transact E [ tx NsNotes noteId [ unlink [ ("tags", [tagId]) ] ] ].

Definition moveNoteToNotebook (noteId notebookId : string) : Async unit :=
  let found := List.find (λ n, bool_decide (note_id (note n) = noteId)) notes in
  match found with
  | Some (mkNoteRel _ _ (Some old)) =>
      transact E [ tx NsNotebooks (notebook_id old) [ unlink [ ("notes", [noteId]) ] ] ]
  | _ => mret ()
  end;;
  transact E [ tx NsNotebooks notebookId [ link [ ("notes", [noteId]) ] ] ].

End NoteProvider.

(** ** [lib/onboarding.ts] *)

(** The static copy of the five starter notes. *)
Record WelcomeNote := mkWelcome {
  welcome_title : string;
  welcome_content : string
}.

Definition note_welcome : WelcomeNote :=
  mkWelcome "👋 Welcome to Evernote Clone!"
("Welcome to your new Evernote Clone!

This application provides a simple and effective way to capture and organize your thoughts, ideas, and information.

Here are a few things you can do:
- Create and edit notes
- Organize notes into notebooks
- Tag notes for easy searching
- Favorite important notes

Feel free to delete these notes or keep them for reference. Let's get started!").

Definition note_creating : WelcomeNote :=
  mkWelcome "📝 Creating and Editing Notes"
("# Creating Notes

To create a new note, click the " +:+ dq +:+ "New Note" +:+ dq +:+ " button in the note list panel.

# Editing Notes

Notes are automatically saved as you type. You can edit:
- The title of the note
- The content of the note

# Formatting (Future Enhancement)
We're working on adding rich text formatting in a future update. For now, your notes are saved as plain text.

# Deleting Notes
To delete a note, click the trash icon in the top-right corner of the note editor. Be careful, as this action cannot be undone.").

Definition note_notebooks : WelcomeNote :=
  mkWelcome "📚 Using Notebooks"
("Notebooks help you organize your notes by topic, project, or category.

# Creating Notebooks
1. Click the + icon next to " +:+ dq +:+ "Notebooks" +:+ dq +:+ " in the sidebar
2. Enter a name for your notebook
3. Click " +:+ dq +:+ "Add" +:+ dq +:+ "

# Moving Notes to Notebooks
1. Open the note you want to move
2. Click on the notebook name in the toolbar (or " +:+ dq +:+ "No Notebook" +:+ dq +:+ " if it's not in a notebook yet)
3. Select the destination notebook from the dropdown

# Organizing Tips
- Use notebooks for broad categories (Work, Personal, Projects)
- Use tags for more specific labeling within notebooks").

Definition note_tags : WelcomeNote :=
  mkWelcome "🏷️ Using Tags"
("Tags provide a flexible way to categorize your notes across notebooks.

# Adding Tags
1. Open the note you want to tag
2. Click " +:+ dq +:+ "Add Tags" +:+ dq +:+ " in the toolbar
3. Select existing tags or create new ones

# Creating New Tags
1. Click the + icon next to " +:+ dq +:+ "Tags" +:+ dq +:+ " in the sidebar
2. Enter a name for your tag
3. Click " +:+ dq +:+ "Add" +:+ dq +:+ "

# Finding Tagged Notes
Click on any tag in the sidebar to see all notes with that tag.

# Tag Tips
- Use tags for cross-notebook organization
- Add multiple tags to notes for more flexible organization
- Tags are especially useful for project-specific content that spans multiple notebooks").

Definition note_tips : WelcomeNote :=
  mkWelcome "⭐ Tips and Tricks"
("# Favorites
Mark important notes as favorites by clicking the star icon in the toolbar.

# Search
Use the search bar to quickly find notes by title or content.

# Automatic Saving
Your notes are automatically saved as you type, so you never have to worry about losing your work.

# Keyboard Shortcuts (Coming Soon)
We're working on adding keyboard shortcuts to make navigation and note creation even faster.

# Feedback
We're constantly improving the app. If you have suggestions or find bugs, please let us know!

Thanks for using Evernote Clone!").

Definition welcomeNotes : list WelcomeNote :=
  [ note_welcome; note_creating; note_notebooks; note_tags; note_tips ].

(** [welcomeNotes.map((note, index) => ...)] where the callback draws an
    identifier for each element. *)
Fixpoint map_indexed {A B : Type} (f : A → nat → Async B) (l : list A)
  (index : nat) : Async (list B) :=
  match l with
  | [] => mret []
  | a :: rest =>
      b ← f a index;
      bs ← map_indexed f rest (S index);
      mret (b :: bs)
  end.

Section Onboarding.
Variable E : Env.

Definition seedUserWithOnboardingNotes (user : option User) : Async unit :=
  match user with
  | Some u =>
      if truthy (user_id u) then
        try_catch
          (notebookId ← new_id E;
           now ← now_iso E;
           transact E
             [ tx NsNotebooks notebookId
                 [ update [ ("name", VStr "Getting Started");
                            ("description", VStr "Introduction to the Evernote Clone");
                            ("createdAt", VStr now) ];
                   link [ ("creator", [user_id u]) ] ] ];;
           transactions ←
             map_indexed
               (λ note index,
                  noteId ← new_id E;
                  mret (tx NsNotes noteId
                          [ update [ ("title", VStr (welcome_title note));
                                     ("content", VStr (welcome_content note));
                                     ("createdAt", VStr now);
                                     ("updatedAt", VStr now);
                                     ("isFavorite", VBool (Nat.eqb index 0)) ];
                            link [ ("creator", [user_id u]);
                                   ("notebook", [notebookId]) ] ]))
               welcomeNotes 0;
           transact E transactions;;
           console_log "Successfully created onboarding notes for new user")
          (λ error,
             console_error ("Failed to create onboarding notes: " +:+ error))
      else console_error "Cannot seed notes: User is undefined or missing ID"
  | None => console_error "Cannot seed notes: User is undefined or missing ID"
  end.

End Onboarding.

(** ** [contexts/AuthContext.tsx] *)

Section AuthProvider.
Variable E : Env.

Definition signIn (email : string) : Async unit :=
  try_catch
    (sendMagicCode E email;;
     modify (with_sentEmail (Some email)))
    (λ error,
       console_error ("Failed to send magic code: " +:+ error);;
       throw error).

Definition verifyCode (email code : string) : Async unit :=
  try_catch
    (signInWithMagicCode E email code;;
     modify (with_sentEmail None))
    (λ error,
       console_error ("Failed to verify code: " +:+ error);;
       throw error).

Definition signOut : Async unit :=
  try_catch
    (auth_signOut E;;
     modify (with_route "/login"))
    (λ error,
       console_error ("Failed to sign out: " +:+ error);;
       throw error).

(** The body of the first effect, for the [user] of the render that
    scheduled it; [previousUserRef.current] is read when it runs. *)
Definition checkUserAndCreateNotes (user : option User) : Async unit :=
  λ w,
    match user with
    | Some u =>
        if truthy (user_id u)
           && negb (bool_decide (previousUserRef w = Some (user_id u)))
        then
          try_catch
            (data_notes ← queryOnce E (mkQuery (user_id u) 1);
             match data_notes with
             | [] =>
                 console_log "Creating onboarding notes for new user";;
                 seedUserWithOnboardingNotes E (Some u)
             | _ :: _ => mret ()
             end;;
             modify (with_previousUserRef (Some (user_id u))))
            (λ error,
               console_error ("Error checking user notes: " +:+ error))
            w
        else (Resolved (), w)
    | None => (Resolved (), w)
    end.

(** [useEffect(() => { ... if (!isLoading && user) checkUserAndCreateNotes() },
    [isLoading, user])] *)
Definition onboarding_effect : Async unit :=
  λ w,
    if negb (auth_loading w) && bool_decide (is_Some (session w))
    then checkUserAndCreateNotes (session w) w
    else (Resolved (), w).

(** [useEffect(() => { if (!isLoading && !user && !sentEmail &&
    router.pathname !== '/login') router.push('/login') }, ...)] *)
Definition redirect_effect : Async unit :=
  λ w,
    if negb (auth_loading w)
       && negb (bool_decide (is_Some (session w)))
       && negb (truthy_opt (sentEmail w))
       && negb (bool_decide (pathname w = "/login"))
    then modify (with_route "/login") w
    else (Resolved (), w).

End AuthProvider.

(** ** The rest of [contexts/NoteContext.tsx] *)

Section NoteProviderRest.
Variable E : Env.

(** [deleteNote]; the provider's [currentNote] state is passed in as the
    render captured it, and the state after the call is returned:
    [setCurrentNote(null)] runs only after the write has resolved. *)
Definition deleteNote (currentNote : option NoteWithRelations) (id : string)
  : Async (option NoteWithRelations) :=
  transact E [ tx NsNotes id [ delete ] ];;
  mret (match currentNote with
        | Some n =>
            if bool_decide (note_id (note n) = id) then None else currentNote
        | None => currentNote
        end).

(** [updateNotebook(id, name, description = '')] *)
Definition updateNotebook (id name : string) (description : option string)
  : Async unit :=
  transact E
    [ tx NsNotebooks id
        [ update [ ("name", VStr name);
                   ("description", VStr (default EmptyString description)) ] ] ].

Definition toggleFavorite (noteId : string) (isFavorite : bool) : Async unit :=
  now ← now_iso E;
  transact E
    [ tx NsNotes noteId
        [ update [ ("isFavorite", VBool isFavorite); ("updatedAt", VStr now) ] ] ].

End NoteProviderRest.

(** ** [pages/login.tsx] and [pages/index.tsx] *)

(** [Login]: [if (!isLoading && isAuthenticated) router.push('/')] *)
Definition login_effect : Async unit :=
  λ w,
    if negb (auth_loading w) && bool_decide (is_Some (session w))
    then modify (with_route "/") w
    else (Resolved (), w).

Definition handleLoginSuccess : Async unit := modify (with_route "/").

(** [Home]: [if (!isLoading && !isAuthenticated) router.push('/login')] *)
Definition home_redirect_effect : Async unit :=
  λ w,
    if negb (auth_loading w) && negb (bool_decide (is_Some (session w)))
    then modify (with_route "/login") w
    else (Resolved (), w).

(** The redirect effect of the page the router shows: [index.tsx] at
    [/], [login.tsx] at [/login], and [404.tsx], which has none,
    elsewhere. *)
Definition page_effect : Async unit :=
  λ w,
    if bool_decide (pathname w = "/") then home_redirect_effect w
    else if bool_decide (pathname w = "/login") then login_effect w
    else (Resolved (), w).

(** ** [components/AuthForm.tsx] *)

Module AuthForm.

Record State := mkState {
  email : string;
  code : string;
  sentEmail : bool;
  isLoading : bool;
  error : option string
}.

Definition setEmail (v : string) (f : State) : State :=
  mkState v (code f) (sentEmail f) (isLoading f) (error f).
Definition setCode (v : string) (f : State) : State :=
  mkState (email f) v (sentEmail f) (isLoading f) (error f).
Definition setSentEmail (v : bool) (f : State) : State :=
  mkState (email f) (code f) v (isLoading f) (error f).
Definition setIsLoading (v : bool) (f : State) : State :=
  mkState (email f) (code f) (sentEmail f) v (error f).
Definition setError (v : option string) (f : State) : State :=
  mkState (email f) (code f) (sentEmail f) (isLoading f) v.

(** [useState] initial values *)
Definition initial : State := mkState EmptyString EmptyString false false None.

Section Handlers.
Variable E : Env.
(** the [onSuccess] prop, if the parent passed one *)
Variable onSuccess : option (Async unit).

Definition handleEmailSubmit (f : State) (w : World) : State * World :=
  let f1 := setIsLoading true (setError None f) in
  match signIn E (email f) w with
  | (Resolved _, w1) => (setIsLoading false (setSentEmail true f1), w1)
  | (Rejected _, w1) =>
      (setIsLoading false
         (setError (Some "Failed to send verification code. Please try again.") f1),
       w1)
  end.

Definition handleCodeSubmit (f : State) (w : World) : State * World :=
  let f1 := setIsLoading true (setError None f) in
  let failed :=
    setIsLoading false
      (setCode EmptyString (setError (Some "Invalid code. Please try again.") f1)) in
  match verifyCode E (email f) (code f) w with
  | (Resolved _, w1) =>
      match onSuccess with
      | Some callback =>
          match callback w1 with
          | (Resolved _, w2) => (setIsLoading false f1, w2)
          | (Rejected _, w2) => (failed, w2)
          end
      | None => (setIsLoading false f1, w1)
      end
  | (Rejected _, w1) => (failed, w1)
  end.

End Handlers.

End AuthForm.

(** ** JavaScript numbers and strings, as [components/NoteList.tsx] uses them *)

(** A number is a double: not-a-number, an infinity, or a finite value.
    Every finite double is a rational, and the comparison and the
    truncation below are exact on doubles, so a finite number is taken
    as the rational it denotes. *)
Inductive Number :=
  | NaN
  | PosInfinity
  | NegInfinity
  | Finite (q : QArith_base.Q).

(** The number of a length or an index. *)
Definition whole (n : nat) : Number :=
  Finite (QArith_base.inject_Z (Z.of_nat n)).

(** [n <= m] for a length [n]: false when [m] is not a number. *)
Definition length_le (n : nat) (m : Number) : bool :=
  match m with
  | NaN => false
  | PosInfinity => true
  | NegInfinity => false
  | Finite q => QArith_base.Qle_bool (QArith_base.inject_Z (Z.of_nat n)) q
  end.

(** Rounding towards zero. *)
Definition truncate (q : QArith_base.Q) : Z :=
  if QArith_base.Qle_bool (QArith_base.inject_Z 0) q
  then Qround.Qfloor q else Qround.Qceiling q.

(** What [substring] makes of an argument for a string of [len] units:
    [ToIntegerOrInfinity], not-a-number counting as zero, then clamped
    to the range from [0] to [len]. *)
Definition clamp_index (len : nat) (m : Number) : nat :=
  match m with
  | NaN => 0
  | PosInfinity => len
  | NegInfinity => 0
  | Finite q => Z.to_nat (Z.min (Z.max (truncate q) 0) (Z.of_nat len))
  end.

(** A string as its sequence of UTF-16 code units, which is what
    [length] counts and [substring] cuts.  [String.prototype.substring]
    swaps its arguments when the first is the larger. *)
Definition substring (s : list N) (start finish : Number) : list N :=
  let finalStart := clamp_index (length s) start in
  let finalEnd := clamp_index (length s) finish in
  let from := Nat.min finalStart finalEnd in
  let to := Nat.max finalStart finalEnd in
  take (to - from) (drop from s).

(** The code units of ['...']. *)
Definition dots : list N := [46%N; 46%N; 46%N].

(** ** [components/NoteList.tsx] *)

Module NoteList.

(** [getExcerpt(content, maxLength = 100)] *)
Definition getExcerpt (content : list N) (maxLength : option Number) : list N :=
  let max := default (whole 100) maxLength in
  if length_le (length content) max then content
  else substring content (whole 0) max ++ dots.

Record State := mkState {
  isCreating : bool;
  newNoteTitle : string
}.

Section Handlers.
Variable E : Env.
(** [String.prototype.trim] *)
Variable trim : string → string.
Variable user : option User.
Variable notebooks : list NotebookEntity.

(** [handleCreateNote]: the form state and the provider's [currentNote]
    after the handler. *)
Definition handleCreateNote (f : State) (currentNote : option NoteWithRelations)
  (w : World) : State * option NoteWithRelations * World :=
  if negb (truthy (trim (newNoteTitle f))) || negb (bool_decide (is_Some user))
  then (f, currentNote, w)
  else
    let defaultNotebookId :=
      match notebooks with
      | nb :: _ => Some (notebook_id nb)
      | [] => None
      end in
    match createNote E user (newNoteTitle f) EmptyString defaultNotebookId None w with
    | (Resolved created, w1) =>
        let fullNote :=
          mkNoteRel created []
            (if truthy_opt defaultNotebookId then head notebooks else None) in
        (mkState false EmptyString, Some fullNote, w1)
    | (Rejected error, w1) =>
        (f, currentNote, (console_error ("Failed to create note: " +:+ error) w1).2)
    end.

End Handlers.

End NoteList.

(** ** [components/Sidebar.tsx] *)

Module Sidebar.

Record State := mkState {
  newNotebookName : string;
  newTagName : string;
  addingNotebook : bool;
  addingTag : bool
}.

Section Handlers.
Variable E : Env.
Variable trim : string → string.
Variable user : option User.

Definition handleAddNotebook (f : State) (w : World) : State * World :=
  if negb (truthy (trim (newNotebookName f))) then (f, w)
  else
    match createNotebook E user (newNotebookName f) EmptyString w with
    | (Resolved _, w1) =>
        (mkState EmptyString (newTagName f) false (addingTag f), w1)
    | (Rejected error, w1) =>
        (f, (console_error ("Failed to create notebook: " +:+ error) w1).2)
    end.

End Handlers.

End Sidebar.

(** ** [components/NoteEditor.tsx] *)

(** [currentNote.title] and [currentNote.content] *)
Definition shown_title (n : NoteWithRelations) : string := title (note n).
Definition shown_content (n : NoteWithRelations) : string := content (note n).

(** ** Timers of the page

    [setTimeout] registers a callback under a fresh handle, a positive
    number, and [clearTimeout] drops the callback of a handle.  A pending
    entry keeps the delay it was given. *)

Record Timers (C : Type) := mkTimers {
  next_handle : positive;
  pending : list (positive * nat * C)
}.
Arguments mkTimers {C} _ _.
Arguments next_handle {C} _.
Arguments pending {C} _.

Definition setTimeout {C : Type} (cb : C) (delay : nat) (t : Timers C)
  : positive * Timers C :=
  (next_handle t,
   mkTimers (Pos.succ (next_handle t)) (pending t ++ [(next_handle t, delay, cb)])).

Definition clearTimeout {C : Type} (h : positive) (t : Timers C) : Timers C :=
  mkTimers (next_handle t)
    (List.filter (λ p, negb (bool_decide (p.1.1 = h))) (pending t)).

Module NoteEditor.

Record State := mkState {
  title : string;
  content : string;
  isSaving : bool;
  showNotebookDropdown : bool;
  showTagDropdown : bool
}.

Definition setTitle (v : string) (f : State) : State :=
  mkState v (content f) (isSaving f) (showNotebookDropdown f) (showTagDropdown f).
Definition setContent (v : string) (f : State) : State :=
  mkState (title f) v (isSaving f) (showNotebookDropdown f) (showTagDropdown f).
Definition setIsSaving (v : bool) (f : State) : State :=
  mkState (title f) (content f) v (showNotebookDropdown f) (showTagDropdown f).
Definition setShowTagDropdown (v : bool) (f : State) : State :=
  mkState (title f) (content f) (isSaving f) (showNotebookDropdown f) v.

(** What a timer runs when it fires: it sees the form and the world of
    that moment. *)
Definition Callback : Type := State → World → State * World.

Section Handlers.
Variable E : Env.
Variable currentNote : option NoteWithRelations.
(** The [title], [content] and [debounceTimeout] of the render that
    created the handlers: a handler reads the values its render
    captured, while the setters act on the state of the moment. *)
Variable renderedTitle renderedContent : string.
Variable debounceTimeout : option positive.

Definition saveNote (f : State) (w : World) : State * World :=
  match currentNote with
  | None => (f, w)
  | Some n =>
      let f1 := setIsSaving true f in
      match updateNote E (note_id (note n))
              (mkUpdates (Some renderedTitle) (Some renderedContent) None) w with
      | (Resolved _, w1) => (setIsSaving false f1, w1)
      | (Rejected error, w1) =>
          (setIsSaving false f1,
           (console_error ("Failed to save note: " +:+ error) w1).2)
      end
  end.

(** [handleContentChange] and [handleTitleChange]: the form, the
    [debounceTimeout] state and the timers after the handler.  The timer
    is given the [saveNote] of this render. *)
Definition handleContentChange (newContent : string) (f : State)
  (t : Timers Callback) : State * option positive * Timers Callback :=
  let f1 := setContent newContent f in
  let t1 :=
    match debounceTimeout with
    | Some h => clearTimeout h t
    | None => t
    end in
  let (timeout, t2) := setTimeout saveNote 1000 t1 in
  (f1, Some timeout, t2).

Definition handleTitleChange (newTitle : string) (f : State)
  (t : Timers Callback) : State * option positive * Timers Callback :=
  let f1 := setTitle newTitle f in
  let t1 :=
    match debounceTimeout with
    | Some h => clearTimeout h t
    | None => t
    end in
  let (timeout, t2) := setTimeout saveNote 1000 t1 in
  (f1, Some timeout, t2).

(** [handleDeleteNote]; [confirmed] is the answer to [window.confirm].
    Returns the provider's [currentNote] after the handler. *)
Definition handleDeleteNote (confirmed : bool) (w : World)
  : option NoteWithRelations * World :=
  match currentNote with
  | None => (currentNote, w)
  | Some n =>
      if confirmed then
        match deleteNote E currentNote (note_id (note n)) w with
        | (Resolved selection, w1) => (selection, w1)
        | (Rejected error, w1) =>
            (currentNote,
             (console_error ("Failed to delete note: " +:+ error) w1).2)
        end
      else (currentNote, w)
  end.

Definition handleAddTag (tagId : string) (f : State) (w : World) : State * World :=
  match currentNote with
  | None => (f, w)
  | Some n =>
      if has_tag tagId n then (f, w)
      else
        match addTagToNote E (note_id (note n)) tagId w with
        | (Resolved _, w1) => (setShowTagDropdown false f, w1)
        | (Rejected error, w1) =>
            (f, (console_error ("Failed to add tag: " +:+ error) w1).2)
        end
  end.

Definition handleRemoveTag (tagId : string) (w : World) : World :=
  match currentNote with
  | None => w
  | Some n =>
      match removeTagFromNote E (note_id (note n)) tagId w with
      | (Resolved _, w1) => w1
      | (Rejected error, w1) =>
          (console_error ("Failed to remove tag: " +:+ error) w1).2
      end
  end.

End Handlers.

End NoteEditor.

(** * Observations on runs, and sample worlds *)

(** ** Validity against the schema *)

(** A chunk is valid when every label it links or unlinks under is a
    label the schema declares for the chunk's namespace. *)
Definition valid_refs (ns : Namespace) (refs : list (string * list string)) : bool :=
  forallb (λ r, bool_decide (is_Some (resolve_label ns r.1))) refs.

Definition valid_action (ns : Namespace) (a : Action) : bool :=
  match a with
  | link refs | unlink refs => valid_refs ns refs
  | update _ | delete => true
  end.

Definition valid_chunk (c : TxChunk) : bool :=
  forallb (valid_action (chunk_ns c)) (chunk_actions c).

(** The three links the controllers write through. *)
Definition def_noteCreator : LinkDef :=
  mkLink noteCreator NsNotes HasOne "creator" NsUsers HasMany "notes".

Definition def_notebookCreator : LinkDef :=
  mkLink notebookCreator NsNotebooks HasOne "creator" NsUsers HasMany "notebooks".

Definition def_notebookNotes : LinkDef :=
  mkLink notebookNotes NsNotebooks HasMany "notes" NsNotes HasOne "notebook".

(** ** What a call or a chunk carries *)

Definition unlink_note_call (notebookId noteId : string) : RemoteCall :=
  Transact [ tx NsNotebooks notebookId [ unlink [ ("notes", [noteId]) ] ] ].

Definition link_note_call (notebookId noteId : string) : RemoteCall :=
  Transact [ tx NsNotebooks notebookId [ link [ ("notes", [noteId]) ] ] ].

Definition carries_unlink (c : RemoteCall) : bool :=
  match c with
  | Transact chunks =>
      existsb (λ ch, existsb (λ a, match a with unlink _ => true | _ => false end)
                       (chunk_actions ch)) chunks
  | _ => false
  end.

Definition carries_delete (c : RemoteCall) : bool :=
  match c with
  | Transact chunks =>
      existsb (λ ch, existsb (λ a, match a with delete => true | _ => false end)
                       (chunk_actions ch)) chunks
  | _ => false
  end.

(** No remote call carries both an unlink and a delete: unlinking and
    deleting go out as separate calls. *)
Definition separate_phases (cs : list RemoteCall) : Prop :=
  Forall (λ c, ¬ (carries_unlink c = true ∧ carries_delete c = true)) cs.

(** The value a chunk sets for a field, and the identifiers it links
    under a label. *)
Definition action_attr (k : string) (a : Action) : option Value :=
  match a with
  | update attrs => snd <$> List.find (λ kv, bool_decide (kv.1 = k)) attrs
  | _ => None
  end.

Definition chunk_attr (c : TxChunk) (k : string) : option Value :=
  match omap (action_attr k) (chunk_actions c) with
  | v :: _ => Some v
  | [] => None
  end.

Definition action_links (label : string) (a : Action) : list string :=
  match a with
  | link refs =>
      concat (map snd (List.filter (λ r, bool_decide (r.1 = label)) refs))
  | _ => []
  end.

Definition chunk_links (c : TxChunk) (label : string) : list string :=
  concat (map (action_links label) (chunk_actions c)).

(** ** What the view and the store show *)

(** The notebook the live view shows for a note, if the note is in the
    view and in a notebook. *)
Definition current_notebook (notes : list NoteWithRelations) (noteId : string)
  : option NotebookEntity :=
  match List.find (λ n, bool_decide (note_id (note n) = noteId)) notes with
  | Some n => notebook n
  | None => None
  end.

(** The stored fields of a note (none when the note has no record). *)
Definition note_attrs (s : Store) (id : string) : gmap string Value :=
  default ∅ (entities s !! (NsNotes, id)).

(** Note [x] is linked to creator [uid] and to notebook [nb]. *)
Definition linked (uid nb x : string) (es : gset (LinkName * string * string))
  : Prop :=
  (noteCreator, x, uid) ∈ es ∧ (notebookNotes, nb, x) ∈ es.

(** ** The chunks of the onboarding seeder, by position *)

(** The chunk the seeder builds for the [index]-th starter note when
    [id()] returns [nid]. *)
Definition starter_note_chunk (uid nb now nid : string) (index : nat)
  (n : WelcomeNote) : TxChunk :=
  tx NsNotes nid
    [ update [ ("title", VStr (welcome_title n));
               ("content", VStr (welcome_content n));
               ("createdAt", VStr now);
               ("updatedAt", VStr now);
               ("isFavorite", VBool (Nat.eqb index 0)) ];
      link [ ("creator", [uid]); ("notebook", [nb]) ] ].

(** The chunks for a list of starter notes, the first of which has
    position [index] and takes the [k]-th identifier of the environment. *)
Fixpoint starter_note_chunks (E : Env) (uid nb now : string)
  (l : list WelcomeNote) (index k : nat) : list TxChunk :=
  match l with
  | [] => []
  | n :: rest =>
      starter_note_chunk uid nb now (gen_id E k) index n
      :: starter_note_chunks E uid nb now rest (S index) (S k)
  end.

Definition starter_notebook_chunk (uid nb now : string) : TxChunk :=
  tx NsNotebooks nb
    [ update [ ("name", VStr "Getting Started");
               ("description", VStr "Introduction to the Evernote Clone");
               ("createdAt", VStr now) ];
      link [ ("creator", [uid]) ] ].

(** ** Sample environments and worlds *)

(** A service that accepts every call, and one that rejects every call. *)
Definition env_ok : Env :=
  mkEnv (λ k, "id-" +:+ pretty k)
        (λ k, "2025-03-01T10:00:0" +:+ pretty k +:+ ".000Z")
        (λ _, None)
        (λ e, mkUser ("user-of-" +:+ e) e).

Definition env_down : Env :=
  mkEnv (gen_id env_ok) (clock env_ok) (λ _, Some "network error")
        (account env_ok).

Definition alice : User := mkUser "u-alice" "alice@example.com".

(** A fresh page load, and the login screen after a code was sent. *)
Definition world0 : World :=
  mkWorld empty_store None false [] [] 0 0 None None "/" [].

Definition world_pending : World :=
  mkWorld empty_store None false [SendMagicCode "alice@example.com"] [] 0 0
    (Some "alice@example.com") None "/login" [].

(** Alice has verified her code and owns nothing yet. *)
Definition world_alice : World :=
  (verifyCode env_ok "alice@example.com" "424242" world_pending).2.

Definition alice_account : User := account env_ok "alice@example.com".

(** Notebook "Work" ([id-0]) created, then note "B" ([id-1]) created in
    it; [note_b] is how the view shows that note, [note_a] a note in no
    notebook. *)
Definition world_work : World :=
  (createNote env_ok (Some alice) "B" "body" (Some "id-0") None
     (createNotebook env_ok (Some alice) "Work" EmptyString world0).2).2.

Definition note_b : NoteWithRelations :=
  mkNoteRel (mkNote "id-1" "B" "body" "2025-03-01T10:00:01.000Z"
               "2025-03-01T10:00:01.000Z" false)
    [] (Some (mkNotebook "id-0" "Work" EmptyString "2025-03-01T10:00:00.000Z")).

Definition note_a : NoteWithRelations :=
  mkNoteRel (mkNote "id-2" "A" EmptyString "2025-03-01T10:00:02.000Z"
               "2025-03-01T10:00:02.000Z" false)
    [] None.

Definition retitle : NoteUpdates := mkUpdates (Some "B, revised") None None.

(** Tag "urgent" ([id-0]) created, then note "C" ([id-1]) created with
    it; [note_c] is how the view shows that note. *)
Definition world_tagged : World :=
  (createNote env_ok (Some alice) "C" "text" None (Some ["id-0"])
     (createTag env_ok (Some alice) "urgent" world0).2).2.

Definition tag_urgent : TagEntity :=
  mkTag "id-0" "urgent" "2025-03-01T10:00:00.000Z".

Definition note_c : NoteWithRelations :=
  mkNoteRel (mkNote "id-1" "C" "text" "2025-03-01T10:00:01.000Z"
               "2025-03-01T10:00:01.000Z" false)
    [tag_urgent] None.

(** A service that accepts the first call issued from [world_work] and
    rejects the second. *)
Definition env_second_call_fails : Env :=
  mkEnv (gen_id env_ok) (clock env_ok)
    (λ k, if Nat.eqb k (S (length (calls world_work)))
          then Some "network error" else None)
    (account env_ok).

Definition def_noteTags : LinkDef :=
  mkLink noteTags NsNotes HasMany "tags" NsTags HasMany "notes".

(** The stored fields of an entity (none when it has no record). *)
Definition entity_attrs (s : Store) (ns : Namespace) (id : string)
  : gmap string Value :=
  default ∅ (entities s !! (ns, id)).

(** What is outside the reach of the data controllers: the identity, the
    pending address, the remembered identity and the router. *)
Definition ui_fields (w : World)
  : option User * bool * option string * option string * string * list string :=
  (session w, auth_loading w, sentEmail w, previousUserRef w, pathname w, pushes w).

(** A computation keeps an observation of the world, whatever it returns. *)
Definition keeps {A X : Type} (f : World → X) (m : Async A) : Prop :=
  ∀ w, f (m w).2 = f w.

(** The same without the remembered identity, which the onboarding
    effect does update. *)
Definition shell_fields (w : World)
  : option User * bool * option string * string * list string :=
  (session w, auth_loading w, sentEmail w, pathname w, pushes w).

(** A service that accepts everything but the fifth call, which from
    [world_alice] is the seeder's batch of notes. *)
Definition env_notes_write_fails : Env :=
  mkEnv (gen_id env_ok) (clock env_ok)
    (λ k, if Nat.eqb k 4 then Some "network error" else None)
    (account env_ok).

(** The routes an effect pushes when run on a world. *)
Definition pushed (m : Async unit) (w : World) : list string :=
  drop (length (pushes w)) (pushes (m w).2).

(** A [trim] for texts whose white space is ASCII: blanks, tabs and line
    ends are dropped at both ends. *)
Definition is_space (a : Ascii.ascii) : bool :=
  match Ascii.nat_of_ascii a with
  | 9 | 10 | 11 | 12 | 13 | 32 => true
  | _ => false
  end.

Fixpoint trim_start (s : string) : string :=
  match s with
  | String a s' => if is_space a then trim_start s' else s
  | EmptyString => EmptyString
  end.

Definition trim_ascii (s : string) : string :=
  String.rev (trim_start (String.rev (trim_start s))).

(** Alice's notebook "Work" ([id-0]) as the view shows it, and the world
    in which it is all she owns. *)
Definition notebook_work : NotebookEntity :=
  mkNotebook "id-0" "Work" EmptyString "2025-03-01T10:00:00.000Z".

Definition world_notebook : World :=
  (createNotebook env_ok (Some alice) "Work" EmptyString world0).2.

(** * Properties *)

(** ** Truthiness *)

Lemma truthy_true s : truthy s = true ↔ s ≠ EmptyString.
Proof. destruct s; simpl; split; intros; congruence. Qed.

Lemma truthy_false s : truthy s = false ↔ s = EmptyString.
Proof. destruct s; simpl; split; intros; congruence. Qed.

(** ** Stepping through asynchronous computations *)

Lemma bind_step {A B : Type} (m : Async A) (k : A → Async B) (w : World) :
  (m ≫= k) w =
  match m w with
  | (Resolved a, w') => k a w'
  | (Rejected err, w') => (Rejected err, w')
  end.
Proof. reflexivity. Qed.

Lemma transact_step (E : Env) (chunks : list TxChunk) (w : World) :
  transact E chunks w =
  let w1 := with_calls (calls w ++ [Transact chunks]) w in
  match rejection E (length (calls w)) with
  | Some err => (Rejected err, w1)
  | None =>
      match apply_tx (store w) chunks with
      | Some s => (Resolved (), with_store s w1)
      | None => (Rejected "invalid transaction", w1)
      end
  end.
Proof. reflexivity. Qed.

(** Whatever the service answers, [transact] issues exactly one call and
    touches nothing of the world but the store and the call record. *)
Lemma transact_calls (E : Env) (chunks : list TxChunk) (w : World) :
  calls (transact E chunks w).2 = calls w ++ [Transact chunks].
Proof.
  rewrite transact_step. simpl.
  destruct (rejection E (length (calls w))); [done|].
  by destruct (apply_tx (store w) chunks).
Qed.

(** A handler that cannot fail makes a [try]/[catch] total. *)
Lemma try_catch_total (body : Async unit) (handler : string → Async unit)
  (w : World) :
  (∀ err w1, ∃ w2, handler err w1 = (Resolved (), w2)) →
  ∃ w', try_catch body handler w = (Resolved (), w').
Proof.
  intros Hh. unfold try_catch.
  destruct (body w) as [[[]|err] w1]; eauto.
Qed.

(** Unfolds the sequencing of a computation down to its remote calls. *)
Ltac async_steps :=
  unfold mbind, Async_bind, mret, Async_ret, new_id, now_iso, throw, modify,
    console_log, console_error;
  simpl.

(** ** Validity of the controllers' transactions against the schema *)

Lemma fold_steps_total {A S : Type} (step : S → A → option S) (ok : A → bool)
  (l : list A) :
  (∀ s a, ok a = true → is_Some (step s a)) →
  forallb ok l = true → ∀ s, is_Some (fold_steps step s l).
Proof.
  intros Hstep. induction l as [|a l IH]; simpl; intros Hl s; [by eexists|].
  apply andb_prop in Hl as [Ha Hl].
  destruct (Hstep s a Ha) as [s' ->]. by apply IH.
Qed.

Lemma fold_steps_app {A S : Type} (step : S → A → option S) (s : S)
  (l1 l2 : list A) :
  fold_steps step s (l1 ++ l2) =
  match fold_steps step s l1 with
  | Some s' => fold_steps step s' l2
  | None => None
  end.
Proof.
  revert s. induction l1 as [|a l1 IH]; simpl; intros s; [done|].
  destruct (step s a); [apply IH | done].
Qed.

Lemma apply_action_valid (ns : Namespace) (eid : string) (s : Store) (a : Action) :
  valid_action ns a = true → is_Some (apply_action ns eid s a).
Proof.
  destruct a as [attrs|refs|refs|]; simpl; intros Hv; try by eexists.
  - revert s. apply (fold_steps_total _ (λ r, bool_decide (is_Some (resolve_label ns r.1)))); [|done].
    intros s r Hr%bool_decide_eq_true. unfold link_one.
    destruct Hr as [[d dir] ->]. by eexists.
  - revert s. apply (fold_steps_total _ (λ r, bool_decide (is_Some (resolve_label ns r.1)))); [|done].
    intros s r Hr%bool_decide_eq_true. unfold unlink_one.
    destruct Hr as [[d dir] ->]. by eexists.
Qed.

Lemma apply_tx_valid (s : Store) (chunks : list TxChunk) :
  forallb valid_chunk chunks = true → is_Some (apply_tx s chunks).
Proof.
  intros Hv. revert s. unfold apply_tx.
  apply (fold_steps_total _ valid_chunk); [|done].
  intros s c Hc. unfold apply_chunk. revert s.
  apply (fold_steps_total _ (valid_action (chunk_ns c))); [|done].
  intros s a. apply apply_action_valid.
Qed.

(** A valid transaction that the service does not reject resolves. *)
Lemma transact_accepted (E : Env) (chunks : list TxChunk) (w : World) :
  rejection E (length (calls w)) = None →
  forallb valid_chunk chunks = true →
  ∃ s, apply_tx (store w) chunks = Some s ∧
       transact E chunks w =
       (Resolved (), with_store s (with_calls (calls w ++ [Transact chunks]) w)).
Proof.
  intros Hr Hv. destruct (apply_tx_valid (store w) chunks Hv) as [s Hs].
  exists s. split; [done|]. rewrite transact_step. simpl. by rewrite Hr, Hs.
Qed.

Lemma transact_rejected (E : Env) (chunks : list TxChunk) (w : World) (err : string) :
  rejection E (length (calls w)) = Some err →
  transact E chunks w =
  (Rejected err, with_calls (calls w ++ [Transact chunks]) w).
Proof. intros Hr. rewrite transact_step. simpl. by rewrite Hr. Qed.

(** ** [createNote] *)

(** C3. Whenever [createNote] resolves, the record it returns carries the
    title and content it was given, is not a favorite, and has equal
    creation and update timestamps. *)
Theorem createNote_returns_echo (E : Env) (user : option User) (t c : string)
  (notebookId : option string) (tagIds : option (list string))
  (w w' : World) (rec : NoteEntity) :
  createNote E user t c notebookId tagIds w = (Resolved rec, w') →
  title rec = t ∧ content rec = c ∧ isFavorite rec = false ∧
  createdAt rec = updatedAt rec.
Proof.
  unfold createNote. destruct user as [u|]; [|discriminate].
  async_steps.
  match goal with |- context [transact E ?chunks ?w1] =>
    destruct (transact E chunks w1) as [[[]|err] w2] end;
    [|discriminate].
  intros [= <- <-]. done.
Qed.

Lemma createNote_returns_echo_witness :
  title (mkNote "id-0" "A" "body" "2025-03-01T10:00:00.000Z"
           "2025-03-01T10:00:00.000Z" false) = "A" ∧
  content (mkNote "id-0" "A" "body" "2025-03-01T10:00:00.000Z"
             "2025-03-01T10:00:00.000Z" false) = "body" ∧
  isFavorite (mkNote "id-0" "A" "body" "2025-03-01T10:00:00.000Z"
                "2025-03-01T10:00:00.000Z" false) = false ∧
  createdAt (mkNote "id-0" "A" "body" "2025-03-01T10:00:00.000Z"
               "2025-03-01T10:00:00.000Z" false) =
  updatedAt (mkNote "id-0" "A" "body" "2025-03-01T10:00:00.000Z"
               "2025-03-01T10:00:00.000Z" false).
Proof.
  apply (createNote_returns_echo env_ok (Some alice) "A" "body" None None world0
           (createNote env_ok (Some alice) "A" "body" None None world0).2).
  vm_compute. reflexivity.
Defined.

(** [createNote] does resolve for a signed-in user whenever the service
    accepts the write; without a user it rejects before any remote call. *)
Lemma createNote_resolves (E : Env) (u : User) (t c : string)
  (notebookId : option string) (tagIds : option (list string)) (w : World) :
  rejection E (length (calls w)) = None →
  ∃ rec w', createNote E (Some u) t c notebookId tagIds w = (Resolved rec, w').
Proof.
  intros Hr. unfold createNote. async_steps.
  match goal with |- context [transact E ?chunks ?w1] =>
    destruct (transact_accepted E chunks w1) as (s & _ & ->) end;
    [done| |by eauto].
  destruct notebookId as [nb|]; [destruct (truthy nb)|];
    destruct tagIds as [[|tg tgs]|]; reflexivity.
Qed.

Lemma createNote_unauthenticated (E : Env) (t c : string)
  (notebookId : option string) (tagIds : option (list string)) (w : World) :
  createNote E None t c notebookId tagIds w = (Rejected "User not authenticated", w).
Proof. reflexivity. Qed.

(** ** [verifyCode] *)

(** C6. When the service accepts the code, [verifyCode] resolves, the
    recorded sent email is cleared and the ambient identity is present;
    when the service rejects, [verifyCode] rejects with that same error
    and leaves the recorded sent email (and the identity) as they were. *)
Theorem verifyCode_outcomes (E : Env) (email code : string) (w : World) :
  (rejection E (length (calls w)) = None →
   ∃ w', verifyCode E email code w = (Resolved (), w') ∧
         sentEmail w' = None ∧ is_Some (session w')) ∧
  (∀ err, rejection E (length (calls w)) = Some err →
   ∃ w', verifyCode E email code w = (Rejected err, w') ∧
         sentEmail w' = sentEmail w ∧ session w' = session w).
Proof.
  split.
  - intros Hr. unfold verifyCode, try_catch, signInWithMagicCode, remote.
    async_steps. rewrite Hr. simpl. eexists. split; [done|]. simpl.
    split; [done|by eexists].
  - intros err Hr. unfold verifyCode, try_catch, signInWithMagicCode, remote.
    async_steps. rewrite Hr. simpl. eexists. split; [done|]. done.
Qed.

Lemma verifyCode_outcomes_witness :
  (∃ w', verifyCode env_ok "alice@example.com" "424242" world_pending
           = (Resolved (), w') ∧
         sentEmail w' = None ∧ is_Some (session w')) ∧
  (∃ w', verifyCode env_down "alice@example.com" "000000" world_pending
           = (Rejected "network error", w') ∧
         sentEmail w' = sentEmail world_pending ∧
         session w' = session world_pending).
Proof.
  split.
  - apply (verifyCode_outcomes env_ok "alice@example.com" "424242" world_pending).
    reflexivity.
  - apply (verifyCode_outcomes env_down "alice@example.com" "000000" world_pending).
    reflexivity.
Defined.

(** ** The redirect effect of [AuthProvider] *)

(** C9. Once loading has completed, with no identity and no email pending
    verification, the effect leaves the router on the login screen: it
    pushes [/login] unless the router is already there. *)
Theorem redirect_effect_forces_login (w : World) :
  auth_loading w = false → session w = None → sentEmail w = None →
  ∃ w', redirect_effect w = (Resolved (), w') ∧
        pathname w' = "/login" ∧
        pushes w' =
          (if bool_decide (pathname w = "/login") then pushes w
           else pushes w ++ ["/login"]).
Proof.
  intros Hl Hs He. unfold redirect_effect. rewrite Hl, Hs, He. simpl.
  case_bool_decide as Hp; simpl; eexists; (split; [done|]); simpl; done.
Qed.

Lemma redirect_effect_forces_login_witness :
  ∃ w', redirect_effect world0 = (Resolved (), w') ∧
        pathname w' = "/login" ∧
        pushes w' =
          (if bool_decide (pathname world0 = "/login") then pushes world0
           else pushes world0 ++ ["/login"]).
Proof.
  apply (redirect_effect_forces_login world0); reflexivity.
Defined.

(** ** [moveNoteToNotebook] *)

(** C4. For a note the view shows in a notebook, [moveNoteToNotebook]
    first issues a call unlinking the old notebook and, once that call has
    resolved, a second, separate call linking the new one; if the first
    call is rejected the error goes to the caller and no link is issued.
    For a note without a notebook it issues the link call alone, and no
    call carrying an unlink. *)
Theorem moveNoteToNotebook_calls (E : Env) (notes : list NoteWithRelations)
  (noteId notebookId : string) (w : World) :
  (∀ old, current_notebook notes noteId = Some old →
     rejection E (length (calls w)) = None →
     calls (moveNoteToNotebook E notes noteId notebookId w).2 =
       calls w ++ [ unlink_note_call (notebook_id old) noteId;
                    link_note_call notebookId noteId ]) ∧
  (∀ old err, current_notebook notes noteId = Some old →
     rejection E (length (calls w)) = Some err →
     (moveNoteToNotebook E notes noteId notebookId w).1 = Rejected err ∧
     calls (moveNoteToNotebook E notes noteId notebookId w).2 =
       calls w ++ [ unlink_note_call (notebook_id old) noteId ]) ∧
  (current_notebook notes noteId = None →
     calls (moveNoteToNotebook E notes noteId notebookId w).2 =
       calls w ++ [ link_note_call notebookId noteId ] ∧
     Forall (λ c, carries_unlink c = false)
       (drop (length (calls w))
          (calls (moveNoteToNotebook E notes noteId notebookId w).2))).
Proof.
  unfold moveNoteToNotebook, current_notebook.
  destruct (List.find _ notes) as [[n ts [old|]]|]; simpl.
  - split; [|split]; [| |done].
    + intros ? [= <-] Hr. rewrite bind_step.
      destruct (transact_accepted E
                  [tx NsNotebooks (notebook_id old) [unlink [("notes", [noteId])]]]
                  w Hr eq_refl) as (s & _ & ->).
      rewrite transact_calls. simpl. by rewrite <- app_assoc.
    + intros ? err [= <-] Hr. rewrite bind_step.
      rewrite (transact_rejected E _ w err Hr). done.
  - split; [|split]; [done|done|]. intros _.
    rewrite bind_step. async_steps. rewrite transact_calls.
    split; [done|]. rewrite drop_app_length. by repeat constructor.
  - split; [|split]; [done|done|]. intros _.
    rewrite bind_step. async_steps. rewrite transact_calls.
    split; [done|]. rewrite drop_app_length. by repeat constructor.
Qed.

Lemma moveNoteToNotebook_calls_witness :
  calls (moveNoteToNotebook env_ok [note_b; note_a] "id-1" "id-9" world0).2 =
    calls world0 ++ [ unlink_note_call "id-0" "id-1"; link_note_call "id-9" "id-1" ] ∧
  ((moveNoteToNotebook env_down [note_b; note_a] "id-1" "id-9" world0).1 =
     Rejected "network error" ∧
   calls (moveNoteToNotebook env_down [note_b; note_a] "id-1" "id-9" world0).2 =
     calls world0 ++ [ unlink_note_call "id-0" "id-1" ]) ∧
  (calls (moveNoteToNotebook env_ok [note_b; note_a] "id-2" "id-9" world0).2 =
     calls world0 ++ [ link_note_call "id-9" "id-2" ] ∧
   Forall (λ c, carries_unlink c = false)
     (drop (length (calls world0))
        (calls (moveNoteToNotebook env_ok [note_b; note_a] "id-2" "id-9" world0).2))).
Proof.
  split; [|split].
  - apply (proj1 (moveNoteToNotebook_calls env_ok [note_b; note_a] "id-1" "id-9" world0)
             (mkNotebook "id-0" "Work" EmptyString "2025-03-01T10:00:00.000Z"));
      reflexivity.
  - apply (proj1 (proj2 (moveNoteToNotebook_calls env_down [note_b; note_a]
                           "id-1" "id-9" world0))
             (mkNotebook "id-0" "Work" EmptyString "2025-03-01T10:00:00.000Z"));
      reflexivity.
  - apply (proj2 (proj2 (moveNoteToNotebook_calls env_ok [note_b; note_a] "id-2" "id-9" world0))).
    reflexivity.
Defined.

(** The move is not atomic: when the service accepts the unlink and
    rejects the link, the caller gets the error and the note is left in
    no notebook. *)
Example moveNoteToNotebook_rejected_midway :
  (moveNoteToNotebook env_second_call_fails [note_b] "id-1" "id-9" world_work).1
    = Rejected "network error" ∧
  (notebookNotes, "id-0", "id-1") ∈ edges (store world_work) ∧
  List.filter
    (λ e, bool_decide (e.1.1 = notebookNotes))
    (elements
       (edges (store (moveNoteToNotebook env_second_call_fails [note_b]
                        "id-1" "id-9" world_work).2)))
    = [].
Proof.
  split; [vm_compute; reflexivity|]. split.
  - apply (bool_decide_unpack _). vm_compute. exact I.
  - vm_compute. reflexivity.
Qed.

(** ** Effect of the controllers' transactions on the store *)

Lemma apply_unlink_chunks {A : Type} (ns : Namespace) (label : string)
  (d : LinkDef) (dir : Direction) (f g : A → string) (l : list A) (s : Store) :
  resolve_label ns label = Some (d, dir) →
  apply_tx s (map (λ x, tx ns (f x) [ unlink [ (label, [g x]) ] ]) l) =
  Some (mkStore (entities s)
          (edges s ∖ list_to_set (map (λ x, edge_of d dir (f x) (g x)) l))).
Proof.
  intros Hres. unfold apply_tx. revert s.
  induction l as [|x l IH]; intros [en ed]; simpl.
  - by rewrite difference_empty_L.
  - unfold apply_chunk at 1. simpl. unfold unlink_one at 1. simpl.
    rewrite Hres. simpl. rewrite IH. simpl.
    by rewrite difference_difference_l_L.
Qed.

Lemma apply_delete_chunk (ns : Namespace) (eid : string) (s : Store) :
  apply_tx s [ tx ns eid [ delete ] ] =
  Some (mkStore (base.delete (ns, eid) (entities s))
          (filter (λ e, ¬ touches ns eid e) (edges s))).
Proof. reflexivity. Qed.

Lemma apply_tx_app (s : Store) (l1 l2 : list TxChunk) :
  apply_tx s (l1 ++ l2) =
  match apply_tx s l1 with
  | Some s' => apply_tx s' l2
  | None => None
  end.
Proof. apply fold_steps_app. Qed.

Lemma touches_forward_notebook (id nid : string) :
  touches NsNotebooks id (notebookNotes, id, nid) = true.
Proof. unfold touches. simpl. by rewrite bool_decide_eq_true_2. Qed.

Lemma touches_reverse_tag (id nid : string) :
  touches NsTags id (noteTags, nid, id) = true.
Proof.
  unfold touches. simpl.
  by rewrite (bool_decide_eq_true_2 (NsTags = NsTags ∧ id = id)).
Qed.

(** ** [deleteNotebook] *)

(** C1, as stated, fails: the unlinks and the delete are not issued as
    separate calls.  Deleting notebook "Work" that holds note "B" issues
    one [transact] that carries the unlink and the delete together. *)
Lemma deleteNotebook_phases_not_separate :
  ¬ separate_phases
      (drop (length (calls world_work))
         (calls (deleteNotebook env_ok [note_b] "id-0" world_work).2)).
Proof.
  assert (drop (length (calls world_work))
            (calls (deleteNotebook env_ok [note_b] "id-0" world_work).2)
          = [ Transact [ tx NsNotebooks "id-0" [ unlink [ ("notes", ["id-1"]) ] ];
                         tx NsNotebooks "id-0" [ delete ] ] ]) as ->
    by (vm_compute; reflexivity).
  intros Hsep. apply Forall_inv in Hsep. apply Hsep. split; reflexivity.
Qed.

(** C1, amended. [deleteNotebook] issues a single batched [transact]:
    one unlink chunk for every note the view shows in the notebook, and
    after them the delete of the notebook record.  When the service
    accepts it, the unlink chunks clear the notebook reference of each of
    those notes while the record is still there, the delete then removes
    the record, no note is linked to the notebook any more, and every
    other record is as before. *)
Theorem deleteNotebook_single_batch (E : Env) (notes : list NoteWithRelations)
  (id : string) (w : World) :
  ∃ unlinks,
    calls (deleteNotebook E notes id w).2 =
      calls w ++ [ Transact (unlinks ++ [ tx NsNotebooks id [ delete ] ]) ] ∧
    (∀ c, In c unlinks ↔
          ∃ n nb, In n notes ∧ notebook n = Some nb ∧ notebook_id nb = id ∧
                  c = tx NsNotebooks id [ unlink [ ("notes", [note_id (note n)]) ] ]) ∧
    (rejection E (length (calls w)) = None →
     ∃ s_mid w',
       deleteNotebook E notes id w = (Resolved (), w') ∧
       apply_tx (store w) unlinks = Some s_mid ∧
       apply_tx s_mid [ tx NsNotebooks id [ delete ] ] = Some (store w') ∧
       entities s_mid = entities (store w) ∧
       (∀ n nb, In n notes → notebook n = Some nb → notebook_id nb = id →
                (notebookNotes, id, note_id (note n)) ∉ edges s_mid) ∧
       entities (store w') !! (NsNotebooks, id) = None ∧
       (∀ nid, (notebookNotes, id, nid) ∉ edges (store w')) ∧
       (∀ k, k ≠ (NsNotebooks, id) →
             entities (store w') !! k = entities (store w) !! k)).
Proof.
  unfold deleteNotebook. eexists. split; [apply transact_calls|]. split.
  - intros c. rewrite in_map_iff. split.
    + intros (n & <- & Hn). apply filter_In in Hn as [Hn Hnb].
      unfold in_notebook in Hnb. destruct (notebook n) as [nb|] eqn:Hnote; [|done].
      apply bool_decide_eq_true in Hnb. by exists n, nb.
    + intros (n & nb & Hn & Hnote & Hid & ->). exists n. split; [done|].
      apply filter_In. split; [done|]. unfold in_notebook. rewrite Hnote.
      by apply bool_decide_eq_true.
  - intros Hr.
    pose proof (apply_unlink_chunks NsNotebooks "notes" _ Forward
                  (λ _, id) (λ n, note_id (note n))
                  (List.filter (in_notebook id) notes) (store w) eq_refl) as Hmid.
    simpl in Hmid. eexists _, _.
    split; [|split; [exact Hmid|]].
    + rewrite transact_step. simpl. rewrite Hr.
      rewrite apply_tx_app, Hmid. rewrite apply_delete_chunk. reflexivity.
    + simpl. split; [apply apply_delete_chunk|]. split; [done|]. split; [|split; [|split]].
      * intros n nb Hn Hnote Hid. rewrite elem_of_difference.
        intros [_ Hnot]. apply Hnot. apply elem_of_list_to_set.
        apply list_elem_of_In, in_map_iff. exists n. split; [done|].
        apply filter_In. split; [done|]. unfold in_notebook. rewrite Hnote.
        by apply bool_decide_eq_true.
      * apply lookup_delete_eq.
      * intros nid Hin. apply elem_of_filter in Hin as [Hin _].
        apply Hin. by rewrite touches_forward_notebook.
      * intros k Hk. by apply lookup_delete_ne.
Qed.

Lemma deleteNotebook_single_batch_witness :
  ∃ w', deleteNotebook env_ok [note_b] "id-0" world_work = (Resolved (), w') ∧
        entities (store w') !! (NsNotebooks, "id-0") = None ∧
        ((notebookNotes, "id-0", "id-1") ∉ edges (store w')) ∧
        (entities (store w') !! (NsNotes, "id-1")
           = entities (store world_work) !! (NsNotes, "id-1")).
Proof.
  destruct (deleteNotebook_single_batch env_ok [note_b] "id-0" world_work)
    as (unlinks & _ & _ & Hacc).
  destruct (Hacc eq_refl)
    as (s_mid & w' & Hrun & _ & _ & _ & _ & Hgone & Hedges & Hframe).
  exists w'. split; [exact Hrun|]. split; [exact Hgone|].
  split; [apply Hedges|]. apply Hframe. discriminate.
Defined.

(** In the scenario the note was linked before and survives unlinked. *)
Example deleteNotebook_scenario :
  (notebookNotes, "id-0", "id-1") ∈ edges (store world_work) ∧
  is_Some (entities (store world_work) !! (NsNotebooks, "id-0")) ∧
  is_Some (entities (store (deleteNotebook env_ok [note_b] "id-0" world_work).2)
             !! (NsNotes, "id-1")).
Proof.
  split; [|split].
  - apply (bool_decide_unpack _). vm_compute. exact I.
  - apply (bool_decide_unpack _). vm_compute. exact I.
  - apply (bool_decide_unpack _). vm_compute. exact I.
Qed.

(** ** [deleteTag] *)

(** C5. [deleteTag] sends, in one batch and ahead of the delete of the
    tag record, one unlink chunk for every note the view shows carrying
    the tag.  When the service accepts the batch, the unlinks detach the
    tag from each of those notes while the tag record still exists, the
    record is then removed, and afterwards no note is linked to the tag;
    every other record is as before. *)
Theorem deleteTag_unlinks_before_delete (E : Env) (notes : list NoteWithRelations)
  (id : string) (w : World) :
  ∃ unlinks,
    calls (deleteTag E notes id w).2 =
      calls w ++ [ Transact (unlinks ++ [ tx NsTags id [ delete ] ]) ] ∧
    (∀ c, In c unlinks ↔
          ∃ n t, In n notes ∧ In t (tags n) ∧ tag_id t = id ∧
                 c = tx NsNotes (note_id (note n)) [ unlink [ ("tags", [id]) ] ]) ∧
    (rejection E (length (calls w)) = None →
     ∃ s_mid w',
       deleteTag E notes id w = (Resolved (), w') ∧
       apply_tx (store w) unlinks = Some s_mid ∧
       apply_tx s_mid [ tx NsTags id [ delete ] ] = Some (store w') ∧
       entities s_mid = entities (store w) ∧
       (∀ n t, In n notes → In t (tags n) → tag_id t = id →
               (noteTags, note_id (note n), id) ∉ edges s_mid) ∧
       entities (store w') !! (NsTags, id) = None ∧
       (∀ nid, (noteTags, nid, id) ∉ edges (store w')) ∧
       (∀ k, k ≠ (NsTags, id) →
             entities (store w') !! k = entities (store w) !! k)).
Proof.
  assert (Htag : ∀ n, has_tag id n = true ↔ ∃ t, In t (tags n) ∧ tag_id t = id).
  { intros n. unfold has_tag. rewrite existsb_exists.
    split; intros (t & Ht & Hid); exists t; (split; [done|]).
    - by apply bool_decide_eq_true in Hid.
    - by apply bool_decide_eq_true. }
  unfold deleteTag. eexists. split; [apply transact_calls|]. split.
  - intros c. rewrite in_map_iff. split.
    + intros (n & <- & Hn). apply filter_In in Hn as [Hn Ht].
      apply Htag in Ht as (t & Ht & Hid). by exists n, t.
    + intros (n & t & Hn & Ht & Hid & ->). exists n. split; [done|].
      apply filter_In. split; [done|]. apply Htag. by exists t.
  - intros Hr.
    pose proof (apply_unlink_chunks NsNotes "tags" _ Forward
                  (λ n, note_id (note n)) (λ _, id)
                  (List.filter (has_tag id) notes) (store w) eq_refl) as Hmid.
    simpl in Hmid. eexists _, _.
    split; [|split; [exact Hmid|]].
    + rewrite transact_step. simpl. rewrite Hr.
      rewrite apply_tx_app, Hmid. rewrite apply_delete_chunk. reflexivity.
    + simpl. split; [apply apply_delete_chunk|]. split; [done|].
      split; [|split; [|split]].
      * intros n t Hn Ht Hid. rewrite elem_of_difference.
        intros [_ Hnot]. apply Hnot. apply elem_of_list_to_set.
        apply list_elem_of_In, in_map_iff. exists n. split; [done|].
        apply filter_In. split; [done|]. apply Htag. by exists t.
      * apply lookup_delete_eq.
      * intros nid Hin. apply elem_of_filter in Hin as [Hin _].
        apply Hin. by rewrite touches_reverse_tag.
      * intros k Hk. by apply lookup_delete_ne.
Qed.

Lemma deleteTag_unlinks_before_delete_witness :
  ∃ w', deleteTag env_ok [note_c] "id-0" world_tagged = (Resolved (), w') ∧
        entities (store w') !! (NsTags, "id-0") = None ∧
        (noteTags, "id-1", "id-0") ∉ edges (store w').
Proof.
  destruct (deleteTag_unlinks_before_delete env_ok [note_c] "id-0" world_tagged)
    as (unlinks & _ & _ & Hacc).
  destruct (Hacc eq_refl)
    as (s_mid & w' & Hrun & _ & _ & _ & _ & Hgone & Hedges & _).
  exists w'. split; [exact Hrun|]. split; [exact Hgone|apply Hedges].
Defined.

Example deleteTag_scenario :
  (noteTags, "id-1", "id-0") ∈ edges (store world_tagged) ∧
  calls (deleteTag env_ok [note_c] "id-0" world_tagged).2 =
    calls world_tagged ++
    [ Transact [ tx NsNotes "id-1" [ unlink [ ("tags", ["id-0"]) ] ];
                 tx NsTags "id-0" [ delete ] ] ].
Proof.
  split.
  - apply (bool_decide_unpack _). vm_compute. exact I.
  - vm_compute. reflexivity.
Qed.

(** ** [removeTagFromNote] *)

(** C8. Removing a tag that is not attached to the note is a no-op that
    does not error: the call carries no check of its own, so it rejects
    only when the service rejects the request, and when the service
    accepts it the call resolves and the world is exactly as before, but
    for the record of the one call issued. *)
Theorem removeTagFromNote_unattached_noop (E : Env) (noteId tagId : string)
  (w : World) :
  (noteTags, noteId, tagId) ∉ edges (store w) →
  (rejection E (length (calls w)) = None →
   ∃ w', removeTagFromNote E noteId tagId w = (Resolved (), w') ∧
         store w' = store w ∧
         w' = with_calls
                (calls w ++
                 [ Transact [ tx NsNotes noteId [ unlink [ ("tags", [tagId]) ] ] ] ])
                w) ∧
  (∀ err w', removeTagFromNote E noteId tagId w = (Rejected err, w') →
             rejection E (length (calls w)) = Some err ∧ store w' = store w).
Proof.
  intros Hnot. unfold removeTagFromNote. rewrite transact_step. cbv zeta.
  assert (Hs : apply_tx (store w)
                 [tx NsNotes noteId [unlink [("tags", [tagId])]]]
               = Some (store w)).
  { destruct (store w) as [en ed] eqn:Hst. simpl in Hnot.
    unfold apply_tx, apply_chunk. simpl. unfold unlink_one. simpl.
    f_equal. f_equal. apply difference_disjoint_L.
    by apply disjoint_singleton_r. }
  rewrite Hs. split.
  - intros ->. eexists. split; [done|]. by destruct w.
  - intros err w'. destruct (rejection E (length (calls w))) as [e|].
    + intros [= <- <-]. done.
    + discriminate.
Qed.

Lemma removeTagFromNote_unattached_noop_witness :
  (∃ w', removeTagFromNote env_ok "id-1" "id-7" world_tagged = (Resolved (), w') ∧
         store w' = store world_tagged ∧
         w' = with_calls
                (calls world_tagged ++
                 [ Transact [ tx NsNotes "id-1" [ unlink [ ("tags", ["id-7"]) ] ] ] ])
                world_tagged) ∧
  (rejection env_down (length (calls world_tagged)) = Some "network error" ∧
   store (removeTagFromNote env_down "id-1" "id-7" world_tagged).2
     = store world_tagged).
Proof.
  split.
  - apply (proj1 (removeTagFromNote_unattached_noop env_ok "id-1" "id-7" world_tagged
                    ltac:(apply (bool_decide_unpack _); vm_compute; exact I))).
    reflexivity.
  - apply (proj2 (removeTagFromNote_unattached_noop env_down "id-1" "id-7" world_tagged
                    ltac:(apply (bool_decide_unpack _); vm_compute; exact I))
             "network error").
    vm_compute. reflexivity.
Defined.

(** By contrast, removing the attached tag does change the store. *)
Example removeTagFromNote_attached_changes :
  (noteTags, "id-1", "id-0") ∈ edges (store world_tagged) ∧
  (noteTags, "id-1", "id-0")
    ∉ edges (store (removeTagFromNote env_ok "id-1" "id-0" world_tagged).2).
Proof.
  split; apply (bool_decide_unpack _); vm_compute; exact I.
Qed.

(** ** [updateNote] *)

Lemma set_attrs_snoc (attrs : list (string * Value)) (k : string) (v : Value)
  (old : gmap string Value) :
  set_attrs (attrs ++ [(k, v)]) old = <[ k := v ]> (set_attrs attrs old).
Proof. unfold set_attrs. by rewrite foldl_app. Qed.

Lemma set_attrs_lookup_other (attrs : list (string * Value)) (k : string)
  (old : gmap string Value) :
  k ∉ attrs.*1 → set_attrs attrs old !! k = old !! k.
Proof.
  unfold set_attrs. revert old.
  induction attrs as [|[k' v] attrs IH]; simpl; intros old Hk; [done|].
  apply not_elem_of_cons in Hk as [Hne Hk].
  rewrite IH by done. by rewrite lookup_insert_ne.
Qed.

Lemma spread_keys (u : NoteUpdates) (k : string) :
  k ∈ (spread u).*1 → k ∈ ["title"; "content"; "isFavorite"].
Proof.
  destruct u as [[t|] [c|] [b|]]; unfold spread; simpl;
    rewrite ?elem_of_cons; intuition.
Qed.

Lemma spread_lookup (u : NoteUpdates) (old : gmap string Value) :
  set_attrs (spread u) old !! "title" =
    match upd_title u with Some t => Some (VStr t) | None => old !! "title" end ∧
  set_attrs (spread u) old !! "content" =
    match upd_content u with Some c => Some (VStr c) | None => old !! "content" end ∧
  set_attrs (spread u) old !! "isFavorite" =
    match upd_isFavorite u with
    | Some b => Some (VBool b)
    | None => old !! "isFavorite"
    end.
Proof.
  destruct u as [[t|] [c|] [b|]]; unfold set_attrs, spread; simpl;
    repeat split;
    repeat (first [ rewrite lookup_insert_eq | rewrite lookup_insert_ne by done ]);
    done.
Qed.

(** C7. [updateNote] issues one [transact] with one [update] chunk on the
    note, carrying the supplied fields and a fresh [updatedAt].  When the
    service accepts it, the supplied fields have the supplied values,
    [updatedAt] is the new clock reading, every other field of the note
    (its [createdAt], and [title], [content] or [isFavorite] when not
    supplied) is as before, no link has changed, and no other record has
    changed. *)
Theorem updateNote_patches_given_fields (E : Env) (id : string)
  (updates : NoteUpdates) (w : World) :
  calls (updateNote E id updates w).2 =
    calls w ++
    [ Transact
        [ tx NsNotes id
            [ update (spread updates ++
                      [ ("updatedAt", VStr (clock E (clock_reads w))) ]) ] ] ] ∧
  (rejection E (length (calls w)) = None →
   ∃ w', updateNote E id updates w = (Resolved (), w') ∧
     note_attrs (store w') id !! "updatedAt"
       = Some (VStr (clock E (clock_reads w))) ∧
     note_attrs (store w') id !! "title" =
       match upd_title updates with
       | Some t => Some (VStr t)
       | None => note_attrs (store w) id !! "title"
       end ∧
     note_attrs (store w') id !! "content" =
       match upd_content updates with
       | Some c => Some (VStr c)
       | None => note_attrs (store w) id !! "content"
       end ∧
     note_attrs (store w') id !! "isFavorite" =
       match upd_isFavorite updates with
       | Some b => Some (VBool b)
       | None => note_attrs (store w) id !! "isFavorite"
       end ∧
     (∀ k, k ∉ ["title"; "content"; "isFavorite"; "updatedAt"] →
           note_attrs (store w') id !! k = note_attrs (store w) id !! k) ∧
     edges (store w') = edges (store w) ∧
     (∀ k, k ≠ (NsNotes, id) →
           entities (store w') !! k = entities (store w) !! k)).
Proof.
  unfold updateNote. rewrite bind_step. unfold now_iso. cbv beta iota.
  split; [by rewrite transact_calls|].
  intros Hr. rewrite transact_step. cbv zeta. simpl calls. rewrite Hr.
  eexists. split; [reflexivity|]. unfold note_attrs. simpl.
  rewrite lookup_insert_eq. simpl.
  set (old := default ∅ (entities (store w) !! (NsNotes, id))).
  rewrite set_attrs_snoc.
  destruct (spread_lookup updates old) as (Ht & Hc & Hf).
  split; [apply lookup_insert_eq|].
  split; [by rewrite lookup_insert_ne|].
  split; [by rewrite lookup_insert_ne|].
  split; [by rewrite lookup_insert_ne|].
  split; [|split; [done|]].
  - intros k Hk. rewrite !not_elem_of_cons in Hk.
    destruct Hk as (H1 & H2 & H3 & H4 & _).
    rewrite lookup_insert_ne by done.
    apply set_attrs_lookup_other. intros Hin%spread_keys.
    rewrite !elem_of_cons in Hin. destruct Hin as [?|[?|[?|Hin]]]; try done.
    by apply elem_of_nil in Hin.
  - intros k Hk. by rewrite lookup_insert_ne.
Qed.

Lemma updateNote_patches_given_fields_witness :
  ∃ w', updateNote env_ok "id-1" retitle world_work = (Resolved (), w') ∧
        note_attrs (store w') "id-1" !! "title" = Some (VStr "B, revised") ∧
        note_attrs (store w') "id-1" !! "createdAt"
          = note_attrs (store world_work) "id-1" !! "createdAt" ∧
        edges (store w') = edges (store world_work).
Proof.
  destruct (proj2 (updateNote_patches_given_fields env_ok "id-1" retitle world_work)
              eq_refl)
    as (w' & Hrun & _ & Ht & _ & _ & Hk & He & _).
  exists w'. split; [exact Hrun|]. split; [exact Ht|]. split; [|exact He].
  apply Hk. apply (bool_decide_unpack _). vm_compute. exact I.
Defined.

Example updateNote_scenario :
  note_attrs (store world_work) "id-1" !! "title" = Some (VStr "B") ∧
  note_attrs (store (updateNote env_ok "id-1" retitle world_work).2) "id-1"
    !! "content" = Some (VStr "body") ∧
  note_attrs (store (updateNote env_ok "id-1" retitle world_work).2) "id-1"
    !! "updatedAt" = Some (VStr "2025-03-01T10:00:02.000Z").
Proof. repeat split; vm_compute; reflexivity. Qed.

(** ** Onboarding of a newly observed identity *)

Lemma map_indexed_starter_notes (E : Env) (uid nb now : string)
  (l : list WelcomeNote) (index : nat) (w : World) :
  map_indexed
    (λ note index,
       noteId ← new_id E;
       mret (tx NsNotes noteId
               [ update [ ("title", VStr (welcome_title note));
                          ("content", VStr (welcome_content note));
                          ("createdAt", VStr now);
                          ("updatedAt", VStr now);
                          ("isFavorite", VBool (Nat.eqb index 0)) ];
                 link [ ("creator", [uid]); ("notebook", [nb]) ] ]))
    l index w
  = (Resolved (starter_note_chunks E uid nb now l index (ids_drawn w)),
     with_ids_drawn (ids_drawn w + length l) w).
Proof.
  revert index w. induction l as [|n l IH]; intros index w.
  - simpl. unfold mret, Async_ret. f_equal. destruct w; simpl.
    by rewrite Nat.add_0_r.
  - cbn [map_indexed]. rewrite bind_step.
    rewrite (bind_step (new_id E)). unfold new_id at 1. cbv beta iota.
    unfold mret at 1, Async_ret at 1. cbv beta iota.
    rewrite bind_step, IH. simpl.
    unfold mret, Async_ret. f_equal. unfold with_ids_drawn. simpl.
    f_equal. lia.
Qed.

Lemma starter_note_chunks_length (E : Env) (uid nb now : string)
  (l : list WelcomeNote) (index k : nat) :
  length (starter_note_chunks E uid nb now l index k) = length l.
Proof.
  revert index k. induction l as [|n l IH]; intros index k; simpl; [done|].
  by rewrite IH.
Qed.

Lemma starter_note_chunks_valid (E : Env) (uid nb now : string)
  (l : list WelcomeNote) (index k : nat) :
  forallb valid_chunk (starter_note_chunks E uid nb now l index k) = true.
Proof.
  revert index k. induction l as [|n l IH]; intros index k; simpl; [done|].
  by rewrite IH.
Qed.

Lemma elem_of_add_edge (d : LinkDef) (e e' : LinkName * string * string)
  (es : gset (LinkName * string * string)) :
  e' ∈ add_edge d e es ↔ e' = e ∨ (displaced_by d e e' = false ∧ e' ∈ es).
Proof.
  unfold add_edge. rewrite elem_of_union, elem_of_singleton, elem_of_filter.
  destruct (displaced_by d e e'); simpl; intuition; discriminate.
Qed.

Lemma displaced_other_link (d : LinkDef) (e e' : LinkName * string * string) :
  e'.1.1 ≠ e.1.1 → displaced_by d e e' = false.
Proof.
  intros Hne. unfold displaced_by. by rewrite bool_decide_eq_false_2.
Qed.

Lemma linked_after_note_chunk (uid nb x nid : string)
  (es : gset (LinkName * string * string)) :
  linked uid nb x es ∨ x = nid →
  linked uid nb x
    (add_edge def_notebookNotes (notebookNotes, nb, nid)
       (add_edge def_noteCreator (noteCreator, nid, uid) es)).
Proof.
  intros Hx. unfold linked. rewrite !elem_of_add_edge.
  destruct (decide (x = nid)) as [->|Hne].
  - split; [|by left]. right. split; [by apply displaced_other_link|]. by left.
  - destruct Hx as [[Hc Hn]|?]; [|done]. split.
    + right. split; [by apply displaced_other_link|].
      right. split; [|done]. unfold displaced_by. simpl.
      repeat case_bool_decide; simpl; try done; intuition congruence.
    + right. split.
      * unfold displaced_by. simpl.
        repeat case_bool_decide; simpl; try done; intuition congruence.
      * right. split; [by apply displaced_other_link|done].
Qed.

Lemma apply_starter_note_chunk (s : Store) (uid nb now nid : string)
  (index : nat) (n : WelcomeNote) :
  ∃ attrs,
    apply_chunk s (starter_note_chunk uid nb now nid index n) =
    Some (mkStore (<[ (NsNotes, nid) := attrs ]> (entities s))
            (add_edge def_notebookNotes (notebookNotes, nb, nid)
               (add_edge def_noteCreator (noteCreator, nid, uid) (edges s)))).
Proof. eexists. reflexivity. Qed.

Lemma apply_starter_note_chunks (E : Env) (uid nb now : string)
  (l : list WelcomeNote) (index k : nat) (s : Store) :
  ∃ s', apply_tx s (starter_note_chunks E uid nb now l index k) = Some s' ∧
        (∀ x, linked uid nb x (edges s) → linked uid nb x (edges s')) ∧
        Forall (λ c, linked uid nb (chunk_id c) (edges s'))
          (starter_note_chunks E uid nb now l index k) ∧
        (∀ key, key.1 ≠ NsNotes → entities s' !! key = entities s !! key) ∧
        (∀ e, e.1.1 ≠ noteCreator → e.1.1 ≠ notebookNotes →
              e ∈ edges s → e ∈ edges s').
Proof.
  revert index k s. induction l as [|n l IH]; intros index k s.
  - exists s. split; [done|]. split; [done|]. split; [|done]. constructor.
  - destruct (apply_starter_note_chunk s uid nb now (gen_id E k) index n)
      as [attrs Hc].
    destruct (IH (S index) (S k)
                (mkStore (<[ (NsNotes, gen_id E k) := attrs ]> (entities s))
                   (add_edge def_notebookNotes (notebookNotes, nb, gen_id E k)
                      (add_edge def_noteCreator (noteCreator, gen_id E k, uid)
                         (edges s)))))
      as (s' & Hs' & Hkeep & Hnew & Hent & Hedge).
    exists s'. split; [|split; [|split; [|split]]].
    + unfold apply_tx in *. cbn [starter_note_chunks fold_steps].
      by rewrite Hc.
    + intros x Hx. apply Hkeep. simpl. apply linked_after_note_chunk. by left.
    + cbn [starter_note_chunks]. constructor; [|exact Hnew].
      apply Hkeep. simpl. apply linked_after_note_chunk. by right.
    + intros key Hkey. rewrite Hent by done. simpl.
      apply lookup_insert_ne. intros <-. done.
    + intros e H1 H2 He. apply Hedge; [done|done|]. simpl.
      rewrite !elem_of_add_edge. right.
      split; [by apply displaced_other_link|]. right.
      split; [by apply displaced_other_link|done].
Qed.

Lemma apply_starter_notebook_chunk (s : Store) (uid nb now : string) :
  ∃ attrs,
    apply_tx s [ starter_notebook_chunk uid nb now ] =
    Some (mkStore (<[ (NsNotebooks, nb) := attrs ]> (entities s))
            (add_edge def_notebookCreator (notebookCreator, nb, uid) (edges s))) ∧
    attrs !! "name" = Some (VStr "Getting Started").
Proof.
  eexists. split; [reflexivity|]. unfold set_attrs. simpl.
  rewrite lookup_insert_ne by done. rewrite lookup_insert_ne by done.
  apply lookup_insert_eq.
Qed.

(** When the service accepts its two writes, the seeder resolves having
    issued exactly those two: the notebook chunk alone, then the batch of
    note chunks. *)
Lemma seed_accepted (E : Env) (u : User) (w : World) :
  user_id u ≠ EmptyString →
  rejection E (length (calls w)) = None →
  rejection E (S (length (calls w))) = None →
  ∃ s1 s2 w',
    apply_tx (store w)
      [ starter_notebook_chunk (user_id u) (gen_id E (ids_drawn w))
          (clock E (clock_reads w)) ] = Some s1 ∧
    apply_tx s1
      (starter_note_chunks E (user_id u) (gen_id E (ids_drawn w))
         (clock E (clock_reads w)) welcomeNotes 0 (S (ids_drawn w))) = Some s2 ∧
    seedUserWithOnboardingNotes E (Some u) w = (Resolved (), w') ∧
    store w' = s2 ∧
    calls w' =
      calls w ++
      [ Transact [ starter_notebook_chunk (user_id u) (gen_id E (ids_drawn w))
                     (clock E (clock_reads w)) ];
        Transact (starter_note_chunks E (user_id u) (gen_id E (ids_drawn w))
                    (clock E (clock_reads w)) welcomeNotes 0 (S (ids_drawn w))) ] ∧
    previousUserRef w' = previousUserRef w.
Proof.
  intros Hid Hr1 Hr2. apply truthy_true in Hid.
  unfold seedUserWithOnboardingNotes. rewrite Hid. unfold try_catch.
  rewrite bind_step. unfold new_id at 1. cbv beta iota.
  rewrite bind_step. unfold now_iso at 1. cbv beta iota.
  rewrite bind_step.
  match goal with |- context [transact E ?chunks ?w1] =>
    destruct (transact_accepted E chunks w1 Hr1 eq_refl) as (s1 & Hs1 & ->)
  end.
  rewrite bind_step, map_indexed_starter_notes. cbv beta iota.
  rewrite bind_step.
  match goal with |- context [transact E ?chunks ?w1] =>
    destruct (transact_accepted E chunks w1) as (s2 & Hs2 & ->)
  end.
  { simpl. by rewrite length_app, Nat.add_comm. }
  { apply starter_note_chunks_valid. }
  exists s1, s2. eexists. split; [exact Hs1|]. split; [exact Hs2|].
  split; [reflexivity|]. simpl. split; [done|]. split; [|done].
  by rewrite <- app_assoc.
Qed.

(** ** [seedUserWithOnboardingNotes] *)

(** What the seeder leaves on the console and in the store, by the
    answers of the service to its two writes. *)
Lemma seed_first_write_rejected (E : Env) (u : User) (w : World) (err : string) :
  user_id u ≠ EmptyString →
  rejection E (length (calls w)) = Some err →
  ∃ w', seedUserWithOnboardingNotes E (Some u) w = (Resolved (), w') ∧
        store w' = store w ∧
        console w' =
          console w ++ [(LogError, "Failed to create onboarding notes: " +:+ err)].
Proof.
  intros Hid Hr. apply truthy_true in Hid.
  unfold seedUserWithOnboardingNotes. rewrite Hid. unfold try_catch.
  rewrite bind_step. unfold new_id at 1. cbv beta iota.
  rewrite bind_step. unfold now_iso at 1. cbv beta iota.
  rewrite bind_step.
  match goal with |- context [transact E ?chunks ?w1] =>
    rewrite (transact_rejected E chunks w1 err Hr) end.
  eexists. split; [reflexivity|]. split; reflexivity.
Qed.

Lemma seed_second_write_rejected (E : Env) (u : User) (w : World) (err : string) :
  user_id u ≠ EmptyString →
  rejection E (length (calls w)) = None →
  rejection E (S (length (calls w))) = Some err →
  ∃ w', seedUserWithOnboardingNotes E (Some u) w = (Resolved (), w') ∧
        console w' =
          console w ++ [(LogError, "Failed to create onboarding notes: " +:+ err)].
Proof.
  intros Hid Hr1 Hr2. apply truthy_true in Hid.
  unfold seedUserWithOnboardingNotes. rewrite Hid. unfold try_catch.
  rewrite bind_step. unfold new_id at 1. cbv beta iota.
  rewrite bind_step. unfold now_iso at 1. cbv beta iota.
  rewrite bind_step.
  match goal with |- context [transact E ?chunks ?w1] =>
    destruct (transact_accepted E chunks w1 Hr1 eq_refl) as (s1 & Hs1 & ->)
  end.
  rewrite bind_step, map_indexed_starter_notes. cbv beta iota.
  rewrite bind_step.
  match goal with |- context [transact E ?chunks ?w1] =>
    rewrite (transact_rejected E chunks w1 err) end.
  - eexists. split; reflexivity.
  - simpl. by rewrite length_app, Nat.add_comm.
Qed.

Lemma seed_both_writes_accepted (E : Env) (u : User) (w : World) :
  user_id u ≠ EmptyString →
  rejection E (length (calls w)) = None →
  rejection E (S (length (calls w))) = None →
  ∃ w', seedUserWithOnboardingNotes E (Some u) w = (Resolved (), w') ∧
        console w' =
          console w ++
          [(LogInfo, "Successfully created onboarding notes for new user")].
Proof.
  intros Hid Hr1 Hr2. apply truthy_true in Hid.
  unfold seedUserWithOnboardingNotes. rewrite Hid. unfold try_catch.
  rewrite bind_step. unfold new_id at 1. cbv beta iota.
  rewrite bind_step. unfold now_iso at 1. cbv beta iota.
  rewrite bind_step.
  match goal with |- context [transact E ?chunks ?w1] =>
    destruct (transact_accepted E chunks w1 Hr1 eq_refl) as (s1 & Hs1 & ->)
  end.
  rewrite bind_step, map_indexed_starter_notes. cbv beta iota.
  rewrite bind_step.
  match goal with |- context [transact E ?chunks ?w1] =>
    destruct (transact_accepted E chunks w1) as (s2 & Hs2 & ->)
  end.
  - simpl. by rewrite length_app, Nat.add_comm.
  - apply starter_note_chunks_valid.
  - eexists. split; reflexivity.
Qed.

(** C10. The seeder never rejects: for every user argument, environment
    and world it resolves.  For a missing user or one with an empty
    identifier it issues no remote call, leaves the store alone and logs
    its refusal.  For any other user every failure of its remote writes
    is caught and logged: a rejected notebook write leaves the store
    untouched and puts the service's error on the console, a rejected
    batch of notes puts its error there, and only when both writes are
    accepted is the success line logged instead. *)
Theorem seedUserWithOnboardingNotes_never_throws (E : Env) (user : option User)
  (w : World) :
  (∃ w', seedUserWithOnboardingNotes E user w = (Resolved (), w')) ∧
  ((user = None ∨ ∃ u, user = Some u ∧ user_id u = EmptyString) →
   calls (seedUserWithOnboardingNotes E user w).2 = calls w ∧
   store (seedUserWithOnboardingNotes E user w).2 = store w ∧
   console (seedUserWithOnboardingNotes E user w).2 =
     console w ++
     [(LogError, "Cannot seed notes: User is undefined or missing ID")]) ∧
  (∀ u, user = Some u → user_id u ≠ EmptyString →
   (∀ err, rejection E (length (calls w)) = Some err →
      store (seedUserWithOnboardingNotes E user w).2 = store w ∧
      console (seedUserWithOnboardingNotes E user w).2 =
        console w ++
        [(LogError, "Failed to create onboarding notes: " +:+ err)]) ∧
   (∀ err, rejection E (length (calls w)) = None →
      rejection E (S (length (calls w))) = Some err →
      console (seedUserWithOnboardingNotes E user w).2 =
        console w ++
        [(LogError, "Failed to create onboarding notes: " +:+ err)]) ∧
   (rejection E (length (calls w)) = None →
    rejection E (S (length (calls w))) = None →
      console (seedUserWithOnboardingNotes E user w).2 =
        console w ++
        [(LogInfo, "Successfully created onboarding notes for new user")])).
Proof.
  split; [|split].
  - unfold seedUserWithOnboardingNotes.
    destruct user as [u|]; [destruct (truthy (user_id u))|]; try by eexists.
    apply try_catch_total. intros err w1. by eexists.
  - intros [->|(u & -> & Hid)]; [done|].
    unfold seedUserWithOnboardingNotes.
    apply truthy_false in Hid. by rewrite Hid.
  - intros u -> Hid. split; [|split].
    + intros err Hr.
      destruct (seed_first_write_rejected E u w err Hid Hr)
        as (w' & -> & Hs & Hc).
      by split.
    + intros err Hr1 Hr2.
      by destruct (seed_second_write_rejected E u w err Hid Hr1 Hr2)
        as (w' & -> & Hc).
    + intros Hr1 Hr2.
      by destruct (seed_both_writes_accepted E u w Hid Hr1 Hr2)
        as (w' & -> & Hc).
Qed.

Lemma seedUserWithOnboardingNotes_never_throws_witness :
  (calls (seedUserWithOnboardingNotes env_ok
            (Some (mkUser EmptyString "x@example.com")) world0).2
   = calls world0 ∧
   store (seedUserWithOnboardingNotes env_ok
            (Some (mkUser EmptyString "x@example.com")) world0).2
   = store world0 ∧
   console (seedUserWithOnboardingNotes env_ok
              (Some (mkUser EmptyString "x@example.com")) world0).2
   = console world0 ++
     [(LogError, "Cannot seed notes: User is undefined or missing ID")]) ∧
  (store (seedUserWithOnboardingNotes env_down (Some alice) world0).2
   = store world0 ∧
   console (seedUserWithOnboardingNotes env_down (Some alice) world0).2
   = console world0 ++
     [(LogError, "Failed to create onboarding notes: network error")]) ∧
  (console (seedUserWithOnboardingNotes env_second_call_fails (Some alice)
              world_work).2
   = console world_work ++
     [(LogError, "Failed to create onboarding notes: network error")]) ∧
  (console (seedUserWithOnboardingNotes env_ok (Some alice) world0).2
   = console world0 ++
     [(LogInfo, "Successfully created onboarding notes for new user")]).
Proof.
  assert (user_id alice ≠ EmptyString) as Hid.
  { intros H. discriminate H. }
  split; [|split; [|split]].
  - apply (proj1 (proj2 (seedUserWithOnboardingNotes_never_throws env_ok
                           (Some (mkUser EmptyString "x@example.com")) world0))).
    right. exists (mkUser EmptyString "x@example.com"). split; reflexivity.
  - apply (proj1 (proj2 (proj2 (seedUserWithOnboardingNotes_never_throws
                                  env_down (Some alice) world0))
                    alice eq_refl Hid) "network error").
    reflexivity.
  - apply (proj1 (proj2 (proj2 (proj2 (seedUserWithOnboardingNotes_never_throws
                                         env_second_call_fails (Some alice)
                                         world_work))
                           alice eq_refl Hid)) "network error").
    + reflexivity.
    + reflexivity.
  - apply (proj2 (proj2 (proj2 (proj2 (seedUserWithOnboardingNotes_never_throws
                                         env_ok (Some alice) world0))
                           alice eq_refl Hid))).
    + reflexivity.
    + reflexivity.
Defined.

(** A rejected write inside the seeder ends up on the console, not at
    the caller. *)
Example seed_swallows_failure :
  (seedUserWithOnboardingNotes env_down (Some alice) world0).1 = Resolved () ∧
  console (seedUserWithOnboardingNotes env_down (Some alice) world0).2 =
    [(LogError, "Failed to create onboarding notes: network error")].
Proof. split; vm_compute; reflexivity. Qed.

(** The run of the onboarding effect for a new identity without notes,
    on a service that accepts the query and both writes. *)
Lemma onboarding_effect_run (E : Env) (u : User) (w : World) :
  auth_loading w = false →
  session w = Some u →
  user_id u ≠ EmptyString →
  previousUserRef w ≠ Some (user_id u) →
  notes_of_creator (store w) (user_id u) = [] →
  (∀ k, k < 3 → rejection E (length (calls w) + k) = None) →
  ∃ s1 s2 w',
    apply_tx (store w)
      [ starter_notebook_chunk (user_id u) (gen_id E (ids_drawn w))
          (clock E (clock_reads w)) ] = Some s1 ∧
    apply_tx s1
      (starter_note_chunks E (user_id u) (gen_id E (ids_drawn w))
         (clock E (clock_reads w)) welcomeNotes 0 (S (ids_drawn w))) = Some s2 ∧
    onboarding_effect E w = (Resolved (), w') ∧
    store w' = s2 ∧
    calls w' =
      calls w ++
      [ QueryOnce (mkQuery (user_id u) 1);
        Transact [ starter_notebook_chunk (user_id u) (gen_id E (ids_drawn w))
                     (clock E (clock_reads w)) ];
        Transact (starter_note_chunks E (user_id u) (gen_id E (ids_drawn w))
                    (clock E (clock_reads w)) welcomeNotes 0 (S (ids_drawn w))) ] ∧
    previousUserRef w' = Some (user_id u).
Proof.
  intros Hl Hs Hid Hprev Hnone Hacc.
  pose proof (Hacc 0 ltac:(lia)) as H0. rewrite Nat.add_0_r in H0.
  pose proof (Hacc 1 ltac:(lia)) as H1.
  pose proof (Hacc 2 ltac:(lia)) as H2.
  unfold onboarding_effect. rewrite Hl, Hs. simpl negb.
  rewrite (bool_decide_eq_true_2 (is_Some (Some u))) by (by eexists).
  cbv beta iota. simpl andb. cbv iota.
  unfold checkUserAndCreateNotes.
  rewrite (proj2 (truthy_true _) Hid).
  rewrite (bool_decide_eq_false_2 _ Hprev). simpl andb. cbv iota.
  unfold try_catch. rewrite bind_step.
  unfold queryOnce, remote. cbv beta iota zeta.
  rewrite H0.
  simpl store. simpl where_creator_id. rewrite Hnone. simpl take.
  cbv beta iota. rewrite bind_step, bind_step.
  unfold console_log at 1, modify at 1. cbv beta iota.
  match goal with |- context [seedUserWithOnboardingNotes E (Some u) ?w2] =>
    destruct (seed_accepted E u w2 Hid)
      as (s1 & s2 & w3 & Hs1 & Hs2 & -> & Hst & Hcalls & Hp)
  end.
  { cbn [calls with_console with_calls]. rewrite length_app. exact H1. }
  { cbn [calls with_console with_calls]. rewrite length_app.
    cbn [length].
    replace (S (length (calls w) + 1)) with (length (calls w) + 2) by lia.
    exact H2. }
  cbn [store calls ids_drawn clock_reads previousUserRef with_console with_calls]
    in Hs1, Hs2, Hcalls, Hp.
  unfold modify. cbv beta iota.
  exists s1, s2. eexists. split; [exact Hs1|]. split; [exact Hs2|].
  split; [reflexivity|].
  cbn [store calls previousUserRef with_previousUserRef].
  split; [exact Hst|]. split; [|done].
  by rewrite Hcalls, <- app_assoc.
Qed.

(** C2. For an identity seen for the first time that owns no notes (and
    a service that accepts the query and the two writes), the onboarding
    effect creates exactly one notebook, named "Getting Started", and
    exactly five notes with the fixed titles and contents; every note is
    linked to the creator and to the new notebook, in the chunks issued
    and in the resulting store; only the first note, the welcome note, is
    marked favorite; and the identity is remembered as seen. *)
Theorem onboarding_seeds_new_identity (E : Env) (u : User) (w : World) :
  auth_loading w = false →
  session w = Some u →
  user_id u ≠ EmptyString →
  previousUserRef w ≠ Some (user_id u) →
  notes_of_creator (store w) (user_id u) = [] →
  (∀ k, k < 3 → rejection E (length (calls w) + k) = None) →
  ∃ w' nbChunk noteChunks,
    onboarding_effect E w = (Resolved (), w') ∧
    calls w' =
      calls w ++ [ QueryOnce (mkQuery (user_id u) 1);
                   Transact [ nbChunk ];
                   Transact noteChunks ] ∧
    chunk_ns nbChunk = NsNotebooks ∧
    chunk_attr nbChunk "name" = Some (VStr "Getting Started") ∧
    chunk_links nbChunk "creator" = [ user_id u ] ∧
    length noteChunks = 5 ∧
    map (λ c, chunk_attr c "title") noteChunks =
      [ Some (VStr "👋 Welcome to Evernote Clone!");
        Some (VStr "📝 Creating and Editing Notes");
        Some (VStr "📚 Using Notebooks");
        Some (VStr "🏷️ Using Tags");
        Some (VStr "⭐ Tips and Tricks") ] ∧
    map (λ c, chunk_attr c "content") noteChunks =
      map (λ n, Some (VStr (welcome_content n))) welcomeNotes ∧
    map (λ c, chunk_attr c "isFavorite") noteChunks =
      [ Some (VBool true); Some (VBool false); Some (VBool false);
        Some (VBool false); Some (VBool false) ] ∧
    Forall (λ c, chunk_ns c = NsNotes ∧
                 chunk_links c "creator" = [ user_id u ] ∧
                 chunk_links c "notebook" = [ chunk_id nbChunk ]) noteChunks ∧
    (∃ attrs, entities (store w') !! (NsNotebooks, chunk_id nbChunk) = Some attrs ∧
              attrs !! "name" = Some (VStr "Getting Started")) ∧
    (notebookCreator, chunk_id nbChunk, user_id u) ∈ edges (store w') ∧
    Forall (λ c, linked (user_id u) (chunk_id nbChunk) (chunk_id c)
                   (edges (store w'))) noteChunks ∧
    previousUserRef w' = Some (user_id u).
Proof.
  intros Hl Hs Hid Hprev Hnone Hacc.
  destruct (onboarding_effect_run E u w Hl Hs Hid Hprev Hnone Hacc)
    as (s1 & s2 & w' & Hs1 & Hs2 & Hrun & Hst & Hcalls & Hp).
  exists w', (starter_notebook_chunk (user_id u) (gen_id E (ids_drawn w))
                (clock E (clock_reads w))),
    (starter_note_chunks E (user_id u) (gen_id E (ids_drawn w))
       (clock E (clock_reads w)) welcomeNotes 0 (S (ids_drawn w))).
  split; [exact Hrun|]. split; [exact Hcalls|].
  split; [reflexivity|]. split; [reflexivity|]. split; [reflexivity|].
  split; [reflexivity|]. split; [reflexivity|]. split; [reflexivity|].
  split; [reflexivity|].
  split; [repeat constructor|].
  destruct (apply_starter_notebook_chunk (store w) (user_id u)
              (gen_id E (ids_drawn w)) (clock E (clock_reads w)))
    as (attrs & Hs1' & Hname).
  rewrite Hs1 in Hs1'. injection Hs1' as ->.
  destruct (apply_starter_note_chunks E (user_id u) (gen_id E (ids_drawn w))
              (clock E (clock_reads w)) welcomeNotes 0 (S (ids_drawn w))
              (mkStore
                 (<[ (NsNotebooks, gen_id E (ids_drawn w)) := attrs ]>
                    (entities (store w)))
                 (add_edge def_notebookCreator
                    (notebookCreator, gen_id E (ids_drawn w), user_id u)
                    (edges (store w)))))
    as (s2' & Hs2' & Hkeep & Hnew & Hent & Hedge).
  rewrite Hs2 in Hs2'. injection Hs2' as <-. rewrite Hst.
  split; [|split; [|split; [exact Hnew|exact Hp]]].
  - exists attrs. split; [|exact Hname].
    rewrite Hent by done. cbn [entities]. apply lookup_insert_eq.
  - apply Hedge; [done|done|]. cbn [edges]. apply elem_of_add_edge. by left.
Qed.

Lemma onboarding_seeds_new_identity_witness :
  ∃ w', onboarding_effect env_ok world_alice = (Resolved (), w') ∧
        length (calls w') = length (calls world_alice) + 3 ∧
        previousUserRef w' = Some (user_id alice_account).
Proof.
  destruct (onboarding_seeds_new_identity env_ok alice_account world_alice)
    as (w' & nbChunk & noteChunks & Hrun & Hcalls & _ & _ & _ & _ & _ & _ & _
        & _ & _ & _ & _ & Hprev).
  - reflexivity.
  - reflexivity.
  - discriminate.
  - discriminate.
  - vm_compute. reflexivity.
  - intros k _. reflexivity.
  - exists w'. split; [exact Hrun|]. split; [|exact Hprev].
    rewrite Hcalls, length_app. reflexivity.
Defined.

(** What the store holds after the scenario: one notebook, five notes of
    the creator, of which the first drawn is the only favorite. *)
Example onboarding_scenario :
  entity_ids (store (onboarding_effect env_ok world_alice).2) NsNotebooks
    = ["id-0"] ∧
  length (notes_of_creator (store (onboarding_effect env_ok world_alice).2)
            (user_id alice_account)) = 5 ∧
  List.filter
    (λ nid, bool_decide
              (note_attrs (store (onboarding_effect env_ok world_alice).2) nid
                 !! "isFavorite" = Some (VBool true)))
    (entity_ids (store (onboarding_effect env_ok world_alice).2) NsNotes)
    = ["id-1"] ∧
  note_attrs (store (onboarding_effect env_ok world_alice).2) "id-1" !! "title"
    = Some (VStr "👋 Welcome to Evernote Clone!").
Proof. repeat split; vm_compute; reflexivity. Qed.

(** The effect runs once per identity: a second run issues no call. *)
Example onboarding_once_per_identity :
  calls (onboarding_effect env_ok (onboarding_effect env_ok world_alice).2).2
    = calls (onboarding_effect env_ok world_alice).2.
Proof. vm_compute. reflexivity. Qed.

(** An identity that already owns a note is not seeded. *)
Example onboarding_skips_owner_of_notes :
  calls (onboarding_effect env_ok
           (with_session (Some alice) world_work)).2
    = calls world_work ++ [ QueryOnce (mkQuery "u-alice" 1) ].
Proof. vm_compute. reflexivity. Qed.

(** * Further properties of the controllers *)

(** ** Edges and deletion *)

Lemma touches_ends (ns : Namespace) (eid : string)
  (e : LinkName * string * string) :
  touches ns eid e = true → e.1.2 = eid ∨ e.2 = eid.
Proof.
  unfold touches. destruct (link_def e.1.1) as [d|]; [|done].
  intros [H|H]%orb_prop; apply bool_decide_eq_true in H as [_ H]; auto.
Qed.

Lemma touches_note (id x : string) :
  touches NsNotes id (noteCreator, id, x) = true ∧
  touches NsNotes id (notebookNotes, x, id) = true ∧
  touches NsNotes id (noteTags, id, x) = true.
Proof.
  unfold touches. simpl.
  rewrite !(bool_decide_eq_true_2 (NsNotes = NsNotes ∧ id = id)) by done.
  repeat split; try done; apply orb_true_r.
Qed.

(** ** [deleteNote] *)

(** X1. When the service accepts the write, [deleteNote] resolves, the
    note's record and every link of the note (creator, notebook, tags)
    are gone, every other record and every link between other entities is
    as before, and the selection is cleared exactly when the selected
    note is the deleted one.  When the service rejects, the error reaches
    the caller and the store is untouched. *)
Theorem deleteNote_effect (E : Env) (currentNote : option NoteWithRelations)
  (id : string) (w : World) :
  (rejection E (length (calls w)) = None →
   ∃ selection w',
     deleteNote E currentNote id w = (Resolved selection, w') ∧
     entities (store w') !! (NsNotes, id) = None ∧
     (∀ x, ((noteCreator, id, x) ∉ edges (store w')) ∧
           ((notebookNotes, x, id) ∉ edges (store w')) ∧
           ((noteTags, id, x) ∉ edges (store w'))) ∧
     (∀ k, k ≠ (NsNotes, id) →
           entities (store w') !! k = entities (store w) !! k) ∧
     (∀ e, e.1.2 ≠ id → e.2 ≠ id →
           (e ∈ edges (store w') ↔ e ∈ edges (store w))) ∧
     (∀ n, currentNote = Some n → note_id (note n) = id → selection = None) ∧
     (∀ n, currentNote = Some n → note_id (note n) ≠ id →
           selection = currentNote) ∧
     (currentNote = None → selection = None)) ∧
  (∀ err, rejection E (length (calls w)) = Some err →
     ∃ w', deleteNote E currentNote id w = (Rejected err, w') ∧
           store w' = store w).
Proof.
  unfold deleteNote. split.
  - intros Hr. rewrite bind_step, transact_step. cbv zeta. rewrite Hr.
    rewrite apply_delete_chunk. eexists _, _. split; [reflexivity|].
    cbn [store with_store entities edges].
    split; [apply lookup_delete_eq|].
    split; [|split; [|split; [|split; [|split]]]].
    + intros x. destruct (touches_note id x) as (H1 & H2 & H3).
      repeat split; intros Hin; apply elem_of_filter in Hin as [Hin _];
        apply Hin; by rewrite ?H1, ?H2, ?H3.
    + intros k Hk. by apply lookup_delete_ne.
    + intros e H1 H2. rewrite elem_of_filter. split; [by intros [_ ?]|].
      intros He. split; [|done]. intros Ht. apply Is_true_true in Ht.
      by destruct (touches_ends _ _ _ Ht).
    + intros n -> Hid. by rewrite bool_decide_eq_true_2.
    + intros n -> Hid. by rewrite bool_decide_eq_false_2.
    + by intros ->.
  - intros err Hr. rewrite bind_step, (transact_rejected E _ w err Hr).
    eexists. split; reflexivity.
Qed.

Lemma deleteNote_effect_witness :
  (∃ selection w',
     deleteNote env_ok (Some note_b) "id-1" world_work = (Resolved selection, w') ∧
     entities (store w') !! (NsNotes, "id-1") = None ∧
     ((notebookNotes, "id-0", "id-1") ∉ edges (store w')) ∧
     (entities (store w') !! (NsNotebooks, "id-0")
        = entities (store world_work) !! (NsNotebooks, "id-0")) ∧
     selection = None) ∧
  (∃ w', deleteNote env_down (Some note_b) "id-1" world_work
           = (Rejected "network error", w') ∧
         store w' = store world_work).
Proof.
  split.
  - destruct (proj1 (deleteNote_effect env_ok (Some note_b) "id-1" world_work) eq_refl)
      as (sel & w' & Hrun & Hgone & Hedges & Hframe & _ & Hsel & _ & _).
    exists sel, w'. split; [exact Hrun|]. split; [exact Hgone|].
    split; [apply (Hedges "id-0")|]. split; [by apply Hframe|].
    by apply (Hsel note_b).
  - apply (proj2 (deleteNote_effect env_down (Some note_b) "id-1" world_work)).
    reflexivity.
Defined.

(** ** What [createNote] writes *)

Local Arguments add_edge : simpl never.

Lemma add_edge_many (d : LinkDef) (e : LinkName * string * string)
  (es : gset (LinkName * string * string)) :
  forward_has d = HasMany → reverse_has d = HasMany →
  add_edge d e es = {[ e ]} ∪ es.
Proof.
  intros Hf Hr. apply set_eq. intros x.
  rewrite elem_of_add_edge, elem_of_union, elem_of_singleton.
  unfold displaced_by. rewrite Hf, Hr.
  rewrite (bool_decide_eq_false_2 (HasMany = HasOne ∧ _)) by (by intros [? _]).
  rewrite (bool_decide_eq_false_2 (HasMany = HasOne ∧ _)) by (by intros [? _]).
  rewrite andb_false_r. intuition.
Qed.

Lemma link_tags_edges (id : string) (ts : list string)
  (es : gset (LinkName * string * string)) (e : LinkName * string * string) :
  e ∈ foldl (λ es t, add_edge def_noteTags (noteTags, id, t) es) es ts ↔
  e ∈ es ∨ ∃ t, t ∈ ts ∧ e = (noteTags, id, t).
Proof.
  revert es. induction ts as [|t ts IH]; intros es; simpl.
  - split; [by left|]. intros [?|(t & Ht & _)]; [done|]. by apply elem_of_nil in Ht.
  - rewrite IH, add_edge_many by done.
    rewrite elem_of_union, elem_of_singleton. split.
    + intros [[->|?]|(t' & Ht' & ->)]; [right|by left|right].
      * exists t. split; [apply list_elem_of_here|done].
      * exists t'. split; [by apply list_elem_of_further|done].
    + intros [?|(t' & Ht' & ->)]; [left; by right|].
      apply elem_of_cons in Ht' as [->|Ht']; [left; by left|].
      right. by exists t'.
Qed.

(** The store after an accepted [createNote], in closed form. *)
Lemma createNote_store (E : Env) (u : User) (t c : string)
  (notebookId : option string) (tagIds : option (list string)) (w : World) :
  rejection E (length (calls w)) = None →
  ∃ w',
    createNote E (Some u) t c notebookId tagIds w =
      (Resolved (mkNote (gen_id E (ids_drawn w)) t c (clock E (clock_reads w))
                   (clock E (clock_reads w)) false), w') ∧
    entities (store w') =
      <[ (NsNotes, gen_id E (ids_drawn w)) :=
           set_attrs [ ("title", VStr t); ("content", VStr c);
                       ("createdAt", VStr (clock E (clock_reads w)));
                       ("updatedAt", VStr (clock E (clock_reads w)));
                       ("isFavorite", VBool false) ]
             (default ∅ (entities (store w) !! (NsNotes, gen_id E (ids_drawn w)))) ]>
        (entities (store w)) ∧
    edges (store w') =
      foldl (λ es tg, add_edge def_noteTags (noteTags, gen_id E (ids_drawn w), tg) es)
        (match notebookId with
         | Some nb =>
             if truthy nb
             then add_edge def_notebookNotes
                    (notebookNotes, nb, gen_id E (ids_drawn w))
                    (add_edge def_noteCreator
                       (noteCreator, gen_id E (ids_drawn w), user_id u)
                       (edges (store w)))
             else add_edge def_noteCreator
                    (noteCreator, gen_id E (ids_drawn w), user_id u)
                    (edges (store w))
         | None =>
             add_edge def_noteCreator
               (noteCreator, gen_id E (ids_drawn w), user_id u)
               (edges (store w))
         end)
        (default [] tagIds).
Proof.
  intros Hr. unfold createNote. async_steps.
  destruct notebookId as [nb|]; [destruct (truthy nb)|];
    destruct tagIds as [[|tg ts]|];
    rewrite transact_step; cbv zeta; simpl calls; rewrite Hr;
    eexists; split; try reflexivity; split; reflexivity.
Qed.

(** X2. When the service accepts the write, the note [createNote]
    returns is the note the store holds: its fields are stored under the
    returned identifier, it is linked to its creator, to the notebook
    when a non-empty notebook identifier was given and to every tag
    given, no other link is created, and no other record changes. *)
Theorem createNote_writes (E : Env) (u : User) (t c : string)
  (notebookId : option string) (tagIds : option (list string)) (w : World) :
  rejection E (length (calls w)) = None →
  ∃ rec w',
    createNote E (Some u) t c notebookId tagIds w = (Resolved rec, w') ∧
    note_attrs (store w') (note_id rec) !! "title" = Some (VStr (title rec)) ∧
    note_attrs (store w') (note_id rec) !! "content" = Some (VStr (content rec)) ∧
    note_attrs (store w') (note_id rec) !! "createdAt"
      = Some (VStr (createdAt rec)) ∧
    note_attrs (store w') (note_id rec) !! "updatedAt"
      = Some (VStr (updatedAt rec)) ∧
    note_attrs (store w') (note_id rec) !! "isFavorite"
      = Some (VBool (isFavorite rec)) ∧
    (noteCreator, note_id rec, user_id u) ∈ edges (store w') ∧
    (∀ nb, notebookId = Some nb → nb ≠ EmptyString →
           (notebookNotes, nb, note_id rec) ∈ edges (store w')) ∧
    (∀ ts tg, tagIds = Some ts → tg ∈ ts →
              (noteTags, note_id rec, tg) ∈ edges (store w')) ∧
    (∀ e, e ∈ edges (store w') →
          e ∈ edges (store w) ∨
          e = (noteCreator, note_id rec, user_id u) ∨
          (∃ nb, notebookId = Some nb ∧ nb ≠ EmptyString ∧
                 e = (notebookNotes, nb, note_id rec)) ∨
          (∃ ts tg, tagIds = Some ts ∧ tg ∈ ts ∧
                    e = (noteTags, note_id rec, tg))) ∧
    (∀ k, k ≠ (NsNotes, note_id rec) →
          entities (store w') !! k = entities (store w) !! k).
Proof.
  intros Hr.
  destruct (createNote_store E u t c notebookId tagIds w Hr)
    as (w' & Hrun & Hent & Hedges).
  eexists _, w'. split; [exact Hrun|]. cbn [note_id title content createdAt
    updatedAt isFavorite]. unfold note_attrs. rewrite Hent, Hedges.
  rewrite lookup_insert_eq. cbn [default].
  assert (Hbase : ∀ es : gset (LinkName * string * string),
            (noteCreator, gen_id E (ids_drawn w), user_id u)
              ∈ add_edge def_noteCreator
                  (noteCreator, gen_id E (ids_drawn w), user_id u) es).
  { intros es. apply elem_of_add_edge. by left. }
  split; [unfold set_attrs; simpl;
          repeat (first [rewrite lookup_insert_eq
                        | rewrite lookup_insert_ne by done]); done|].
  split; [unfold set_attrs; simpl;
          repeat (first [rewrite lookup_insert_eq
                        | rewrite lookup_insert_ne by done]); done|].
  split; [unfold set_attrs; simpl;
          repeat (first [rewrite lookup_insert_eq
                        | rewrite lookup_insert_ne by done]); done|].
  split; [unfold set_attrs; simpl;
          repeat (first [rewrite lookup_insert_eq
                        | rewrite lookup_insert_ne by done]); done|].
  split; [unfold set_attrs; simpl;
          repeat (first [rewrite lookup_insert_eq
                        | rewrite lookup_insert_ne by done]); done|].
  split; [|split; [|split; [|split]]].
  - apply link_tags_edges. left.
    destruct notebookId as [nb|]; [destruct (truthy nb)|]; try apply Hbase.
    apply elem_of_add_edge. right.
    split; [by apply displaced_other_link|apply Hbase].
  - intros nb -> Hnb. apply truthy_true in Hnb. rewrite Hnb.
    apply link_tags_edges. left. apply elem_of_add_edge. by left.
  - intros ts tg -> Htg. apply link_tags_edges. right. by exists tg.
  - intros e [He|(tg & Htg & ->)]%link_tags_edges.
    + destruct notebookId as [nb|]; [destruct (truthy nb) eqn:Hnb|].
      * apply elem_of_add_edge in He as [->|[_ He]].
        { right. right. left. exists nb. by rewrite <- truthy_true. }
        apply elem_of_add_edge in He as [->|[_ He]]; auto.
      * apply elem_of_add_edge in He as [->|[_ He]]; auto.
      * apply elem_of_add_edge in He as [->|[_ He]]; auto.
    + right. right. right. destruct tagIds as [ts|]; simpl in Htg.
      * by exists ts, tg.
      * by apply elem_of_nil in Htg.
  - intros k Hk. by apply lookup_insert_ne.
Qed.

Lemma createNote_writes_witness :
  ∃ rec w',
    createNote env_ok (Some alice) "A" "body" (Some "nb-1") (Some ["t-1"; "t-2"])
      world0 = (Resolved rec, w') ∧
    note_attrs (store w') (note_id rec) !! "title" = Some (VStr (title rec)) ∧
    (notebookNotes, "nb-1", note_id rec) ∈ edges (store w') ∧
    (noteTags, note_id rec, "t-2") ∈ edges (store w').
Proof.
  destruct (createNote_writes env_ok alice "A" "body" (Some "nb-1")
              (Some ["t-1"; "t-2"]) world0 eq_refl)
    as (rec & w' & Hrun & Ht & _ & _ & _ & _ & _ & Hnb & Htags & _).
  exists rec, w'. split; [exact Hrun|]. split; [exact Ht|]. split.
  - by apply Hnb.
  - apply (Htags ["t-1"; "t-2"]); [done|].
    apply list_elem_of_further, list_elem_of_here.
Defined.

(** An empty notebook identifier or an empty tag list links nothing but
    the creator. *)
Example createNote_blank_links :
  elements (edges (store (createNote env_ok (Some alice) "A" "body"
                            (Some EmptyString) (Some []) world0).2))
  = [ (noteCreator, "id-0", "u-alice") ].
Proof. vm_compute. reflexivity. Qed.

(** ** [createNotebook], [createTag], [updateNotebook] *)

Ltac lookup_attrs :=
  unfold set_attrs; simpl;
  repeat (first [rewrite lookup_insert_eq | rewrite lookup_insert_ne by done]);
  try done.

(** X3. [createNotebook] without a signed-in user rejects before any
    remote call, leaving the world as it was (no identifier drawn, no
    clock read).  With a user and an accepting service, the notebook it
    returns is the one stored: name, description and creation time are
    stored under the returned identifier, the notebook is linked to its
    creator and to nothing else, and no other record changes. *)
Theorem createNotebook_writes (E : Env) (user : option User)
  (nm descr : string) (w : World) :
  (user = None →
   createNotebook E user nm descr w = (Rejected "User not authenticated", w)) ∧
  (∀ u, user = Some u → rejection E (length (calls w)) = None →
   ∃ rec w',
     createNotebook E user nm descr w = (Resolved rec, w') ∧
     name rec = nm ∧ description rec = descr ∧
     entity_attrs (store w') NsNotebooks (notebook_id rec) !! "name"
       = Some (VStr nm) ∧
     entity_attrs (store w') NsNotebooks (notebook_id rec) !! "description"
       = Some (VStr descr) ∧
     entity_attrs (store w') NsNotebooks (notebook_id rec) !! "createdAt"
       = Some (VStr (notebook_createdAt rec)) ∧
     (notebookCreator, notebook_id rec, user_id u) ∈ edges (store w') ∧
     (∀ e, e ∈ edges (store w') →
           e ∈ edges (store w) ∨
           e = (notebookCreator, notebook_id rec, user_id u)) ∧
     (∀ k, k ≠ (NsNotebooks, notebook_id rec) →
           entities (store w') !! k = entities (store w) !! k)).
Proof.
  split; [by intros ->|]. intros u -> Hr.
  unfold createNotebook. async_steps.
  rewrite transact_step. cbv zeta. simpl calls. rewrite Hr.
  eexists _, _. split; [reflexivity|].
  cbn [name description notebook_id notebook_createdAt].
  unfold entity_attrs. cbn [store with_store entities edges apply_tx fold_steps].
  split; [done|]. split; [done|].
  simpl. rewrite lookup_insert_eq. cbn [default].
  split; [lookup_attrs|]. split; [lookup_attrs|]. split; [lookup_attrs|].
  split; [apply elem_of_add_edge; by left|].
  split.
  - intros e [->|[_ He]]%elem_of_add_edge; auto.
  - intros k Hk. by apply lookup_insert_ne.
Qed.

Lemma createNotebook_writes_witness :
  createNotebook env_ok None "Work" "projects" world0
    = (Rejected "User not authenticated", world0) ∧
  ∃ rec w',
    createNotebook env_ok (Some alice) "Work" "projects" world0
      = (Resolved rec, w') ∧
    entity_attrs (store w') NsNotebooks (notebook_id rec) !! "name"
      = Some (VStr "Work") ∧
    (notebookCreator, notebook_id rec, "u-alice") ∈ edges (store w').
Proof.
  split.
  - apply (proj1 (createNotebook_writes env_ok None "Work" "projects" world0)).
    reflexivity.
  - destruct (proj2 (createNotebook_writes env_ok (Some alice) "Work" "projects"
                       world0) alice eq_refl eq_refl)
      as (rec & w' & Hrun & _ & _ & Hn & _ & _ & Hc & _).
    exists rec, w'. split; [exact Hrun|]. split; [exact Hn|exact Hc].
Defined.

(** X4. [createTag] behaves alike: no remote call without a user; with a
    user and an accepting service the returned tag is the stored one,
    linked to its creator and to no note. *)
Theorem createTag_writes (E : Env) (user : option User) (nm : string)
  (w : World) :
  (user = None →
   createTag E user nm w = (Rejected "User not authenticated", w)) ∧
  (∀ u, user = Some u → rejection E (length (calls w)) = None →
   ∃ rec w',
     createTag E user nm w = (Resolved rec, w') ∧
     tag_name rec = nm ∧
     entity_attrs (store w') NsTags (tag_id rec) !! "name" = Some (VStr nm) ∧
     entity_attrs (store w') NsTags (tag_id rec) !! "createdAt"
       = Some (VStr (tag_createdAt rec)) ∧
     (tagCreator, tag_id rec, user_id u) ∈ edges (store w') ∧
     (∀ e, e ∈ edges (store w') →
           e ∈ edges (store w) ∨ e = (tagCreator, tag_id rec, user_id u)) ∧
     (∀ k, k ≠ (NsTags, tag_id rec) →
           entities (store w') !! k = entities (store w) !! k)).
Proof.
  split; [by intros ->|]. intros u -> Hr.
  unfold createTag. async_steps.
  rewrite transact_step. cbv zeta. simpl calls. rewrite Hr.
  eexists _, _. split; [reflexivity|].
  cbn [tag_name tag_id tag_createdAt].
  unfold entity_attrs. cbn [store with_store entities edges apply_tx fold_steps].
  split; [done|].
  simpl. rewrite lookup_insert_eq. cbn [default].
  split; [lookup_attrs|]. split; [lookup_attrs|].
  split; [apply elem_of_add_edge; by left|].
  split.
  - intros e [->|[_ He]]%elem_of_add_edge; auto.
  - intros k Hk. by apply lookup_insert_ne.
Qed.

Lemma createTag_writes_witness :
  createTag env_ok None "urgent" world0
    = (Rejected "User not authenticated", world0) ∧
  ∃ rec w',
    createTag env_ok (Some alice) "urgent" world0 = (Resolved rec, w') ∧
    entity_attrs (store w') NsTags (tag_id rec) !! "name" = Some (VStr "urgent") ∧
    (tagCreator, tag_id rec, "u-alice") ∈ edges (store w').
Proof.
  split.
  - apply (proj1 (createTag_writes env_ok None "urgent" world0)). reflexivity.
  - destruct (proj2 (createTag_writes env_ok (Some alice) "urgent" world0)
                alice eq_refl eq_refl)
      as (rec & w' & Hrun & _ & Hn & _ & Hc & _).
    exists rec, w'. split; [exact Hrun|]. split; [exact Hn|exact Hc].
Defined.

(** X5. [updateNotebook] always writes both name and description: called
    without a description it stores the empty description, replacing
    whatever was stored.  The creation time and every other field, every
    link and every other record stay as they were. *)
Theorem updateNotebook_overwrites_description (E : Env) (id nm : string)
  (descr : option string) (w : World) :
  rejection E (length (calls w)) = None →
  ∃ w',
    updateNotebook E id nm descr w = (Resolved (), w') ∧
    entity_attrs (store w') NsNotebooks id !! "name" = Some (VStr nm) ∧
    entity_attrs (store w') NsNotebooks id !! "description" =
      Some (VStr (match descr with Some d => d | None => EmptyString end)) ∧
    (∀ k, k ≠ "name" → k ≠ "description" →
          entity_attrs (store w') NsNotebooks id !! k
            = entity_attrs (store w) NsNotebooks id !! k) ∧
    edges (store w') = edges (store w) ∧
    (∀ k, k ≠ (NsNotebooks, id) →
          entities (store w') !! k = entities (store w) !! k).
Proof.
  intros Hr. unfold updateNotebook. rewrite transact_step. cbv zeta. rewrite Hr.
  eexists. split; [reflexivity|]. unfold entity_attrs.
  cbn [store with_store entities edges apply_tx fold_steps].
  simpl. rewrite lookup_insert_eq. cbn [default].
  split; [lookup_attrs|]. split; [destruct descr; lookup_attrs|].
  split; [|split; [done|]].
  - intros k H1 H2. unfold set_attrs. simpl.
    by rewrite !lookup_insert_ne by done.
  - intros k Hk. by apply lookup_insert_ne.
Qed.

Lemma updateNotebook_overwrites_description_witness :
  ∃ w',
    updateNotebook env_ok "id-0" "Work 2" None
      (createNotebook env_ok (Some alice) "Work" "projects" world0).2
      = (Resolved (), w') ∧
    entity_attrs (store w') NsNotebooks "id-0" !! "description"
      = Some (VStr EmptyString).
Proof.
  destruct (updateNotebook_overwrites_description env_ok "id-0" "Work 2" None
              (createNotebook env_ok (Some alice) "Work" "projects" world0).2
              eq_refl)
    as (w' & Hrun & _ & Hd & _).
  exists w'. split; [exact Hrun|exact Hd].
Defined.

Example updateNotebook_drops_description :
  entity_attrs
    (store (createNotebook env_ok (Some alice) "Work" "projects" world0).2)
    NsNotebooks "id-0" !! "description" = Some (VStr "projects").
Proof. vm_compute. reflexivity. Qed.

(** ** Attaching and detaching tags *)

Lemma addTagToNote_store (E : Env) (noteId tagId : string) (w : World) :
  rejection E (length (calls w)) = None →
  ∃ w', addTagToNote E noteId tagId w = (Resolved (), w') ∧
        entities (store w') = entities (store w) ∧
        edges (store w') = {[ (noteTags, noteId, tagId) ]} ∪ edges (store w) ∧
        calls w' =
          calls w ++ [ Transact [ tx NsNotes noteId [ link [ ("tags", [tagId]) ] ] ] ].
Proof.
  intros Hr. unfold addTagToNote. rewrite transact_step. cbv zeta. rewrite Hr.
  eexists. split; [reflexivity|]. cbn. split; [done|]. split; [|done].
  by apply (add_edge_many def_noteTags).
Qed.

Lemma removeTagFromNote_store (E : Env) (noteId tagId : string) (w : World) :
  rejection E (length (calls w)) = None →
  ∃ w', removeTagFromNote E noteId tagId w = (Resolved (), w') ∧
        entities (store w') = entities (store w) ∧
        edges (store w') = edges (store w) ∖ {[ (noteTags, noteId, tagId) ]} ∧
        calls w' =
          calls w ++ [ Transact [ tx NsNotes noteId [ unlink [ ("tags", [tagId]) ] ] ] ].
Proof.
  intros Hr. unfold removeTagFromNote. rewrite transact_step. cbv zeta. rewrite Hr.
  eexists. split; [reflexivity|]. cbn. done.
Qed.

Lemma store_eq (s1 s2 : Store) :
  entities s1 = entities s2 → edges s1 = edges s2 → s1 = s2.
Proof. destruct s1, s2; simpl; by intros -> ->. Qed.

(** X6. Attaching a tag twice is the same as attaching it once: after
    the first accepted [addTagToNote] the tag is on the note, and a
    second one leaves the store exactly as the first left it. *)
Theorem addTagToNote_idempotent (E : Env) (noteId tagId : string) (w : World) :
  rejection E (length (calls w)) = None →
  rejection E (S (length (calls w))) = None →
  (noteTags, noteId, tagId) ∈ edges (store (addTagToNote E noteId tagId w).2) ∧
  store (addTagToNote E noteId tagId (addTagToNote E noteId tagId w).2).2
    = store (addTagToNote E noteId tagId w).2.
Proof.
  intros H1 H2.
  destruct (addTagToNote_store E noteId tagId w H1) as (w1 & -> & Hen1 & Hed1 & Hc1).
  cbn [snd].
  destruct (addTagToNote_store E noteId tagId w1) as (w2 & -> & Hen2 & Hed2 & _).
  { rewrite Hc1, length_app, Nat.add_comm. exact H2. }
  cbn [snd]. split.
  - rewrite Hed1. apply elem_of_union_l. by apply elem_of_singleton.
  - apply store_eq; [done|]. rewrite Hed2, Hed1. apply set_eq. intros e.
    rewrite !elem_of_union. intuition.
Qed.

Lemma addTagToNote_idempotent_witness :
  (noteTags, "id-1", "id-7")
    ∈ edges (store (addTagToNote env_ok "id-1" "id-7" world_tagged).2) ∧
  store (addTagToNote env_ok "id-1" "id-7"
           (addTagToNote env_ok "id-1" "id-7" world_tagged).2).2
    = store (addTagToNote env_ok "id-1" "id-7" world_tagged).2.
Proof.
  apply (addTagToNote_idempotent env_ok "id-1" "id-7" world_tagged); reflexivity.
Defined.

(** X7. Attaching a tag that was not on the note and then detaching it
    brings the store back to what it was; detaching a tag that was on
    the note and attaching it again does the same. *)
Theorem tag_round_trips (E : Env) (noteId tagId : string) (w : World) :
  rejection E (length (calls w)) = None →
  rejection E (S (length (calls w))) = None →
  ((noteTags, noteId, tagId) ∉ edges (store w) →
   store (removeTagFromNote E noteId tagId (addTagToNote E noteId tagId w).2).2
     = store w) ∧
  ((noteTags, noteId, tagId) ∈ edges (store w) →
   store (addTagToNote E noteId tagId (removeTagFromNote E noteId tagId w).2).2
     = store w).
Proof.
  intros H1 H2. split; intros Hin.
  - destruct (addTagToNote_store E noteId tagId w H1)
      as (w1 & -> & Hen1 & Hed1 & Hc1). cbn [snd].
    destruct (removeTagFromNote_store E noteId tagId w1)
      as (w2 & -> & Hen2 & Hed2 & _).
    { rewrite Hc1, length_app, Nat.add_comm. exact H2. }
    cbn [snd]. apply store_eq; [congruence|]. rewrite Hed2, Hed1.
    apply set_eq. intros e.
    rewrite elem_of_difference, elem_of_union, elem_of_singleton.
    split; [by intros [[?|?] ?]|]. intros He. split; [by right|].
    by intros ->.
  - destruct (removeTagFromNote_store E noteId tagId w H1)
      as (w1 & -> & Hen1 & Hed1 & Hc1). cbn [snd].
    destruct (addTagToNote_store E noteId tagId w1)
      as (w2 & -> & Hen2 & Hed2 & _).
    { rewrite Hc1, length_app, Nat.add_comm. exact H2. }
    cbn [snd]. apply store_eq; [congruence|]. rewrite Hed2, Hed1.
    apply set_eq. intros e.
    rewrite elem_of_union, elem_of_difference, elem_of_singleton.
    split; [by intros [->|[? ?]]|]. intros He.
    destruct (decide (e = (noteTags, noteId, tagId))); auto.
Qed.

Lemma tag_round_trips_witness :
  store (removeTagFromNote env_ok "id-1" "id-7"
           (addTagToNote env_ok "id-1" "id-7" world_tagged).2).2
    = store world_tagged ∧
  store (addTagToNote env_ok "id-1" "id-0"
           (removeTagFromNote env_ok "id-1" "id-0" world_tagged).2).2
    = store world_tagged.
Proof.
  split.
  - apply (proj1 (tag_round_trips env_ok "id-1" "id-7" world_tagged
                    eq_refl eq_refl)).
    apply (bool_decide_unpack _). vm_compute. exact I.
  - apply (proj2 (tag_round_trips env_ok "id-1" "id-0" world_tagged
                    eq_refl eq_refl)).
    apply (bool_decide_unpack _). vm_compute. exact I.
Defined.

(** X8. An accepted [removeTagFromNote] detaches that tag from that note
    and nothing else: every other link, the tag's own record and every
    other record are as before. *)
Theorem removeTagFromNote_detaches_only (E : Env) (noteId tagId : string)
  (w : World) :
  rejection E (length (calls w)) = None →
  ∃ w', removeTagFromNote E noteId tagId w = (Resolved (), w') ∧
        ((noteTags, noteId, tagId) ∉ edges (store w')) ∧
        (∀ e, e ≠ (noteTags, noteId, tagId) →
              (e ∈ edges (store w') ↔ e ∈ edges (store w))) ∧
        entities (store w') = entities (store w).
Proof.
  intros Hr.
  destruct (removeTagFromNote_store E noteId tagId w Hr)
    as (w' & Hrun & Hen & Hed & _).
  exists w'. split; [exact Hrun|]. rewrite Hed. split; [|split; [|done]].
  - rewrite elem_of_difference, elem_of_singleton. by intros [_ ?].
  - intros e He. rewrite elem_of_difference, elem_of_singleton. intuition.
Qed.

Lemma removeTagFromNote_detaches_only_witness :
  ∃ w', removeTagFromNote env_ok "id-1" "id-0" world_tagged = (Resolved (), w') ∧
        ((noteTags, "id-1", "id-0") ∉ edges (store w')) ∧
        ((noteCreator, "id-1", "u-alice") ∈ edges (store w')) ∧
        entities (store w') = entities (store world_tagged).
Proof.
  destruct (removeTagFromNote_detaches_only env_ok "id-1" "id-0" world_tagged
              eq_refl)
    as (w' & Hrun & Hgone & Hkeep & Hen).
  exists w'. split; [exact Hrun|]. split; [exact Hgone|]. split; [|exact Hen].
  apply Hkeep; [discriminate|].
  apply (bool_decide_unpack _). vm_compute. exact I.
Defined.

(** ** [toggleFavorite] *)

(** X9. [toggleFavorite] is [updateNote] with the favorite flag as the
    only field: on every world the two do the same.  When the service
    accepts, the stored flag is the one given, the update time is the new
    clock reading, title, content and creation time are as before, and no
    link changes. *)
Theorem toggleFavorite_effect (E : Env) (noteId : string) (b : bool) (w : World) :
  toggleFavorite E noteId b w
    = updateNote E noteId (mkUpdates None None (Some b)) w ∧
  (rejection E (length (calls w)) = None →
   ∃ w', toggleFavorite E noteId b w = (Resolved (), w') ∧
     note_attrs (store w') noteId !! "isFavorite" = Some (VBool b) ∧
     note_attrs (store w') noteId !! "updatedAt"
       = Some (VStr (clock E (clock_reads w))) ∧
     (∀ k, k ≠ "isFavorite" → k ≠ "updatedAt" →
           note_attrs (store w') noteId !! k = note_attrs (store w) noteId !! k) ∧
     edges (store w') = edges (store w)).
Proof.
  split; [reflexivity|].
  intros Hr. unfold toggleFavorite. rewrite bind_step. unfold now_iso.
  cbv beta iota. rewrite transact_step. cbv zeta. simpl calls. rewrite Hr.
  eexists. split; [reflexivity|]. unfold note_attrs.
  cbn [store with_store with_clock_reads entities edges apply_tx fold_steps].
  simpl. rewrite lookup_insert_eq. cbn [default].
  split; [lookup_attrs|]. split; [lookup_attrs|]. split; [|done].
  intros k H1 H2. unfold set_attrs. simpl. by rewrite !lookup_insert_ne by done.
Qed.

Lemma toggleFavorite_effect_witness :
  ∃ w', toggleFavorite env_ok "id-1" true world_work = (Resolved (), w') ∧
        note_attrs (store w') "id-1" !! "isFavorite" = Some (VBool true) ∧
        note_attrs (store w') "id-1" !! "title"
          = note_attrs (store world_work) "id-1" !! "title".
Proof.
  destruct (proj2 (toggleFavorite_effect env_ok "id-1" true world_work) eq_refl)
    as (w' & Hrun & Hf & _ & Hk & _).
  exists w'. split; [exact Hrun|]. split; [exact Hf|].
  apply Hk; discriminate.
Defined.

(** ** Where [moveNoteToNotebook] leaves the note *)

(** X10. When the service accepts its calls, [moveNoteToNotebook] leaves
    the note linked to the new notebook and, if the view showed it in a
    different notebook, no longer linked to that one; no record changes,
    and no link other than the note's notebook link changes. *)
Theorem moveNoteToNotebook_store (E : Env) (notes : list NoteWithRelations)
  (noteId notebookId : string) (w : World) :
  rejection E (length (calls w)) = None →
  rejection E (S (length (calls w))) = None →
  ∃ w',
    moveNoteToNotebook E notes noteId notebookId w = (Resolved (), w') ∧
    (notebookNotes, notebookId, noteId) ∈ edges (store w') ∧
    (∀ old, current_notebook notes noteId = Some old →
            notebook_id old ≠ notebookId →
            (notebookNotes, notebook_id old, noteId) ∉ edges (store w')) ∧
    entities (store w') = entities (store w) ∧
    (∀ e, e.1.1 ≠ notebookNotes ∨ e.2 ≠ noteId →
          (e ∈ edges (store w') ↔ e ∈ edges (store w))).
Proof.
  intros H1 H2.
  assert (Hlink : ∀ w0 : World, rejection E (length (calls w0)) = None →
            ∃ w', transact E
                    [tx NsNotebooks notebookId [link [("notes", [noteId])]]] w0
                  = (Resolved (), w') ∧
                  entities (store w') = entities (store w0) ∧
                  edges (store w') =
                    add_edge def_notebookNotes
                      (notebookNotes, notebookId, noteId) (edges (store w0))).
  { intros w0 Hr. rewrite transact_step. cbv zeta. rewrite Hr.
    eexists. split; [reflexivity|]. cbn. done. }
  assert (Hkeep : ∀ (es : gset (LinkName * string * string)) e,
            e.1.1 ≠ notebookNotes ∨ e.2 ≠ noteId →
            (e ∈ add_edge def_notebookNotes
                   (notebookNotes, notebookId, noteId) es ↔ e ∈ es)).
  { intros es e He. rewrite elem_of_add_edge. split.
    - intros [->|[_ ?]]; [|done]. by destruct He.
    - intros Hin. right. split; [|done]. unfold displaced_by. simpl.
      repeat case_bool_decide; simpl; try done; intuition congruence. }
  unfold moveNoteToNotebook, current_notebook.
  destruct (List.find _ notes) as [[n ts [old|]]|]; simpl.
  - rewrite bind_step.
    assert (Hunlink :
              ∃ w1, transact E
                      [tx NsNotebooks (notebook_id old)
                         [unlink [("notes", [noteId])]]] w
                    = (Resolved (), w1) ∧
                    entities (store w1) = entities (store w) ∧
                    edges (store w1) =
                      edges (store w)
                      ∖ {[ (notebookNotes, notebook_id old, noteId) ]} ∧
                    length (calls w1) = S (length (calls w))).
    { rewrite transact_step. cbv zeta. rewrite H1.
      eexists. split; [reflexivity|]. cbn. split; [done|]. split; [done|].
      by rewrite length_app, Nat.add_comm. }
    destruct Hunlink as (w1 & -> & Hen1 & Hed1 & Hlen).
    destruct (Hlink w1) as (w' & Hrun & Hen & Hed).
    { rewrite Hlen. exact H2. }
    exists w'. split; [exact Hrun|]. rewrite Hed, Hen, Hed1, Hen1.
    split; [apply elem_of_add_edge; by left|]. split; [|split; [done|]].
    + intros ? [= <-] Hne. rewrite elem_of_add_edge.
      intros [[= ?]|[_ Hin]]; [done|].
      apply elem_of_difference in Hin as [_ Hin]. apply Hin.
      by apply elem_of_singleton.
    + intros e He. rewrite (Hkeep _ e He).
      rewrite elem_of_difference, elem_of_singleton. split; [by intros [? _]|].
      intros Hin. split; [done|]. intros ->. simpl in He. by destruct He.
  - rewrite bind_step. async_steps.
    destruct (Hlink w H1) as (w' & Hrun & Hen & Hed).
    exists w'. split; [exact Hrun|]. rewrite Hed.
    split; [apply elem_of_add_edge; by left|]. split; [done|].
    split; [done|]. intros e He. by apply Hkeep.
  - rewrite bind_step. async_steps.
    destruct (Hlink w H1) as (w' & Hrun & Hen & Hed).
    exists w'. split; [exact Hrun|]. rewrite Hed.
    split; [apply elem_of_add_edge; by left|]. split; [done|].
    split; [done|]. intros e He. by apply Hkeep.
Qed.

Lemma moveNoteToNotebook_store_witness :
  ∃ w',
    moveNoteToNotebook env_ok [note_b] "id-1" "id-9" world_work = (Resolved (), w') ∧
    (notebookNotes, "id-9", "id-1") ∈ edges (store w') ∧
    ((notebookNotes, "id-0", "id-1") ∉ edges (store w')) ∧
    entities (store w') = entities (store world_work).
Proof.
  destruct (moveNoteToNotebook_store env_ok [note_b] "id-1" "id-9" world_work
              eq_refl eq_refl)
    as (w' & Hrun & Hnew & Hold & Hen & _).
  exists w'. split; [exact Hrun|]. split; [exact Hnew|]. split; [|exact Hen].
  apply (Hold (mkNotebook "id-0" "Work" EmptyString "2025-03-01T10:00:00.000Z"));
    [reflexivity|discriminate].
Defined.

(** ** [signIn] and [signOut] *)

Lemma signIn_run (E : Env) (email : string) (w : World) :
  (rejection E (length (calls w)) = None →
   ∃ w', signIn E email w = (Resolved (), w') ∧
         sentEmail w' = Some email ∧ session w' = session w ∧
         calls w' = calls w ++ [ SendMagicCode email ]) ∧
  (∀ err, rejection E (length (calls w)) = Some err →
   ∃ w', signIn E email w = (Rejected err, w') ∧
         sentEmail w' = sentEmail w ∧ session w' = session w ∧
         console w' = console w ++
                      [ (LogError, "Failed to send magic code: " +:+ err) ]).
Proof.
  split.
  - intros Hr. unfold signIn, try_catch, sendMagicCode, remote.
    async_steps. rewrite Hr. simpl. eexists. split; [done|]. done.
  - intros err Hr. unfold signIn, try_catch, sendMagicCode, remote.
    async_steps. rewrite Hr. simpl. eexists. split; [done|]. done.
Qed.

Lemma verifyCode_run (E : Env) (email code : string) (w : World) :
  (rejection E (length (calls w)) = None →
   ∃ w', verifyCode E email code w = (Resolved (), w') ∧
         is_Some (session w') ∧ pathname w' = pathname w ∧
         pushes w' = pushes w) ∧
  (∀ err, rejection E (length (calls w)) = Some err →
   ∃ w', verifyCode E email code w = (Rejected err, w') ∧
         session w' = session w ∧ sentEmail w' = sentEmail w ∧
         pushes w' = pushes w).
Proof.
  split.
  - intros Hr. unfold verifyCode, try_catch, signInWithMagicCode, remote.
    async_steps. rewrite Hr. simpl. eexists. split; [done|]. simpl.
    split; [by eexists|done].
  - intros err Hr. unfold verifyCode, try_catch, signInWithMagicCode, remote.
    async_steps. rewrite Hr. simpl. eexists. split; [done|]. done.
Qed.

(** X11. When the service accepts the request, [signIn] resolves and
    records the address as sent, the identity being as before; when the
    service rejects, [signIn] rejects with that same error, records no
    address and logs the failure. *)
Theorem signIn_outcomes (E : Env) (email : string) (w : World) :
  (rejection E (length (calls w)) = None →
   ∃ w', signIn E email w = (Resolved (), w') ∧
         sentEmail w' = Some email ∧ session w' = session w ∧
         calls w' = calls w ++ [ SendMagicCode email ]) ∧
  (∀ err, rejection E (length (calls w)) = Some err →
   ∃ w', signIn E email w = (Rejected err, w') ∧
         sentEmail w' = sentEmail w ∧ session w' = session w ∧
         console w' = console w ++
                      [ (LogError, "Failed to send magic code: " +:+ err) ]).
Proof. exact (signIn_run E email w). Qed.

Lemma signIn_outcomes_witness :
  (∃ w', signIn env_ok "alice@example.com" world0 = (Resolved (), w') ∧
         sentEmail w' = Some "alice@example.com" ∧ session w' = session world0 ∧
         calls w' = calls world0 ++ [ SendMagicCode "alice@example.com" ]) ∧
  (∃ w', signIn env_down "alice@example.com" world0
           = (Rejected "network error", w') ∧
         sentEmail w' = sentEmail world0 ∧ session w' = session world0 ∧
         console w' = console world0 ++
                      [ (LogError, "Failed to send magic code: network error") ]).
Proof.
  split.
  - apply (signIn_outcomes env_ok "alice@example.com" world0). reflexivity.
  - apply (signIn_outcomes env_down "alice@example.com" world0). reflexivity.
Defined.

(** X12. While a non-empty address is recorded as sent, the redirect
    effect of [AuthProvider] does nothing, whatever the page; in
    particular it does nothing right after an accepted [signIn] for a
    non-empty address.  An empty recorded address does not count: with
    loading complete and no identity the effect redirects all the same. *)
Theorem pending_address_suppresses_redirect (E : Env) (email : string)
  (w : World) :
  (∀ e, sentEmail w = Some e → e ≠ EmptyString →
        redirect_effect w = (Resolved (), w)) ∧
  (rejection E (length (calls w)) = None → email ≠ EmptyString →
   redirect_effect (signIn E email w).2 = (Resolved (), (signIn E email w).2)) ∧
  (sentEmail w = Some EmptyString → auth_loading w = false →
   session w = None → pathname w ≠ "/login" →
   redirect_effect w = (Resolved (), with_route "/login" w)).
Proof.
  split; [|split].
  - intros e He Hne. unfold redirect_effect. rewrite He. simpl.
    rewrite (proj2 (truthy_true e) Hne). simpl.
    by rewrite andb_false_r.
  - intros Hr Hne.
    destruct (proj1 (signIn_run E email w) Hr) as (w' & -> & Hs & _).
    cbn [snd]. unfold redirect_effect. rewrite Hs. simpl.
    rewrite (proj2 (truthy_true email) Hne). simpl.
    by rewrite andb_false_r.
  - intros He Hl Hs Hp. unfold redirect_effect. rewrite He, Hl, Hs. simpl.
    by rewrite (bool_decide_eq_false_2 _ Hp).
Qed.

Lemma pending_address_suppresses_redirect_witness :
  redirect_effect world_pending = (Resolved (), world_pending) ∧
  redirect_effect (signIn env_ok "alice@example.com" world0).2
    = (Resolved (), (signIn env_ok "alice@example.com" world0).2) ∧
  redirect_effect (signIn env_ok EmptyString world0).2
    = (Resolved (), with_route "/login" (signIn env_ok EmptyString world0).2).
Proof.
  split; [|split].
  - apply (proj1 (pending_address_suppresses_redirect env_ok EmptyString
                    world_pending) "alice@example.com");
      [reflexivity|discriminate].
  - apply (proj1 (proj2 (pending_address_suppresses_redirect env_ok
                           "alice@example.com" world0)));
      [reflexivity|discriminate].
  - apply (proj2 (proj2 (pending_address_suppresses_redirect env_ok EmptyString
                           (signIn env_ok EmptyString world0).2)));
      [reflexivity|reflexivity|reflexivity|discriminate].
Defined.

(** X13. When the service accepts, [signOut] resolves with no identity
    left and the router sent to the login screen; when the service
    rejects, [signOut] rejects with that error, the identity stays and
    no navigation happens. *)
Theorem signOut_outcomes (E : Env) (w : World) :
  (rejection E (length (calls w)) = None →
   ∃ w', signOut E w = (Resolved (), w') ∧
         session w' = None ∧ pathname w' = "/login" ∧
         pushes w' = pushes w ++ ["/login"]) ∧
  (∀ err, rejection E (length (calls w)) = Some err →
   ∃ w', signOut E w = (Rejected err, w') ∧
         session w' = session w ∧ pathname w' = pathname w ∧
         pushes w' = pushes w).
Proof.
  split.
  - intros Hr. unfold signOut, try_catch, auth_signOut, remote.
    async_steps. rewrite Hr. simpl. eexists. split; [done|]. done.
  - intros err Hr. unfold signOut, try_catch, auth_signOut, remote.
    async_steps. rewrite Hr. simpl. eexists. split; [done|]. done.
Qed.

Lemma signOut_outcomes_witness :
  (∃ w', signOut env_ok world_alice = (Resolved (), w') ∧
         session w' = None ∧ pathname w' = "/login" ∧
         pushes w' = pushes world_alice ++ ["/login"]) ∧
  (∃ w', signOut env_down world_alice = (Rejected "network error", w') ∧
         session w' = session world_alice ∧ pathname w' = pathname world_alice ∧
         pushes w' = pushes world_alice).
Proof.
  split.
  - apply (signOut_outcomes env_ok world_alice). reflexivity.
  - apply (signOut_outcomes env_down world_alice). reflexivity.
Defined.

(** ** What the data controllers leave alone *)

Lemma keeps_bind {A B X : Type} (f : World → X) (m : Async A) (k : A → Async B) :
  keeps f m → (∀ a, keeps f (k a)) → keeps f (m ≫= k).
Proof.
  intros Hm Hk w. rewrite bind_step. specialize (Hm w).
  destruct (m w) as [[a|err] w1]; simpl in *; [|done].
  by rewrite Hk.
Qed.

Lemma keeps_try_catch {A X : Type} (f : World → X) (body : Async A)
  (handler : string → Async A) :
  keeps f body → (∀ err, keeps f (handler err)) → keeps f (try_catch body handler).
Proof.
  intros Hb Hh w. unfold try_catch. specialize (Hb w).
  destruct (body w) as [[a|err] w1]; simpl in *; [done|].
  by rewrite Hh.
Qed.

Lemma keeps_ret {A X : Type} (f : World → X) (a : A) : keeps f (mret a).
Proof. by intros w. Qed.

Lemma keeps_transact (E : Env) (chunks : list TxChunk) :
  keeps ui_fields (transact E chunks).
Proof.
  intros w. rewrite transact_step. cbv zeta.
  destruct (rejection E (length (calls w))); [done|].
  by destruct (apply_tx (store w) chunks).
Qed.

Lemma keeps_queryOnce (E : Env) (q : Query) : keeps ui_fields (queryOnce E q).
Proof.
  intros w. unfold queryOnce, remote.
  by destruct (rejection E (length (calls w))).
Qed.

Lemma keeps_console_log (msg : string) : keeps ui_fields (console_log msg).
Proof. by intros w. Qed.

Lemma keeps_console_error (msg : string) : keeps ui_fields (console_error msg).
Proof. by intros w. Qed.

Lemma keeps_new_id (E : Env) : keeps ui_fields (new_id E).
Proof. by intros w. Qed.

Lemma keeps_now_iso (E : Env) : keeps ui_fields (now_iso E).
Proof. by intros w. Qed.

Lemma keeps_map_indexed {A B X : Type} (f : World → X) (g : A → nat → Async B)
  (l : list A) (index : nat) :
  (∀ a i, keeps f (g a i)) → keeps f (map_indexed g l index).
Proof.
  intros Hg. revert index. induction l as [|a l IH]; intros index; simpl.
  - apply keeps_ret.
  - apply keeps_bind; [apply Hg|]. intros b.
    apply keeps_bind; [apply IH|]. intros bs. apply keeps_ret.
Qed.

Lemma keeps_seed (E : Env) (user : option User) :
  keeps ui_fields (seedUserWithOnboardingNotes E user).
Proof.
  unfold seedUserWithOnboardingNotes.
  destruct user as [u|]; [destruct (truthy (user_id u))|];
    try apply keeps_console_error.
  apply keeps_try_catch; [|intros err; apply keeps_console_error].
  apply keeps_bind; [apply keeps_new_id|]. intros nb.
  apply keeps_bind; [apply keeps_now_iso|]. intros now.
  apply keeps_bind; [apply keeps_transact|]. intros _.
  apply keeps_bind.
  - apply keeps_map_indexed. intros n i.
    apply keeps_bind; [apply keeps_new_id|]. intros nid. apply keeps_ret.
  - intros chunks. apply keeps_bind; [apply keeps_transact|]. intros _.
    apply keeps_console_log.
Qed.

(** ** The onboarding effect, case by case *)

(** The render is eligible for the onboarding check. *)
Lemma onboarding_effect_eligible (E : Env) (u : User) (w : World) :
  auth_loading w = false → session w = Some u →
  user_id u ≠ EmptyString → previousUserRef w ≠ Some (user_id u) →
  onboarding_effect E w =
  try_catch
    (data_notes ← queryOnce E (mkQuery (user_id u) 1);
     match data_notes with
     | [] =>
         console_log "Creating onboarding notes for new user";;
         seedUserWithOnboardingNotes E (Some u)
     | _ :: _ => mret ()
     end;;
     modify (with_previousUserRef (Some (user_id u))))
    (λ error, console_error ("Error checking user notes: " +:+ error)) w.
Proof.
  intros Hl Hs Hid Hprev. unfold onboarding_effect. rewrite Hl, Hs. simpl negb.
  rewrite (bool_decide_eq_true_2 (is_Some (Some u))) by (by eexists).
  cbv beta iota. simpl andb. cbv iota. unfold checkUserAndCreateNotes.
  rewrite (proj2 (truthy_true _) Hid).
  by rewrite (bool_decide_eq_false_2 _ Hprev).
Qed.

Lemma keeps_shell {A : Type} (m : Async A) :
  keeps ui_fields m → keeps shell_fields m.
Proof.
  intros H w. pose proof (H w) as Hw. unfold ui_fields in Hw.
  unfold shell_fields. congruence.
Qed.

Lemma onboarding_effect_keeps_shell (E : Env) :
  keeps shell_fields (onboarding_effect E).
Proof.
  intros w. unfold onboarding_effect.
  destruct (negb (auth_loading w) && bool_decide (is_Some (session w)));
    [|done].
  unfold checkUserAndCreateNotes. destruct (session w) as [u|]; [|done].
  destruct (truthy (user_id u)
            && negb (bool_decide (previousUserRef w = Some (user_id u))));
    [|done].
  revert w. apply keeps_try_catch;
    [|intros err; apply keeps_shell, keeps_console_error].
  apply keeps_bind; [apply keeps_shell, keeps_queryOnce|]. intros data_notes.
  apply keeps_bind; [|by intros _ w0].
  destruct data_notes as [|? ?]; [|by intros w0].
  apply keeps_bind; [apply keeps_shell, keeps_console_log|]. intros _.
  apply keeps_shell, keeps_seed.
Qed.

Lemma onboarding_effect_total (E : Env) (w : World) :
  ∃ w', onboarding_effect E w = (Resolved (), w').
Proof.
  unfold onboarding_effect.
  destruct (negb (auth_loading w) && bool_decide (is_Some (session w)));
    [|by eexists].
  unfold checkUserAndCreateNotes. destruct (session w) as [u|]; [|by eexists].
  destruct (truthy (user_id u)
            && negb (bool_decide (previousUserRef w = Some (user_id u))));
    [|by eexists].
  apply try_catch_total. intros err w1. by eexists.
Qed.

(** X14. The onboarding effect never rejects, whatever the service
    answers, and it never touches the identity, the pending address or
    the router. *)
Theorem onboarding_effect_contained (E : Env) (w : World) :
  ∃ w', onboarding_effect E w = (Resolved (), w') ∧
        session w' = session w ∧ auth_loading w' = auth_loading w ∧
        sentEmail w' = sentEmail w ∧ pathname w' = pathname w ∧
        pushes w' = pushes w.
Proof.
  destruct (onboarding_effect_total E w) as [w' Hrun].
  exists w'. split; [exact Hrun|].
  pose proof (onboarding_effect_keeps_shell E w) as Hk.
  rewrite Hrun in Hk. unfold shell_fields in Hk. cbn [snd] in Hk.
  by injection Hk as -> -> -> -> ->.
Qed.

Lemma onboarding_effect_noop (E : Env) (w : World) :
  (auth_loading w = true ∨ session w = None ∨
   ∃ u, session w = Some u ∧
        (user_id u = EmptyString ∨ previousUserRef w = Some (user_id u))) →
  onboarding_effect E w = (Resolved (), w).
Proof.
  unfold onboarding_effect, checkUserAndCreateNotes.
  intros [Hl|[Hs|(u & Hs & [Hid|Hprev])]].
  - by rewrite Hl.
  - rewrite Hs. simpl. by rewrite andb_false_r.
  - rewrite Hs, Hid. simpl. by destruct (negb (auth_loading w)).
  - rewrite Hs, Hprev.
    rewrite (bool_decide_eq_true_2 (Some (user_id u) = Some (user_id u))) by done.
    destruct (negb (auth_loading w) && _); [|done].
    by destruct (truthy (user_id u)).
Qed.

(** X15. The effect does nothing at all, not even a query, while the
    identity is loading, when there is none, when its identifier is
    empty, or when the identity is the one remembered from an earlier
    run. *)
Theorem onboarding_effect_skips (E : Env) (w : World) :
  (auth_loading w = true ∨ session w = None ∨
   ∃ u, session w = Some u ∧
        (user_id u = EmptyString ∨ previousUserRef w = Some (user_id u))) →
  onboarding_effect E w = (Resolved (), w).
Proof. apply onboarding_effect_noop. Qed.

Lemma onboarding_effect_skips_witness :
  onboarding_effect env_ok world_pending = (Resolved (), world_pending) ∧
  onboarding_effect env_ok (with_previousUserRef (Some "u-alice")
                              (with_session (Some alice) world0))
    = (Resolved (), with_previousUserRef (Some "u-alice")
                      (with_session (Some alice) world0)).
Proof.
  split.
  - apply (onboarding_effect_skips env_ok world_pending). right. left. reflexivity.
  - apply (onboarding_effect_skips env_ok). right. right. exists alice.
    split; [reflexivity|]. right. reflexivity.
Defined.

(** X16. For a new identity that already owns a note, the effect issues
    the one-shot query and nothing else, and remembers the identity. *)
Theorem onboarding_effect_existing_notes (E : Env) (u : User) (w : World) :
  auth_loading w = false → session w = Some u →
  user_id u ≠ EmptyString → previousUserRef w ≠ Some (user_id u) →
  rejection E (length (calls w)) = None →
  notes_of_creator (store w) (user_id u) ≠ [] →
  onboarding_effect E w =
  (Resolved (),
   with_previousUserRef (Some (user_id u))
     (with_calls (calls w ++ [ QueryOnce (mkQuery (user_id u) 1) ]) w)).
Proof.
  intros Hl Hs Hid Hprev Hr Hnotes.
  rewrite (onboarding_effect_eligible E u w Hl Hs Hid Hprev).
  unfold try_catch. rewrite bind_step. unfold queryOnce, remote.
  cbv beta iota zeta. rewrite Hr. simpl store. simpl where_creator_id.
  destruct (notes_of_creator (store w) (user_id u)) as [|nid rest]; [done|].
  reflexivity.
Qed.

Lemma onboarding_effect_existing_notes_witness :
  onboarding_effect env_ok (with_session (Some alice) world_work) =
  (Resolved (),
   with_previousUserRef (Some "u-alice")
     (with_calls (calls world_work ++ [ QueryOnce (mkQuery "u-alice" 1) ])
        (with_session (Some alice) world_work))).
Proof.
  apply (onboarding_effect_existing_notes env_ok alice
           (with_session (Some alice) world_work)).
  - reflexivity.
  - reflexivity.
  - discriminate.
  - discriminate.
  - reflexivity.
  - vm_compute. discriminate.
Defined.

(** X17. When the service rejects the one-shot query, the effect logs
    the error and resolves; nothing is written and the identity is not
    remembered, so that a later run checks again. *)
Theorem onboarding_effect_query_rejected (E : Env) (u : User) (w : World)
  (err : string) :
  auth_loading w = false → session w = Some u →
  user_id u ≠ EmptyString → previousUserRef w ≠ Some (user_id u) →
  rejection E (length (calls w)) = Some err →
  onboarding_effect E w =
  (Resolved (),
   with_console (console w ++ [ (LogError, "Error checking user notes: " +:+ err) ])
     (with_calls (calls w ++ [ QueryOnce (mkQuery (user_id u) 1) ]) w)).
Proof.
  intros Hl Hs Hid Hprev Hr.
  rewrite (onboarding_effect_eligible E u w Hl Hs Hid Hprev).
  unfold try_catch. rewrite bind_step. unfold queryOnce, remote.
  cbv beta iota zeta. rewrite Hr. reflexivity.
Qed.

Lemma onboarding_effect_query_rejected_witness :
  onboarding_effect env_down world_alice =
  (Resolved (),
   with_console
     (console world_alice ++
      [ (LogError, "Error checking user notes: network error") ])
     (with_calls
        (calls world_alice ++
         [ QueryOnce (mkQuery "user-of-alice@example.com" 1) ]) world_alice)).
Proof.
  apply (onboarding_effect_query_rejected env_down alice_account world_alice
           "network error").
  - reflexivity.
  - reflexivity.
  - discriminate.
  - discriminate.
  - reflexivity.
Defined.

Lemma seed_resolves (E : Env) (user : option User) (w : World) :
  ∃ w', seedUserWithOnboardingNotes E user w = (Resolved (), w').
Proof.
  unfold seedUserWithOnboardingNotes.
  destruct user as [u|]; [destruct (truthy (user_id u))|]; try by eexists.
  apply try_catch_total. intros err w1. by eexists.
Qed.

Lemma onboarding_effect_remembers (E : Env) (u : User) (w : World) :
  auth_loading w = false → session w = Some u →
  user_id u ≠ EmptyString → previousUserRef w ≠ Some (user_id u) →
  rejection E (length (calls w)) = None →
  previousUserRef (onboarding_effect E w).2 = Some (user_id u).
Proof.
  intros Hl Hs Hid Hprev Hr.
  rewrite (onboarding_effect_eligible E u w Hl Hs Hid Hprev).
  unfold try_catch. rewrite bind_step. unfold queryOnce, remote.
  cbv beta iota zeta. rewrite Hr. cbv beta iota.
  destruct (take _ _) as [|nid rest]; [|reflexivity].
  rewrite bind_step, bind_step. unfold console_log at 1, modify at 1.
  cbv beta iota.
  match goal with |- context [seedUserWithOnboardingNotes E (Some u) ?w2] =>
    destruct (seed_resolves E (Some u) w2) as [w3 ->]
  end.
  reflexivity.
Qed.

(** X18. Once the one-shot query has been answered, the effect has run
    for good: running it again on the world it left changes nothing and
    issues no call, whatever happened to the writes of the first run. *)
Theorem onboarding_effect_runs_once (E : Env) (w : World) :
  rejection E (length (calls w)) = None →
  onboarding_effect E (onboarding_effect E w).2
    = (Resolved (), (onboarding_effect E w).2).
Proof.
  intros Hr.
  destruct (auth_loading w) eqn:Hl.
  { rewrite (onboarding_effect_noop E w) by auto. cbn [snd].
    apply onboarding_effect_noop. auto. }
  destruct (session w) as [u|] eqn:Hs.
  2: { rewrite (onboarding_effect_noop E w) by auto. cbn [snd].
       apply onboarding_effect_noop. auto. }
  destruct (decide (user_id u = EmptyString)) as [Hid|Hid].
  { rewrite (onboarding_effect_noop E w) by eauto 6. cbn [snd].
    apply onboarding_effect_noop. eauto 6. }
  destruct (decide (previousUserRef w = Some (user_id u))) as [Hprev|Hprev].
  { rewrite (onboarding_effect_noop E w) by eauto 6. cbn [snd].
    apply onboarding_effect_noop. eauto 6. }
  apply onboarding_effect_noop. right. right. exists u. split.
  - pose proof (onboarding_effect_keeps_shell E w) as Hk.
    unfold shell_fields in Hk. injection Hk as Hs' _ _ _ _.
    by rewrite Hs'.
  - right. by apply onboarding_effect_remembers.
Qed.

Lemma onboarding_effect_runs_once_witness :
  onboarding_effect env_ok (onboarding_effect env_ok world_alice).2
    = (Resolved (), (onboarding_effect env_ok world_alice).2).
Proof.
  apply (onboarding_effect_runs_once env_ok world_alice). reflexivity.
Defined.

(** ** A seeding that fails midway *)

Lemma elem_of_entity_ids (s : Store) (ns : Namespace) (id : string) :
  In id (entity_ids s ns) ↔ is_Some (entities s !! (ns, id)).
Proof.
  unfold entity_ids. rewrite <- list_elem_of_In, list_elem_of_omap. split.
  - intros (k & Hk & Hf). apply list_elem_of_In, in_map_iff in Hk as ([k' a] & <- & Hin).
    apply list_elem_of_In, elem_of_map_to_list in Hin. simpl in Hf.
    case_bool_decide as Hns; [|done]. injection Hf as <-.
    destruct k' as [ns' id']. simpl in *. subst ns'. by exists a.
  - intros [a Ha]. exists (ns, id). split.
    + apply list_elem_of_In, in_map_iff. exists ((ns, id), a). split; [done|].
      by apply list_elem_of_In, elem_of_map_to_list.
    + simpl. by rewrite bool_decide_eq_true_2.
Qed.

Lemma notes_of_creator_nil (s : Store) (uid : string) :
  notes_of_creator s uid = [] ↔
  ∀ nid, is_Some (entities s !! (NsNotes, nid)) →
         (noteCreator, nid, uid) ∉ edges s.
Proof.
  unfold notes_of_creator. split.
  - intros Hnil nid Hsome Hin.
    assert (Hmem : In nid (List.filter
                     (λ nid, bool_decide ((noteCreator, nid, uid) ∈ edges s))
                     (entity_ids s NsNotes))).
    { apply filter_In. split; [by apply elem_of_entity_ids|].
      by apply bool_decide_eq_true. }
    by rewrite Hnil in Hmem.
  - intros Hno.
    destruct (List.filter _ _) as [|nid rest] eqn:Hf; [done|].
    assert (Hmem : In nid (nid :: rest)) by (by left).
    rewrite <- Hf in Hmem. apply filter_In in Hmem as [Hid Hin].
    apply elem_of_entity_ids in Hid. apply bool_decide_eq_true in Hin.
    by destruct (Hno nid Hid).
Qed.

(** X19. When the service accepts the query and the notebook write but
    rejects the batch of notes, the effect still resolves and remembers
    the identity, so it will not try again; the store is left with the
    "Getting Started" notebook and the creator still owns no note. *)
Theorem onboarding_effect_half_seeded (E : Env) (u : User) (w : World)
  (err : string) :
  auth_loading w = false → session w = Some u →
  user_id u ≠ EmptyString → previousUserRef w ≠ Some (user_id u) →
  notes_of_creator (store w) (user_id u) = [] →
  rejection E (length (calls w)) = None →
  rejection E (length (calls w) + 1) = None →
  rejection E (length (calls w) + 2) = Some err →
  ∃ w' attrs,
    onboarding_effect E w = (Resolved (), w') ∧
    previousUserRef w' = Some (user_id u) ∧
    entities (store w') !! (NsNotebooks, gen_id E (ids_drawn w)) = Some attrs ∧
    attrs !! "name" = Some (VStr "Getting Started") ∧
    notes_of_creator (store w') (user_id u) = [] ∧
    console w' = console w ++
      [ (LogInfo, "Creating onboarding notes for new user");
        (LogError, "Failed to create onboarding notes: " +:+ err) ].
Proof.
  intros Hl Hs Hid Hprev Hnone H0 H1 H2.
  rewrite (onboarding_effect_eligible E u w Hl Hs Hid Hprev).
  unfold try_catch at 1. rewrite bind_step. unfold queryOnce, remote.
  cbv beta iota zeta. rewrite H0. simpl store. simpl where_creator_id.
  rewrite Hnone. simpl take. cbv beta iota.
  rewrite bind_step, bind_step. unfold console_log at 1, modify at 1.
  cbv beta iota.
  unfold seedUserWithOnboardingNotes. rewrite (proj2 (truthy_true _) Hid).
  unfold try_catch.
  rewrite bind_step. unfold new_id at 1. cbv beta iota.
  rewrite bind_step. unfold now_iso at 1. cbv beta iota.
  rewrite bind_step.
  destruct (apply_starter_notebook_chunk (store w) (user_id u)
              (gen_id E (ids_drawn w)) (clock E (clock_reads w)))
    as (attrs & Hs1 & Hname).
  rewrite transact_step. cbv zeta.
  cbn [calls store with_console with_calls with_ids_drawn with_clock_reads
       ids_drawn clock_reads].
  rewrite length_app. cbn [length]. rewrite H1.
  change (apply_tx (store w) _)
    with (apply_tx (store w)
            [starter_notebook_chunk (user_id u) (gen_id E (ids_drawn w))
               (clock E (clock_reads w))]).
  rewrite Hs1. cbv beta iota.
  rewrite bind_step, map_indexed_starter_notes. cbv beta iota.
  rewrite bind_step, transact_step. cbv zeta.
  cbn [calls store with_store with_console with_calls with_ids_drawn
       with_clock_reads ids_drawn clock_reads].
  rewrite !length_app. cbn [length].
  replace (length (calls w) + 1 + 1) with (length (calls w) + 2) by lia.
  rewrite H2. cbv beta iota.
  unfold console_error, modify. cbv beta iota.
  eexists _, attrs. split; [reflexivity|].
  cbn [previousUserRef store console with_previousUserRef with_console
       with_calls with_store with_ids_drawn with_clock_reads entities edges].
  split; [done|]. split; [apply lookup_insert_eq|]. split; [exact Hname|].
  split; [|by rewrite <- app_assoc].
  apply notes_of_creator_nil. cbn [entities edges].
  intros nid Hsome Hin. rewrite lookup_insert_ne in Hsome by done.
  apply elem_of_add_edge in Hin as [[=]|[_ Hin]].
  by apply (proj1 (notes_of_creator_nil (store w) (user_id u)) Hnone nid).
Qed.

Lemma onboarding_effect_half_seeded_witness :
  ∃ w',
    onboarding_effect env_notes_write_fails world_alice = (Resolved (), w') ∧
    previousUserRef w' = Some (user_id alice_account) ∧
    notes_of_creator (store w') (user_id alice_account) = [] ∧
    is_Some (entities (store w') !! (NsNotebooks, "id-0")).
Proof.
  destruct (onboarding_effect_half_seeded env_notes_write_fails alice_account
              world_alice "network error")
    as (w' & attrs & Hrun & Hprev & Hnb & _ & Hnotes & _).
  - reflexivity.
  - reflexivity.
  - discriminate.
  - discriminate.
  - vm_compute. reflexivity.
  - reflexivity.
  - reflexivity.
  - reflexivity.
  - exists w'. split; [exact Hrun|]. split; [exact Hprev|].
    split; [exact Hnotes|]. exists attrs. exact Hnb.
Defined.

(** ** The redirects of the pages and of [AuthProvider] *)

Lemma pushed_unchanged (m : Async unit) (w : World) :
  m w = (Resolved (), w) → pushed m w = [].
Proof. intros Hm. unfold pushed. rewrite Hm. apply drop_all. Qed.

Lemma pushed_route (m : Async unit) (w : World) (t : string) :
  m w = (Resolved (), with_route t w) → pushed m w = [t].
Proof.
  intros Hm. unfold pushed. rewrite Hm. simpl. by rewrite drop_app_length.
Qed.

Lemma pushed_page_effect (w : World) :
  pushed page_effect w =
  if bool_decide (pathname w = "/") then
    if negb (auth_loading w) && negb (bool_decide (is_Some (session w)))
    then ["/login"] else []
  else if bool_decide (pathname w = "/login") then
    if negb (auth_loading w) && bool_decide (is_Some (session w))
    then ["/"] else []
  else [].
Proof.
  destruct (decide (pathname w = "/")) as [Hp|Hp].
  - rewrite (bool_decide_eq_true_2 _ Hp).
    destruct (negb (auth_loading w) && negb (bool_decide (is_Some (session w))))
      eqn:Hc; [apply pushed_route|apply pushed_unchanged];
      unfold page_effect, home_redirect_effect;
      by rewrite (bool_decide_eq_true_2 _ Hp), Hc.
  - rewrite (bool_decide_eq_false_2 _ Hp).
    destruct (decide (pathname w = "/login")) as [Hq|Hq].
    + rewrite (bool_decide_eq_true_2 _ Hq).
      destruct (negb (auth_loading w) && bool_decide (is_Some (session w)))
        eqn:Hc; [apply pushed_route|apply pushed_unchanged];
        unfold page_effect, login_effect;
        by rewrite (bool_decide_eq_false_2 _ Hp), (bool_decide_eq_true_2 _ Hq), Hc.
    + rewrite (bool_decide_eq_false_2 _ Hq). apply pushed_unchanged.
      unfold page_effect.
      by rewrite (bool_decide_eq_false_2 _ Hp), (bool_decide_eq_false_2 _ Hq).
Qed.

Lemma pushed_redirect_effect (w : World) :
  pushed redirect_effect w =
  if negb (auth_loading w) && negb (bool_decide (is_Some (session w)))
     && negb (truthy_opt (sentEmail w))
     && negb (bool_decide (pathname w = "/login"))
  then ["/login"] else [].
Proof.
  unfold redirect_effect.
  destruct (negb (auth_loading w) && negb (bool_decide (is_Some (session w)))
            && negb (truthy_opt (sentEmail w))
            && negb (bool_decide (pathname w = "/login"))) eqn:Hc.
  - apply pushed_route. by rewrite Hc.
  - apply pushed_unchanged. by rewrite Hc.
Qed.

(** X20. The redirects never fight.  Whatever the effects of the page
    shown and of [AuthProvider] push on one render, they push the same
    route, [/] for a present identity and [/login] for none; and once the
    router is there, neither effect pushes anything. *)
Theorem redirects_settle (w : World) (t : string) :
  t ∈ pushed page_effect w ++ pushed redirect_effect w →
  t = (if bool_decide (is_Some (session w)) then "/" else "/login") ∧
  pushed page_effect (with_route t w) = [] ∧
  pushed redirect_effect (with_route t w) = [].
Proof.
  rewrite !pushed_page_effect, !pushed_redirect_effect. simpl.
  destruct (auth_loading w), (session w) as [u|]; simpl;
    repeat case_bool_decide; simpl;
    destruct (truthy_opt (sentEmail w)); simpl;
    rewrite ?elem_of_cons, ?elem_of_nil;
    intros Ht; try tauto;
    repeat match goal with H : _ ∨ _ |- _ => destruct H end;
    try tauto; subst t; simpl; repeat case_bool_decide; try done.
Qed.

Lemma redirects_settle_witness :
  "/login" = (if bool_decide (is_Some (session world0)) then "/" else "/login") ∧
  pushed page_effect (with_route "/login" world0) = [] ∧
  pushed redirect_effect (with_route "/login" world0) = [].
Proof.
  apply (redirects_settle world0 "/login").
  apply (bool_decide_unpack _). vm_compute. exact I.
Defined.

(** X21. On the home page a missing identity always leads to the login
    screen once loading is complete, even while an address is pending
    verification: the guard of [AuthProvider] does not cover it. *)
Theorem home_redirect_ignores_pending (w : World) :
  auth_loading w = false → session w = None → pathname w = "/" →
  pushed redirect_effect w =
    (if truthy_opt (sentEmail w) then [] else ["/login"]) ∧
  pushed page_effect w = ["/login"].
Proof.
  intros Hl Hs Hp. rewrite pushed_page_effect, pushed_redirect_effect.
  rewrite Hl, Hs, Hp. simpl. by destruct (truthy_opt (sentEmail w)).
Qed.

Lemma home_redirect_ignores_pending_witness :
  pushed redirect_effect (with_sentEmail (Some "alice@example.com") world0) = [] ∧
  pushed page_effect (with_sentEmail (Some "alice@example.com") world0)
    = ["/login"].
Proof.
  apply (home_redirect_ignores_pending
           (with_sentEmail (Some "alice@example.com") world0)); reflexivity.
Defined.

(** ** [components/AuthForm.tsx] *)

(** X22. After a submit of the code form the loading flag is off and the
    address field is as typed.  When the service accepts the code, the
    error is cleared and, with the login page's callback, the router is
    sent home with the identity present.  When the service rejects it,
    the form shows its fixed message, whatever the service's error was,
    the code field is emptied for a retry and nothing is navigated. *)
Theorem handleCodeSubmit_outcomes (E : Env) (f : AuthForm.State) (w : World) :
  (rejection E (length (calls w)) = None →
   ∃ w', AuthForm.handleCodeSubmit E (Some handleLoginSuccess) f w
           = (AuthForm.mkState (AuthForm.email f) (AuthForm.code f)
                (AuthForm.sentEmail f) false None, w') ∧
         is_Some (session w') ∧ pathname w' = "/" ∧
         pushes w' = pushes w ++ ["/"]) ∧
  (∀ onSuccess err, rejection E (length (calls w)) = Some err →
   ∃ w', AuthForm.handleCodeSubmit E onSuccess f w
           = (AuthForm.mkState (AuthForm.email f) EmptyString
                (AuthForm.sentEmail f) false
                (Some "Invalid code. Please try again."), w') ∧
         session w' = session w ∧ sentEmail w' = sentEmail w ∧
         pushes w' = pushes w).
Proof.
  split.
  - intros Hr. unfold AuthForm.handleCodeSubmit.
    destruct (proj1 (verifyCode_run E (AuthForm.email f) (AuthForm.code f) w) Hr)
      as (w1 & -> & Hs & Hp & Hpu).
    eexists. split; [reflexivity|]. simpl. by rewrite Hpu.
  - intros onSuccess err Hr. unfold AuthForm.handleCodeSubmit.
    destruct (proj2 (verifyCode_run E (AuthForm.email f) (AuthForm.code f) w)
                err Hr) as (w1 & -> & Hs & He & Hpu).
    eexists. split; [reflexivity|]. done.
Qed.

Lemma handleCodeSubmit_outcomes_witness :
  (∃ w', AuthForm.handleCodeSubmit env_ok (Some handleLoginSuccess)
           (AuthForm.mkState "alice@example.com" "424242" true false
              (Some "Invalid code. Please try again.")) world_pending
           = (AuthForm.mkState "alice@example.com" "424242" true false None, w') ∧
         is_Some (session w') ∧ pathname w' = "/" ∧
         pushes w' = pushes world_pending ++ ["/"]) ∧
  (∃ w', AuthForm.handleCodeSubmit env_down None
           (AuthForm.mkState "alice@example.com" "000000" true false None)
           world_pending
           = (AuthForm.mkState "alice@example.com" EmptyString true false
                (Some "Invalid code. Please try again."), w') ∧
         session w' = session world_pending ∧
         sentEmail w' = sentEmail world_pending ∧
         pushes w' = pushes world_pending).
Proof.
  split.
  - apply (proj1 (handleCodeSubmit_outcomes env_ok
                    (AuthForm.mkState "alice@example.com" "424242" true false
                       (Some "Invalid code. Please try again.")) world_pending)).
    reflexivity.
  - apply (proj2 (handleCodeSubmit_outcomes env_down
                    (AuthForm.mkState "alice@example.com" "000000" true false None)
                    world_pending) None "network error").
    reflexivity.
Defined.

(** X23. After a submit of the address form the loading flag is off.
    When the service accepts the request the form moves to the code step
    and the provider holds the typed address as pending; when it rejects,
    the form stays on the address step with its fixed message and the
    provider records nothing. *)
Theorem handleEmailSubmit_outcomes (E : Env) (f : AuthForm.State) (w : World) :
  (rejection E (length (calls w)) = None →
   ∃ w', AuthForm.handleEmailSubmit E f w
           = (AuthForm.mkState (AuthForm.email f) (AuthForm.code f) true false
                None, w') ∧
         sentEmail w' = Some (AuthForm.email f)) ∧
  (∀ err, rejection E (length (calls w)) = Some err →
   ∃ w', AuthForm.handleEmailSubmit E f w
           = (AuthForm.mkState (AuthForm.email f) (AuthForm.code f)
                (AuthForm.sentEmail f) false
                (Some "Failed to send verification code. Please try again."),
              w') ∧
         sentEmail w' = sentEmail w).
Proof.
  split.
  - intros Hr. unfold AuthForm.handleEmailSubmit.
    destruct (proj1 (signIn_run E (AuthForm.email f) w) Hr)
      as (w1 & -> & Hs & _).
    eexists. split; [reflexivity|]. done.
  - intros err Hr. unfold AuthForm.handleEmailSubmit.
    destruct (proj2 (signIn_run E (AuthForm.email f) w) err Hr)
      as (w1 & -> & Hs & _).
    eexists. split; [reflexivity|]. done.
Qed.

Lemma handleEmailSubmit_outcomes_witness :
  (∃ w', AuthForm.handleEmailSubmit env_ok
           (AuthForm.setEmail "alice@example.com" AuthForm.initial) world0
           = (AuthForm.mkState "alice@example.com" EmptyString true false None,
              w') ∧
         sentEmail w' = Some "alice@example.com") ∧
  (∃ w', AuthForm.handleEmailSubmit env_down
           (AuthForm.setEmail "alice@example.com" AuthForm.initial) world0
           = (AuthForm.mkState "alice@example.com" EmptyString false false
                (Some "Failed to send verification code. Please try again."),
              w') ∧
         sentEmail w' = sentEmail world0).
Proof.
  split.
  - apply (proj1 (handleEmailSubmit_outcomes env_ok
                    (AuthForm.setEmail "alice@example.com" AuthForm.initial)
                    world0)).
    reflexivity.
  - apply (proj2 (handleEmailSubmit_outcomes env_down
                    (AuthForm.setEmail "alice@example.com" AuthForm.initial)
                    world0) "network error").
    reflexivity.
Defined.

(** ** [components/NoteList.tsx] *)

Lemma clamp_index_zero (len : nat) : clamp_index len (whole 0) = 0.
Proof.
  unfold clamp_index, whole.
  replace (truncate (QArith_base.inject_Z (Z.of_nat 0))) with 0%Z
    by reflexivity.
  lia.
Qed.

Lemma substring_from_zero (s : list N) (m : Number) :
  substring s (whole 0) m = take (clamp_index (length s) m) s.
Proof.
  unfold substring. rewrite clamp_index_zero.
  by rewrite Nat.min_0_l, Nat.max_0_l, Nat.sub_0_r.
Qed.

Lemma truncate_nonneg (q : QArith_base.Q) :
  QArith_base.Qle (QArith_base.inject_Z 0) q →
  truncate q = Qround.Qfloor q ∧ (0 ≤ Qround.Qfloor q)%Z.
Proof.
  intros Hq. unfold truncate.
  rewrite (proj2 (QArith_base.Qle_bool_iff _ _) Hq). split; [done|].
  rewrite <- (Qround.Qfloor_Z 0). by apply Qround.Qfloor_resp_le.
Qed.

Lemma truncate_negative (q : QArith_base.Q) :
  QArith_base.Qlt q (QArith_base.inject_Z 0) → (truncate q ≤ 0)%Z.
Proof.
  intros Hq. unfold truncate.
  destruct (QArith_base.Qle_bool (QArith_base.inject_Z 0) q) eqn:Hb.
  - apply QArith_base.Qle_bool_iff in Hb.
    by destruct (QArith_base.Qlt_not_le _ _ Hq).
  - rewrite <- (Qround.Qceiling_Z 0). apply Qround.Qceiling_resp_le.
    by apply QArith_base.Qlt_le_weak.
Qed.

Lemma length_le_false (n : nat) (q : QArith_base.Q) :
  QArith_base.Qlt q (QArith_base.inject_Z (Z.of_nat n)) →
  length_le n (Finite q) = false.
Proof.
  intros Hq. unfold length_le. apply not_true_is_false.
  intros Hb%QArith_base.Qle_bool_iff.
  by destruct (QArith_base.Qlt_not_le _ _ Hq).
Qed.

Lemma getExcerpt_cut (content : list N) (q : QArith_base.Q) :
  QArith_base.Qle (QArith_base.inject_Z 0) q →
  QArith_base.Qlt q (QArith_base.inject_Z (Z.of_nat (length content))) →
  NoteList.getExcerpt content (Some (Finite q))
    = take (Z.to_nat (Qround.Qfloor q)) content ++ dots ∧
  (Z.to_nat (Qround.Qfloor q) < length content)%nat.
Proof.
  intros H0 Hlt. unfold NoteList.getExcerpt. cbn [default from_option id]. cbv zeta. unfold id.
  rewrite (length_le_false _ _ Hlt), substring_from_zero.
  destruct (truncate_nonneg q H0) as [Ht Hpos].
  assert (Qround.Qfloor q < Z.of_nat (length content))%Z as Hfl.
  { rewrite QArith_base.Zlt_Qlt.
    eapply QArith_base.Qle_lt_trans; [apply Qround.Qfloor_le|exact Hlt]. }
  unfold clamp_index. rewrite Ht.
  rewrite Z.max_l, Z.min_l by lia. split; [done|lia].
Qed.

Lemma getExcerpt_negative (content : list N) (q : QArith_base.Q) :
  QArith_base.Qlt q (QArith_base.inject_Z 0) →
  NoteList.getExcerpt content (Some (Finite q)) = dots.
Proof.
  intros Hq. unfold NoteList.getExcerpt. cbn [default from_option id]. cbv zeta. unfold id.
  rewrite length_le_false, substring_from_zero.
  - unfold clamp_index. pose proof (truncate_negative q Hq).
    rewrite Z.max_r by lia. rewrite Z.min_l by lia. done.
  - eapply QArith_base.Qlt_le_trans; [exact Hq|].
    rewrite <- QArith_base.Zle_Qle. lia.
Qed.

(** X24. [getExcerpt] on a text of UTF-16 code units.  For a limit that
    is a natural number (100 when none is given) a text of at most that
    many units is returned unchanged, and a longer one is cut to its
    first units up to the limit, followed by three dots, so the excerpt
    then has three units more than the limit.  A limit with a fraction
    cuts at its integer part.  A negative limit, minus infinity or
    not-a-number give the three dots alone, whatever the text, also for
    the empty text; plus infinity returns the text. *)
Theorem getExcerpt_shape (content : list N) :
  (∀ maxLength n,
     maxLength = Some (whole n) ∨ (maxLength = None ∧ n = 100) →
     ((length content ≤ n)%nat →
      NoteList.getExcerpt content maxLength = content) ∧
     ((n < length content)%nat →
      NoteList.getExcerpt content maxLength = take n content ++ dots ∧
      length (NoteList.getExcerpt content maxLength) = (n + 3)%nat)) ∧
  (∀ q, QArith_base.Qle (QArith_base.inject_Z 0) q →
        QArith_base.Qlt q (QArith_base.inject_Z (Z.of_nat (length content))) →
        NoteList.getExcerpt content (Some (Finite q))
          = take (Z.to_nat (Qround.Qfloor q)) content ++ dots) ∧
  (∀ q, QArith_base.Qlt q (QArith_base.inject_Z 0) →
        NoteList.getExcerpt content (Some (Finite q)) = dots) ∧
  NoteList.getExcerpt content (Some NaN) = dots ∧
  NoteList.getExcerpt content (Some NegInfinity) = dots ∧
  NoteList.getExcerpt content (Some PosInfinity) = content.
Proof.
  split; [|split; [|split; [|split; [|split]]]].
  - intros maxLength n Hmax.
    assert (NoteList.getExcerpt content maxLength
            = NoteList.getExcerpt content (Some (whole n))) as ->.
    { by destruct Hmax as [->|[-> ->]]. }
    split.
    + intros Hle. unfold NoteList.getExcerpt, whole, length_le. cbn [default from_option id]. cbv zeta. unfold id.
      rewrite (proj2 (QArith_base.Qle_bool_iff _ _)); [done|].
      rewrite <- QArith_base.Zle_Qle. lia.
    + intros Hlt.
      destruct (getExcerpt_cut content (QArith_base.inject_Z (Z.of_nat n)))
        as [Hcut _].
      * rewrite <- QArith_base.Zle_Qle. lia.
      * rewrite <- QArith_base.Zlt_Qlt. lia.
      * unfold whole. rewrite Hcut, Qround.Qfloor_Z, Nat2Z.id.
        split; [done|]. rewrite length_app, length_take. simpl. lia.
  - intros q H0 Hlt. by destruct (getExcerpt_cut content q H0 Hlt).
  - apply getExcerpt_negative.
  - unfold NoteList.getExcerpt. cbn [default from_option id]. cbv zeta.
    unfold id. cbn [length_le]. by rewrite substring_from_zero.
  - unfold NoteList.getExcerpt. cbn [default from_option id]. cbv zeta.
    unfold id. cbn [length_le]. by rewrite substring_from_zero.
  - reflexivity.
Qed.

Lemma getExcerpt_shape_witness :
  NoteList.getExcerpt (replicate 60 233%N) None = replicate 60 233%N ∧
  (NoteList.getExcerpt [48; 49; 50; 51; 52; 53]%N (Some (whole 4))
     = [48; 49; 50; 51; 46; 46; 46]%N ∧
   length (NoteList.getExcerpt [48; 49; 50; 51; 52; 53]%N (Some (whole 4))) = 7) ∧
  NoteList.getExcerpt [48; 49; 50; 51; 52; 53]%N
    (Some (Finite (QArith_base.Qmake 5 2)))
    = [48; 49; 46; 46; 46]%N ∧
  NoteList.getExcerpt [] (Some (Finite (QArith_base.inject_Z (-1)))) = dots.
Proof.
  split; [|split; [|split]].
  - apply (proj1 (getExcerpt_shape (replicate 60 233%N)) None 100).
    + right. split; reflexivity.
    + rewrite length_replicate. lia.
  - apply (proj1 (getExcerpt_shape [48; 49; 50; 51; 52; 53]%N)
             (Some (whole 4)) 4).
    + left. reflexivity.
    + simpl. lia.
  - apply (proj1 (proj2 (getExcerpt_shape [48; 49; 50; 51; 52; 53]%N))
             (QArith_base.Qmake 5 2)).
    + discriminate.
    + reflexivity.
  - apply (proj1 (proj2 (proj2 (getExcerpt_shape [])))
             (QArith_base.inject_Z (-1))).
    reflexivity.
Defined.

(** ** The creation forms *)

Lemma createNote_calls (E : Env) (u : User) (t c : string)
  (notebookId : option string) (tagIds : option (list string)) (w : World) :
  ∃ chunks,
    calls (createNote E (Some u) t c notebookId tagIds w).2
      = calls w ++ [Transact chunks].
Proof.
  unfold createNote. async_steps.
  match goal with |- context [transact E ?ch ?w1] =>
    pose proof (transact_calls E ch w1) as H; exists ch;
    destruct (transact E ch w1) as [[[]|err] w2] end; exact H.
Qed.

Lemma createNote_rejected (E : Env) (u : User) (t c : string)
  (notebookId : option string) (tagIds : option (list string)) (w : World)
  (err : string) :
  rejection E (length (calls w)) = Some err →
  ∃ w', createNote E (Some u) t c notebookId tagIds w = (Rejected err, w') ∧
        store w' = store w ∧ console w' = console w.
Proof.
  intros Hr. unfold createNote. async_steps.
  match goal with |- context [transact E ?ch ?w1] =>
    rewrite (transact_rejected E ch w1 err Hr) end.
  eexists. split; [reflexivity|]. done.
Qed.

(** X25. The new-note form does nothing, not even a remote call, while
    the title is blank or nobody is signed in.  Otherwise it issues one
    transaction.  When the service accepts, the note is stored and
    selected under the title as typed (not trimmed) with empty content
    and no tags, the form is closed and cleared, and the note is filed in
    the first notebook of the list when there is one (with a non-empty
    identifier), the selected note showing that same notebook.  When the
    service rejects, the form and the selection stay as they were, the
    store is untouched and one error line is logged. *)
Theorem handleCreateNote_outcomes (E : Env) (trim : string → string)
  (user : option User) (notebooks : list NotebookEntity)
  (f : NoteList.State) (currentNote : option NoteWithRelations) (w : World) :
  (trim (NoteList.newNoteTitle f) = EmptyString ∨ user = None →
   NoteList.handleCreateNote E trim user notebooks f currentNote w
     = (f, currentNote, w)) ∧
  (∀ u, user = Some u → trim (NoteList.newNoteTitle f) ≠ EmptyString →
   (∃ chunks,
      calls (NoteList.handleCreateNote E trim user notebooks f currentNote w).2
        = calls w ++ [Transact chunks]) ∧
   (rejection E (length (calls w)) = None →
    ∃ n w',
      NoteList.handleCreateNote E trim user notebooks f currentNote w
        = (NoteList.mkState false EmptyString, Some n, w') ∧
      shown_title n = NoteList.newNoteTitle f ∧
      shown_content n = EmptyString ∧ tags n = [] ∧
      entity_attrs (store w') NsNotes (note_id (note n)) !! "title"
        = Some (VStr (NoteList.newNoteTitle f)) ∧
      (noteCreator, note_id (note n), user_id u) ∈ edges (store w') ∧
      (∀ nb rest, notebooks = nb :: rest → notebook_id nb ≠ EmptyString →
         notebook n = Some nb ∧
         (notebookNotes, notebook_id nb, note_id (note n)) ∈ edges (store w')) ∧
      (notebooks = [] →
         notebook n = None ∧
         ∀ e, e ∈ edges (store w') →
              e ∈ edges (store w) ∨
              e = (noteCreator, note_id (note n), user_id u))) ∧
   (∀ err, rejection E (length (calls w)) = Some err →
    ∃ w',
      NoteList.handleCreateNote E trim user notebooks f currentNote w
        = (f, currentNote, w') ∧
      store w' = store w ∧
      console w' = console w ++ [(LogError, "Failed to create note: " +:+ err)])).
Proof.
  unfold NoteList.handleCreateNote. split.
  - intros [Ht| ->].
    + by rewrite Ht.
    + by rewrite orb_true_r.
  - intros u -> Ht. apply truthy_true in Ht. rewrite Ht.
    rewrite (bool_decide_eq_true_2 (is_Some (Some u))) by eauto.
    cbn [negb orb].
    set (nbid := match notebooks with
                 | nb :: _ => Some (notebook_id nb) | [] => None end).
    split; [|split].
    + destruct (createNote_calls E u (NoteList.newNoteTitle f) EmptyString
                  nbid None w) as [chunks Hc].
      exists chunks.
      destruct (createNote E (Some u) (NoteList.newNoteTitle f) EmptyString
                  nbid None w) as [[created|err] w1]; exact Hc.
    + intros Hr.
      destruct (createNote_store E u (NoteList.newNoteTitle f) EmptyString
                  nbid None w Hr) as (w1 & -> & Hent & Hed).
      eexists _, _. split; [reflexivity|].
      unfold shown_title, shown_content, entity_attrs.
      cbn [note tags notebook title content note_id].
      split; [done|]. split; [done|]. split; [done|].
      rewrite Hent, Hed, lookup_insert_eq. cbn [default foldl].
      split; [lookup_attrs|]. split.
      * subst nbid. destruct notebooks as [|nb rest]; [|destruct (truthy (notebook_id nb))];
          (try (apply elem_of_add_edge; right; split;
                [|apply elem_of_add_edge; by left]; by rewrite displaced_other_link));
          apply elem_of_add_edge; by left.
      * split.
        -- intros nb rest -> Hid. subst nbid. cbn [truthy_opt head].
           apply truthy_true in Hid. rewrite Hid. split; [done|].
           apply elem_of_add_edge. by left.
        -- intros ->. subst nbid. cbn [truthy_opt]. split; [done|].
           intros e [->|[_ He]]%elem_of_add_edge; auto.
    + intros err Hr.
      destruct (createNote_rejected E u (NoteList.newNoteTitle f) EmptyString
                  nbid None w err Hr) as (w1 & -> & Hs & Hc).
      eexists. split; [reflexivity|]. async_steps. by rewrite Hc.
Qed.

Lemma handleCreateNote_outcomes_witness :
  NoteList.handleCreateNote env_ok trim_ascii (Some alice) [notebook_work]
    (NoteList.mkState true "   ") None world_notebook
    = (NoteList.mkState true "   ", None, world_notebook) ∧
  (∃ n w',
     NoteList.handleCreateNote env_ok trim_ascii (Some alice) [notebook_work]
       (NoteList.mkState true " Plan ") None world_notebook
       = (NoteList.mkState false EmptyString, Some n, w') ∧
     shown_title n = " Plan " ∧
     notebook n = Some notebook_work ∧
     (notebookNotes, "id-0", note_id (note n)) ∈ edges (store w')) ∧
  (∃ w',
     NoteList.handleCreateNote env_down trim_ascii (Some alice) [notebook_work]
       (NoteList.mkState true " Plan ") (Some note_a) world_notebook
       = (NoteList.mkState true " Plan ", Some note_a, w') ∧
     store w' = store world_notebook).
Proof.
  assert (trim_ascii " Plan " ≠ EmptyString) as Hne.
  { intros H. vm_compute in H. discriminate H. }
  split; [|split].
  - apply (proj1 (handleCreateNote_outcomes env_ok trim_ascii (Some alice)
                    [notebook_work] (NoteList.mkState true "   ") None
                    world_notebook)).
    left. reflexivity.
  - destruct (proj2 (handleCreateNote_outcomes env_ok trim_ascii (Some alice)
                       [notebook_work] (NoteList.mkState true " Plan ") None
                       world_notebook) alice eq_refl Hne) as (_ & Hok & _).
    destruct (Hok eq_refl) as (n & w' & Hrun & Ht & _ & _ & _ & _ & Hnb & _).
    destruct (Hnb notebook_work [] eq_refl) as [Hsel Hedge].
    { intros H. discriminate H. }
    exists n, w'. split; [exact Hrun|]. split; [exact Ht|].
    split; [exact Hsel|exact Hedge].
  - destruct (proj2 (handleCreateNote_outcomes env_down trim_ascii (Some alice)
                       [notebook_work] (NoteList.mkState true " Plan ")
                       (Some note_a) world_notebook) alice eq_refl Hne)
      as (_ & _ & Hko).
    destruct (Hko "network error" eq_refl) as (w' & Hrun & Hs & _).
    exists w'. split; [exact Hrun|exact Hs].
Defined.

Lemma createNotebook_store (E : Env) (u : User) (nm descr : string) (w : World) :
  rejection E (length (calls w)) = None →
  ∃ w',
    createNotebook E (Some u) nm descr w =
      (Resolved (mkNotebook (gen_id E (ids_drawn w)) nm descr
                   (clock E (clock_reads w))), w') ∧
    entities (store w') =
      <[ (NsNotebooks, gen_id E (ids_drawn w)) :=
           set_attrs [ ("name", VStr nm); ("description", VStr descr);
                       ("createdAt", VStr (clock E (clock_reads w))) ]
             (default ∅
                (entities (store w) !! (NsNotebooks, gen_id E (ids_drawn w)))) ]>
        (entities (store w)) ∧
    edges (store w') =
      add_edge def_notebookCreator
        (notebookCreator, gen_id E (ids_drawn w), user_id u) (edges (store w)) ∧
    length (calls w') = S (length (calls w)) ∧
    console w' = console w.
Proof.
  intros Hr. unfold createNotebook. async_steps.
  rewrite transact_step. cbv zeta. simpl calls. rewrite Hr.
  eexists. split; [reflexivity|].
  cbn [store with_store entities edges calls with_calls console].
  rewrite length_app. cbn [length]. repeat split; lia.
Qed.

Lemma createNotebook_rejected (E : Env) (u : User) (nm descr : string)
  (w : World) (err : string) :
  rejection E (length (calls w)) = Some err →
  ∃ w', createNotebook E (Some u) nm descr w = (Rejected err, w') ∧
        store w' = store w ∧ console w' = console w ∧
        length (calls w') = S (length (calls w)).
Proof.
  intros Hr. unfold createNotebook. async_steps.
  match goal with |- context [transact E ?ch ?w1] =>
    rewrite (transact_rejected E ch w1 err Hr) end.
  eexists. split; [reflexivity|].
  split; [reflexivity|]. split; [reflexivity|].
  cbn [calls with_calls]. rewrite length_app. cbn [length]. simpl. lia.
Qed.

(** X26. The new-notebook form of the sidebar does nothing while the name
    is blank.  With a name it does not look at the session itself: when
    nobody is signed in the provider's refusal is caught, no remote call
    is made, the form stays open with the name kept, and one error line
    is logged.  With a user and an accepting service one transaction
    stores the notebook under the name as typed (not trimmed) with an
    empty description, linked to its creator; the notebook fields of the
    form are cleared and closed and the tag fields are left alone.  When
    the service rejects, the form is unchanged, the store is untouched
    and one error line is logged. *)
Theorem handleAddNotebook_outcomes (E : Env) (trim : string → string)
  (user : option User) (f : Sidebar.State) (w : World) :
  (trim (Sidebar.newNotebookName f) = EmptyString →
   Sidebar.handleAddNotebook E trim user f w = (f, w)) ∧
  (trim (Sidebar.newNotebookName f) ≠ EmptyString →
   (user = None →
    ∃ w', Sidebar.handleAddNotebook E trim user f w = (f, w') ∧
          calls w' = calls w ∧ store w' = store w ∧
          console w' = console w ++
            [(LogError, "Failed to create notebook: User not authenticated")]) ∧
   (∀ u, user = Some u → rejection E (length (calls w)) = None →
    ∃ nb w',
      Sidebar.handleAddNotebook E trim user f w
        = (Sidebar.mkState EmptyString (Sidebar.newTagName f) false
             (Sidebar.addingTag f), w') ∧
      length (calls w') = S (length (calls w)) ∧
      entity_attrs (store w') NsNotebooks nb !! "name"
        = Some (VStr (Sidebar.newNotebookName f)) ∧
      entity_attrs (store w') NsNotebooks nb !! "description"
        = Some (VStr EmptyString) ∧
      (notebookCreator, nb, user_id u) ∈ edges (store w') ∧
      console w' = console w) ∧
   (∀ u err, user = Some u → rejection E (length (calls w)) = Some err →
    ∃ w',
      Sidebar.handleAddNotebook E trim user f w = (f, w') ∧
      length (calls w') = S (length (calls w)) ∧
      store w' = store w ∧
      console w' = console w ++
        [(LogError, "Failed to create notebook: " +:+ err)])).
Proof.
  unfold Sidebar.handleAddNotebook. split.
  - intros Ht. by rewrite Ht.
  - intros Ht. apply truthy_true in Ht. rewrite Ht. cbn [negb].
    split; [|split].
    + intros ->. eexists. split; [reflexivity|]. done.
    + intros u -> Hr.
      destruct (createNotebook_store E u (Sidebar.newNotebookName f) EmptyString
                  w Hr) as (w1 & -> & Hent & Hed & Hcalls & Hcon).
      eexists _, _. split; [reflexivity|]. split; [exact Hcalls|].
      unfold entity_attrs. rewrite Hent, Hed, lookup_insert_eq. cbn [default].
      split; [lookup_attrs|]. split; [lookup_attrs|].
      split; [apply elem_of_add_edge; by left|exact Hcon].
    + intros u err -> Hr.
      destruct (createNotebook_rejected E u (Sidebar.newNotebookName f)
                  EmptyString w err Hr) as (w1 & -> & Hs & Hc & Hcalls).
      eexists. split; [reflexivity|]. async_steps. by rewrite Hc.
Qed.

Lemma handleAddNotebook_outcomes_witness :
  Sidebar.handleAddNotebook env_ok trim_ascii (Some alice)
    (Sidebar.mkState "  " "urgent" true true) world0
    = (Sidebar.mkState "  " "urgent" true true, world0) ∧
  (∃ w', Sidebar.handleAddNotebook env_ok trim_ascii None
           (Sidebar.mkState "Work " "urgent" true true) world0
           = (Sidebar.mkState "Work " "urgent" true true, w') ∧
         calls w' = calls world0 ∧
         console w' =
           [(LogError, "Failed to create notebook: User not authenticated")]) ∧
  (∃ nb w',
     Sidebar.handleAddNotebook env_ok trim_ascii (Some alice)
       (Sidebar.mkState "Work " "urgent" true true) world0
       = (Sidebar.mkState EmptyString "urgent" false true, w') ∧
     entity_attrs (store w') NsNotebooks nb !! "name" = Some (VStr "Work ")) ∧
  (∃ w',
     Sidebar.handleAddNotebook env_down trim_ascii (Some alice)
       (Sidebar.mkState "Work " "urgent" true true) world0
       = (Sidebar.mkState "Work " "urgent" true true, w') ∧
     store w' = store world0).
Proof.
  assert (trim_ascii "Work " ≠ EmptyString) as Hne.
  { intros H. vm_compute in H. discriminate H. }
  split; [|split; [|split]].
  - apply (proj1 (handleAddNotebook_outcomes env_ok trim_ascii (Some alice)
                    (Sidebar.mkState "  " "urgent" true true) world0)).
    reflexivity.
  - destruct (proj2 (handleAddNotebook_outcomes env_ok trim_ascii None
                       (Sidebar.mkState "Work " "urgent" true true) world0) Hne)
      as (Hout & _ & _).
    destruct (Hout eq_refl) as (w' & Hrun & Hc & _ & Hlog).
    exists w'. split; [exact Hrun|]. split; [exact Hc|exact Hlog].
  - destruct (proj2 (handleAddNotebook_outcomes env_ok trim_ascii (Some alice)
                       (Sidebar.mkState "Work " "urgent" true true) world0) Hne)
      as (_ & Hok & _).
    destruct (Hok alice eq_refl eq_refl) as (nb & w' & Hrun & _ & Hn & _).
    exists nb, w'. split; [exact Hrun|exact Hn].
  - destruct (proj2 (handleAddNotebook_outcomes env_down trim_ascii (Some alice)
                       (Sidebar.mkState "Work " "urgent" true true) world0) Hne)
      as (_ & _ & Hko).
    destruct (Hko alice "network error" eq_refl eq_refl) as (w' & Hrun & _ & Hs & _).
    exists w'. split; [exact Hrun|exact Hs].
Defined.

(** ** [components/NoteEditor.tsx] *)

Lemma has_tag_shown (tagId : string) (n : NoteWithRelations) :
  has_tag tagId n = true ↔ ∃ t, t ∈ tags n ∧ tag_id t = tagId.
Proof.
  unfold has_tag. rewrite existsb_exists. split.
  - intros (t & Hin & Ht). exists t. split; [by apply list_elem_of_In|].
    by apply bool_decide_eq_true in Ht.
  - intros (t & Hin & Ht). exists t. split; [by apply list_elem_of_In|].
    by apply bool_decide_eq_true.
Qed.

(** X27. The editor attaches a tag only when the note it shows does not
    carry it: for a tag among the shown ones there is no remote call and
    nothing changes.  Otherwise one transaction links the tag to the
    note; the tag menu is closed when the service accepts and stays open,
    with one error line logged and the store untouched, when it rejects.
    Detaching has no such guard: it always issues its transaction,
    whether or not the tag is shown on the note. *)
Theorem editor_tag_guard (E : Env) (n : NoteWithRelations) (tagId : string)
  (f : NoteEditor.State) (w : World) :
  ((∃ t, t ∈ tags n ∧ tag_id t = tagId) →
   NoteEditor.handleAddTag E (Some n) tagId f w = (f, w)) ∧
  ((∀ t, t ∈ tags n → tag_id t ≠ tagId) →
   (rejection E (length (calls w)) = None →
    ∃ w',
      NoteEditor.handleAddTag E (Some n) tagId f w
        = (NoteEditor.setShowTagDropdown false f, w') ∧
      calls w' = calls w ++
        [ Transact [ tx NsNotes (note_id (note n)) [ link [ ("tags", [tagId]) ] ] ] ] ∧
      (noteTags, note_id (note n), tagId) ∈ edges (store w') ∧
      entities (store w') = entities (store w)) ∧
   (∀ err, rejection E (length (calls w)) = Some err →
    ∃ w',
      NoteEditor.handleAddTag E (Some n) tagId f w = (f, w') ∧
      store w' = store w ∧
      console w' = console w ++ [(LogError, "Failed to add tag: " +:+ err)])) ∧
  (rejection E (length (calls w)) = None →
   calls (NoteEditor.handleRemoveTag E (Some n) tagId w) = calls w ++
     [ Transact [ tx NsNotes (note_id (note n)) [ unlink [ ("tags", [tagId]) ] ] ] ] ∧
   ((noteTags, note_id (note n), tagId)
      ∉ edges (store (NoteEditor.handleRemoveTag E (Some n) tagId w)))).
Proof.
  unfold NoteEditor.handleAddTag, NoteEditor.handleRemoveTag.
  split; [|split].
  - intros Hshown. apply has_tag_shown in Hshown. by rewrite Hshown.
  - intros Hnot.
    assert (has_tag tagId n = false) as ->.
    { apply not_true_is_false. intros (t & Hin & Ht)%has_tag_shown.
      by apply (Hnot t). }
    split.
    + intros Hr.
      destruct (addTagToNote_store E (note_id (note n)) tagId w Hr)
        as (w1 & -> & Hent & Hed & Hcalls).
      eexists. split; [reflexivity|]. split; [exact Hcalls|].
      split; [|exact Hent]. rewrite Hed. apply elem_of_union_l.
      by apply elem_of_singleton.
    + intros err Hr. unfold addTagToNote.
      rewrite (transact_rejected E _ w err Hr).
      eexists. split; [reflexivity|]. done.
  - intros Hr.
    destruct (removeTagFromNote_store E (note_id (note n)) tagId w Hr)
      as (w1 & -> & Hent & Hed & Hcalls).
    split; [exact Hcalls|]. rewrite Hed. intros [_ Hin]%elem_of_difference.
    apply Hin. by apply elem_of_singleton.
Qed.

Lemma editor_tag_guard_witness :
  NoteEditor.handleAddTag env_ok (Some note_c) "id-0"
    (NoteEditor.mkState "C" "text" false false true) world_tagged
    = (NoteEditor.mkState "C" "text" false false true, world_tagged) ∧
  (∃ w',
     NoteEditor.handleAddTag env_ok (Some note_c) "id-7"
       (NoteEditor.mkState "C" "text" false false true) world_tagged
       = (NoteEditor.mkState "C" "text" false false false, w') ∧
     (noteTags, "id-1", "id-7") ∈ edges (store w')) ∧
  (∃ w',
     NoteEditor.handleAddTag env_down (Some note_c) "id-7"
       (NoteEditor.mkState "C" "text" false false true) world_tagged
       = (NoteEditor.mkState "C" "text" false false true, w') ∧
     store w' = store world_tagged) ∧
  ((noteTags, "id-1", "id-7")
     ∉ edges (store (NoteEditor.handleRemoveTag env_ok (Some note_c) "id-7"
                       world_tagged))).
Proof.
  assert (∀ t, t ∈ tags note_c → tag_id t ≠ "id-7") as Hnot.
  { intros t Hin%list_elem_of_singleton. subst t. intros H. discriminate H. }
  split; [|split; [|split]].
  - apply (proj1 (editor_tag_guard env_ok note_c "id-0"
                    (NoteEditor.mkState "C" "text" false false true)
                    world_tagged)).
    exists tag_urgent. split; [apply list_elem_of_here|reflexivity].
  - destruct (proj1 (proj2 (editor_tag_guard env_ok note_c "id-7"
                              (NoteEditor.mkState "C" "text" false false true)
                              world_tagged))) as [Hok _]; [exact Hnot|].
    destruct (Hok eq_refl) as (w' & Hrun & _ & Hedge & _).
    exists w'. split; [exact Hrun|exact Hedge].
  - destruct (proj1 (proj2 (editor_tag_guard env_down note_c "id-7"
                              (NoteEditor.mkState "C" "text" false false true)
                              world_tagged))) as [_ Hko]; [exact Hnot|].
    destruct (Hko "network error" eq_refl) as (w' & Hrun & Hs & _).
    exists w'. split; [exact Hrun|exact Hs].
  - apply (proj2 (proj2 (editor_tag_guard env_ok note_c "id-7"
                           (NoteEditor.mkState "C" "text" false false true)
                           world_tagged))).
    reflexivity.
Defined.

(** X28. Deleting from the editor happens only after the question is
    confirmed: a declined question leaves the selection and the world as
    they were, with no remote call.  A confirmed, accepted deletion
    removes the note's record and its links and always clears the
    selection, the deleted note being the selected one.  A rejected one
    keeps the selection and the store and logs one error line. *)
Theorem handleDeleteNote_outcomes (E : Env) (n : NoteWithRelations) (w : World) :
  NoteEditor.handleDeleteNote E (Some n) false w = (Some n, w) ∧
  (rejection E (length (calls w)) = None →
   ∃ w',
     NoteEditor.handleDeleteNote E (Some n) true w = (None, w') ∧
     entities (store w') !! (NsNotes, note_id (note n)) = None ∧
     (∀ x, ((noteCreator, note_id (note n), x) ∉ edges (store w')) ∧
           ((notebookNotes, x, note_id (note n)) ∉ edges (store w')) ∧
           ((noteTags, note_id (note n), x) ∉ edges (store w'))) ∧
     (∀ k, k ≠ (NsNotes, note_id (note n)) →
           entities (store w') !! k = entities (store w) !! k) ∧
     console w' = console w) ∧
  (∀ err, rejection E (length (calls w)) = Some err →
   ∃ w',
     NoteEditor.handleDeleteNote E (Some n) true w = (Some n, w') ∧
     store w' = store w ∧
     console w' = console w ++ [(LogError, "Failed to delete note: " +:+ err)]).
Proof.
  unfold NoteEditor.handleDeleteNote, deleteNote.
  split; [reflexivity|]. split.
  - intros Hr. rewrite bind_step, transact_step. cbv zeta. rewrite Hr.
    rewrite apply_delete_chunk.
    rewrite (bool_decide_eq_true_2 (note_id (note n) = note_id (note n))) by done.
    eexists. split; [reflexivity|].
    cbn [store with_store entities edges console with_calls].
    split; [apply lookup_delete_eq|]. split; [|split; [|done]].
    + intros x. destruct (touches_note (note_id (note n)) x) as (H1 & H2 & H3).
      repeat split; intros Hin; apply elem_of_filter in Hin as [Hin _];
        apply Hin; by rewrite ?H1, ?H2, ?H3.
    + intros k Hk. by apply lookup_delete_ne.
  - intros err Hr. rewrite bind_step, (transact_rejected E _ w err Hr).
    eexists. split; [reflexivity|]. done.
Qed.

Lemma handleDeleteNote_outcomes_witness :
  (∃ w',
     NoteEditor.handleDeleteNote env_ok (Some note_b) true world_work = (None, w') ∧
     entities (store w') !! (NsNotes, "id-1") = None ∧
     ((notebookNotes, "id-0", "id-1") ∉ edges (store w'))) ∧
  (∃ w',
     NoteEditor.handleDeleteNote env_down (Some note_b) true world_work
       = (Some note_b, w') ∧
     store w' = store world_work).
Proof.
  split.
  - destruct (proj1 (proj2 (handleDeleteNote_outcomes env_ok note_b world_work))
                eq_refl) as (w' & Hrun & Hgone & Hedges & _).
    exists w'. split; [exact Hrun|]. split; [exact Hgone|].
    apply (Hedges "id-0").
  - destruct (proj2 (proj2 (handleDeleteNote_outcomes env_down note_b world_work))
                "network error" eq_refl) as (w' & Hrun & Hs & _).
    exists w'. split; [exact Hrun|exact Hs].
Defined.

(** The [saveNote] of a render writes the title and content that render
    captured, whatever the form holds when it runs. *)
Lemma saveNote_accepted (E : Env) (n : NoteWithRelations)
  (renderedTitle renderedContent : string) (f : NoteEditor.State) (w : World) :
  rejection E (length (calls w)) = None →
  ∃ w',
    NoteEditor.saveNote E (Some n) renderedTitle renderedContent f w
      = (NoteEditor.setIsSaving false f, w') ∧
    note_attrs (store w') (note_id (note n)) !! "title"
      = Some (VStr renderedTitle) ∧
    note_attrs (store w') (note_id (note n)) !! "content"
      = Some (VStr renderedContent) ∧
    note_attrs (store w') (note_id (note n)) !! "updatedAt"
      = Some (VStr (clock E (clock_reads w))) ∧
    note_attrs (store w') (note_id (note n)) !! "isFavorite"
      = note_attrs (store w) (note_id (note n)) !! "isFavorite" ∧
    note_attrs (store w') (note_id (note n)) !! "createdAt"
      = note_attrs (store w) (note_id (note n)) !! "createdAt" ∧
    edges (store w') = edges (store w).
Proof.
  intros Hr. unfold NoteEditor.saveNote, updateNote.
  async_steps. rewrite transact_step. cbv zeta. simpl calls.
  rewrite Hr. eexists. split; [reflexivity|].
  unfold note_attrs. cbn [store with_store entities edges apply_tx fold_steps].
  simpl. rewrite lookup_insert_eq. cbn [default].
  repeat split; lookup_attrs.
Qed.

Lemma elem_of_pending_scheduled {C : Type} (cb : C) (delay : nat)
  (d : option positive) (t : Timers C) (e : positive * nat * C) :
  e ∈ pending (setTimeout cb delay
                 (match d with Some h => clearTimeout h t | None => t end)).2 ↔
  e = (next_handle t, delay, cb) ∨
  (e ∈ pending t ∧ d ≠ Some e.1.1).
Proof.
  unfold setTimeout. cbn [snd pending].
  rewrite elem_of_app, list_elem_of_singleton.
  destruct d as [h|]; cbn [clearTimeout next_handle pending].
  - rewrite (list_elem_of_In (List.filter _ _)), filter_In, <- list_elem_of_In,
      negb_true_iff, bool_decide_eq_false.
    split.
    + intros [[Hin Hne]|Heq]; [right|by left].
      split; [done|]. intros Hd. apply Hne. by injection Hd.
    + intros [Heq|[Hin Hne]]; [by right|left].
      split; [done|]. intros Hd. apply Hne. by rewrite Hd.
  - split.
    + intros [Hin|Heq]; [right|by left]. by split.
    + intros [Heq|[Hin _]]; [by right|by left].
Qed.

(** X29. The [saveNote] of a render writes the title and content that
    render captured; the form it runs on only has its saving flag reset,
    whether the service accepts or rejects.  When it accepts, the stored
    title and content are the captured ones and the update time is the
    clock's, the favorite flag, the creation time and every link being as
    before; when it rejects, the store is untouched and one error line is
    logged.  A change of the title or of the content puts the typed text
    in the form, drops the timer the render knew of, and registers one
    timer of a second under a fresh handle; that timer runs the
    [saveNote] of the render before the keystroke, so when it fires the
    text written is the one shown before the keystroke, not the typed
    one. *)
Theorem saveNote_outcomes (E : Env) (n : NoteWithRelations)
  (f : NoteEditor.State) :
  (∀ renderedTitle renderedContent w,
     rejection E (length (calls w)) = None →
     ∃ w',
       NoteEditor.saveNote E (Some n) renderedTitle renderedContent f w
         = (NoteEditor.setIsSaving false f, w') ∧
       note_attrs (store w') (note_id (note n)) !! "title"
         = Some (VStr renderedTitle) ∧
       note_attrs (store w') (note_id (note n)) !! "content"
         = Some (VStr renderedContent) ∧
       note_attrs (store w') (note_id (note n)) !! "updatedAt"
         = Some (VStr (clock E (clock_reads w))) ∧
       note_attrs (store w') (note_id (note n)) !! "isFavorite"
         = note_attrs (store w) (note_id (note n)) !! "isFavorite" ∧
       note_attrs (store w') (note_id (note n)) !! "createdAt"
         = note_attrs (store w) (note_id (note n)) !! "createdAt" ∧
       edges (store w') = edges (store w)) ∧
  (∀ renderedTitle renderedContent w err,
     rejection E (length (calls w)) = Some err →
     ∃ w',
       NoteEditor.saveNote E (Some n) renderedTitle renderedContent f w
         = (NoteEditor.setIsSaving false f, w') ∧
       store w' = store w ∧
       console w' = console w ++ [(LogError, "Failed to save note: " +:+ err)]) ∧
  (∀ newTitle d t,
     ∃ cb t',
       NoteEditor.handleTitleChange E (Some n) (NoteEditor.title f)
         (NoteEditor.content f) d newTitle f t
         = (NoteEditor.setTitle newTitle f, Some (next_handle t), t') ∧
       (∀ e, e ∈ pending t' ↔
             e = (next_handle t, 1000, cb) ∨ (e ∈ pending t ∧ d ≠ Some e.1.1)) ∧
       ∀ f' w, rejection E (length (calls w)) = None →
         ∃ w',
           cb f' w = (NoteEditor.setIsSaving false f', w') ∧
           note_attrs (store w') (note_id (note n)) !! "title"
             = Some (VStr (NoteEditor.title f)) ∧
           note_attrs (store w') (note_id (note n)) !! "content"
             = Some (VStr (NoteEditor.content f))) ∧
  (∀ newContent d t,
     ∃ cb t',
       NoteEditor.handleContentChange E (Some n) (NoteEditor.title f)
         (NoteEditor.content f) d newContent f t
         = (NoteEditor.setContent newContent f, Some (next_handle t), t') ∧
       (∀ e, e ∈ pending t' ↔
             e = (next_handle t, 1000, cb) ∨ (e ∈ pending t ∧ d ≠ Some e.1.1)) ∧
       ∀ f' w, rejection E (length (calls w)) = None →
         ∃ w',
           cb f' w = (NoteEditor.setIsSaving false f', w') ∧
           note_attrs (store w') (note_id (note n)) !! "title"
             = Some (VStr (NoteEditor.title f)) ∧
           note_attrs (store w') (note_id (note n)) !! "content"
             = Some (VStr (NoteEditor.content f))).
Proof.
  split; [|split; [|split]].
  - intros rt rc w Hr. exact (saveNote_accepted E n rt rc f w Hr).
  - intros rt rc w err Hr. unfold NoteEditor.saveNote, updateNote.
    async_steps.
    match goal with |- context [transact E ?ch ?w1] =>
      rewrite (transact_rejected E ch w1 err Hr) end.
    eexists. split; [reflexivity|]. done.
  - intros newTitle d t.
    exists (NoteEditor.saveNote E (Some n) (NoteEditor.title f)
              (NoteEditor.content f)).
    exists (setTimeout
              (NoteEditor.saveNote E (Some n) (NoteEditor.title f)
                 (NoteEditor.content f)) 1000
              (match d with Some h => clearTimeout h t | None => t end)).2.
    split; [by destruct d|]. split.
    + intros e. apply elem_of_pending_scheduled.
    + intros f' w Hr.
      destruct (saveNote_accepted E n (NoteEditor.title f) (NoteEditor.content f)
                  f' w Hr) as (w' & Hrun & Ht & Hc & _).
      exists w'. split; [exact Hrun|]. split; [exact Ht|exact Hc].
  - intros newContent d t.
    exists (NoteEditor.saveNote E (Some n) (NoteEditor.title f)
              (NoteEditor.content f)).
    exists (setTimeout
              (NoteEditor.saveNote E (Some n) (NoteEditor.title f)
                 (NoteEditor.content f)) 1000
              (match d with Some h => clearTimeout h t | None => t end)).2.
    split; [by destruct d|]. split.
    + intros e. apply elem_of_pending_scheduled.
    + intros f' w Hr.
      destruct (saveNote_accepted E n (NoteEditor.title f) (NoteEditor.content f)
                  f' w Hr) as (w' & Hrun & Ht & Hc & _).
      exists w'. split; [exact Hrun|]. split; [exact Ht|exact Hc].
Qed.

Lemma saveNote_outcomes_witness :
  (∃ w',
     NoteEditor.saveNote env_ok (Some note_b) "B" "body"
       (NoteEditor.mkState "B, revised" "body" true false false) world_work
       = (NoteEditor.mkState "B, revised" "body" false false false, w') ∧
     note_attrs (store w') "id-1" !! "title" = Some (VStr "B")) ∧
  (∃ w',
     NoteEditor.saveNote env_down (Some note_b) "B" "body"
       (NoteEditor.mkState "B, revised" "body" false false false) world_work
       = (NoteEditor.mkState "B, revised" "body" false false false, w') ∧
     store w' = store world_work) ∧
  (∃ cb t',
     NoteEditor.handleTitleChange env_ok (Some note_b) "B" "body" None
       "B, revised" (NoteEditor.mkState "B" "body" false false false)
       (mkTimers 1%positive [])
       = (NoteEditor.mkState "B, revised" "body" false false false,
          Some 1%positive, t') ∧
     (1%positive, 1000, cb) ∈ pending t' ∧
     ∃ w',
       cb (NoteEditor.mkState "B, revised" "body" false false false) world_work
         = (NoteEditor.mkState "B, revised" "body" false false false, w') ∧
       note_attrs (store w') "id-1" !! "title" = Some (VStr "B")).
Proof.
  split; [|split].
  - destruct (proj1 (saveNote_outcomes env_ok note_b
                       (NoteEditor.mkState "B, revised" "body" true false false))
                "B" "body" world_work eq_refl)
      as (w' & Hrun & Ht & _).
    exists w'. split; [exact Hrun|exact Ht].
  - destruct (proj1 (proj2 (saveNote_outcomes env_down note_b
                       (NoteEditor.mkState "B, revised" "body" false false false)))
                "B" "body" world_work "network error" eq_refl)
      as (w' & Hrun & Hs & _).
    exists w'. split; [exact Hrun|exact Hs].
  - destruct (proj1 (proj2 (proj2 (saveNote_outcomes env_ok note_b
                       (NoteEditor.mkState "B" "body" false false false))))
                "B, revised" None (mkTimers 1%positive []))
      as (cb & t' & Hrun & Hpending & Hfire).
    exists cb, t'. split; [exact Hrun|]. split.
    + apply Hpending. left. reflexivity.
    + destruct (Hfire (NoteEditor.mkState "B, revised" "body" false false false)
                  world_work eq_refl) as (w' & Hcb & Ht & _).
      exists w'. split; [exact Hcb|exact Ht].
Defined.
